(** * omada_reboot.py: the [OmadaAPI] client, embedded and verified

    The class of [src/omada_reboot.py] wraps an HTTP session: it reads its
    settings from a YAML file or from the terminal, logs in, keeps the
    session token, and sends GET, POST and PATCH requests whose results
    it returns as a dict together with their JSON text.

    The embedding follows the source method by method.  Python values are
    an inductive type, exceptions are a result type, and everything the
    class touches outside itself (the clock, standard input, the file
    system, the HTTP server, standard output) is either an oracle record
    ([World]) or part of an explicit state ([State]) threaded by a small
    state-and-exception monad.  Dicts handed to [makeApiCall] by the caller
    live in a store and are passed by reference, as in Python. *)

From Stdlib Require Import Ascii String.
From stdpp Require Import gmap strings list pretty.

Open Scope string_scope.
Open Scope Z_scope.

(** ** Python values *)

(** Exceptions that the modelled code, or the libraries it calls, raise.
    [RequestException] stands for the errors of [requests] when no
    response comes back (a refused connection, a timeout, ...), which are
    not [ValueError]s; its errors for a malformed URL, which are, are not
    modelled: the URL of a request is taken to be well formed. *)
Inductive exn : Type :=
| TypeError
| AttributeError
| KeyError (key : string)
| ValueError (msg : string)
| EOFError
| FileNotFoundError
| YAMLError
| JSONDecodeError
| RequestException
| SystemError.

Inductive result (A : Type) : Type :=
| Ok (a : A)
| Raise (e : exn).
Arguments Ok {A} a.
Arguments Raise {A} e.

Definition rbind {A B} (r : result A) (f : A -> result B) : result B :=
  match r with
  | Ok a => f a
  | Raise e => Raise e
  end.

(** Keys of a dict.  [KOther] stands for a hashable key that is not an
    instance of str, int, float, bool or NoneType (a tuple, bytes, a
    frozenset, ...): the keys that [json.dumps] rejects.  It is named by
    the qualified name of its type.  A float key, which [json.dumps]
    writes, has no constructor, as floats have none among the values:
    dicts with float keys are outside the model. *)
Inductive pykey : Type :=
| KStr (s : string)
| KInt (n : Z)
| KBool (b : bool)
| KNone
| KOther (qualname : string).

(** Values.  A str is a sequence of code points below 256; [VList] covers
    list and tuple, which the JSON encoder treats alike; floats are left
    out, and a value is a finite tree, so a list or dict that contains
    itself is not a value.  [VObj] is an object of another type that is
    truthy and supports neither [+] nor subscripting (a Path, a datetime,
    a set or bytes that are not empty, ...), of which only the qualified
    name of its type is kept; the falsy objects of such types (an empty
    set, empty bytes) are outside the model. *)
#[warnings="-register-all"]
Inductive pyval : Type :=
| VNone
| VBool (b : bool)
| VInt (n : Z)
| VStr (s : string)
| VList (items : list pyval)
| VDict (entries : list (pykey * pyval))
| VObj (qualname : string).

Abbreviation pydict := (list (pykey * pyval)).

#[global] Instance exn_eq_dec : EqDecision exn.
Proof. solve_decision. Defined.

#[global] Instance pykey_eq_dec : EqDecision pykey.
Proof. solve_decision. Defined.

(** [bool(v)]. *)
Definition truthy (v : pyval) : bool :=
  match v with
  | VNone => false
  | VBool b => b
  | VInt n => negb (n =? 0)
  | VStr s => negb (String.eqb s EmptyString)
  | VList items => match items with [] => false | _ => true end
  | VDict entries => match entries with [] => false | _ => true end
  | VObj _ => true
  end.

Definition int_of_bool (b : bool) : Z := if b then 1 else 0.

(** [a + b]. *)
Definition py_add (a b : pyval) : result pyval :=
  match a, b with
  | VStr s, VStr t => Ok (VStr (s ++ t))
  | VInt m, VInt n => Ok (VInt (m + n))
  | VInt m, VBool c => Ok (VInt (m + int_of_bool c))
  | VBool c, VInt n => Ok (VInt (int_of_bool c + n))
  | VBool c, VBool d => Ok (VInt (int_of_bool c + int_of_bool d))
  | VList l, VList r => Ok (VList (l ++ r))
  | _, _ => Raise TypeError
  end.

(** ** Dicts: insertion-ordered association lists *)

(** The value stored under a key, [None] when the key is absent. *)
Fixpoint dict_lookup (d : pydict) (k : pykey) : option pyval :=
  match d with
  | [] => None
  | (k', v) :: rest =>
      if decide (k' = k) then Some v else dict_lookup rest k
  end.

(** [d.get(k)] for a str key [k]. *)
Definition dict_get (d : pydict) (k : string) : option pyval :=
  dict_lookup d (KStr k).

(** [d[k] = v]: an existing key keeps its place, a new one goes last. *)
Fixpoint dict_set (d : pydict) (k : string) (v : pyval) : pydict :=
  match d with
  | [] => [(KStr k, v)]
  | (k', v') :: rest =>
      if decide (k' = KStr k) then (k', v) :: rest
      else (k', v') :: dict_set rest k v
  end.

(** [d.update(other)] for an [other] with str keys, taken in order. *)
Definition dict_update (d : pydict) (other : list (string * pyval)) : pydict :=
  fold_left (fun acc kv => dict_set acc kv.1 kv.2) other d.

(** [v[k]] for a str key [k]. *)
Definition py_getitem (v : pyval) (k : string) : result pyval :=
  match v with
  | VDict entries =>
      match dict_get entries k with
      | Some x => Ok x
      | None => Raise (KeyError k)
      end
  | _ => Raise TypeError
  end.

(** ** The JSON encoder used by [safe_json_serialize] *)

Definition dquote : string := String (ascii_of_nat 34) EmptyString.
Definition backslash : string := String (ascii_of_nat 92) EmptyString.

Definition hex_digit (n : N) : string :=
  String (match n with
          | 0 => "0" | 1 => "1" | 2 => "2" | 3 => "3" | 4 => "4"
          | 5 => "5" | 6 => "6" | 7 => "7" | 8 => "8" | 9 => "9"
          | 10 => "a" | 11 => "b" | 12 => "c" | 13 => "d" | 14 => "e"
          | _ => "f"
          end%N)%char EmptyString.

(** The escape of one code point, as [json.dumps] does with its default
    [ensure_ascii=True]: everything outside [' '..'~'], the double quote
    and the backslash are escaped. *)
Definition escape_char (c : ascii) : string :=
  let n := N_of_ascii c in
  if (n =? 34)%N then backslash ++ dquote
  else if (n =? 92)%N then backslash ++ backslash
  else if (n =? 10)%N then backslash ++ "n"
  else if (n =? 13)%N then backslash ++ "r"
  else if (n =? 9)%N then backslash ++ "t"
  else if (n =? 8)%N then backslash ++ "b"
  else if (n =? 12)%N then backslash ++ "f"
  else if ((32 <=? n) && (n <=? 126))%N then String c EmptyString
  else backslash ++ "u00" ++ hex_digit (n / 16) ++ hex_digit (n mod 16).

Fixpoint escape_string (s : string) : string :=
  match s with
  | EmptyString => EmptyString
  | String c rest => escape_char c ++ escape_string rest
  end.

Definition encode_str (s : string) : string :=
  dquote ++ escape_string s ++ dquote.

Fixpoint join (sep : string) (parts : list string) : string :=
  match parts with
  | [] => EmptyString
  | [p] => p
  | p :: rest => p ++ sep ++ join sep rest
  end.

(** The text of a dict key; a key that is not a str, an int, a float, a
    bool or None makes the encoder raise [TypeError] ([skipkeys] is left
    at its default; see [pykey] for float keys). *)
Definition encode_key (k : pykey) : result string :=
  match k with
  | KStr s => Ok (encode_str s)
  | KInt n => Ok (dquote ++ pretty n ++ dquote)
  | KBool b => Ok (dquote ++ (if b then "true" else "false") ++ dquote)
  | KNone => Ok (dquote ++ "null" ++ dquote)
  | KOther _ => Raise TypeError
  end.

(** [json.dumps(o, default=f)] with the default separators and no indent,
    for a callback [f] that maps the object to a str ([default = None] is
    [json.dumps(o)], which raises [TypeError] on such an object).  This is
    the encoder below the limits of the interpreter: the [ValueError] for
    an int of more than 4300 digits and the [RecursionError] for a value
    nested too deep are not modelled (see [within_limits]), and the
    [ValueError] for a circular reference cannot arise on a finite tree. *)
Fixpoint json_dumps (default : option (string -> string)) (o : pyval)
  : result string :=
  match o with
  | VNone => Ok "null"
  | VBool b => Ok (if b then "true" else "false")
  | VInt n => Ok (pretty n)
  | VStr s => Ok (encode_str s)
  | VList items =>
      let fix encode_items (l : list pyval) : result (list string) :=
        match l with
        | [] => Ok []
        | x :: rest =>
            rbind (json_dumps default x) (fun s =>
            rbind (encode_items rest) (fun ss => Ok (s :: ss)))
        end in
      rbind (encode_items items) (fun ss => Ok ("[" ++ join ", " ss ++ "]"))
  | VDict entries =>
      let fix encode_entries (l : pydict) : result (list string) :=
        match l with
        | [] => Ok []
        | (k, v) :: rest =>
            rbind (encode_key k) (fun ks =>
            rbind (json_dumps default v) (fun vs =>
            rbind (encode_entries rest) (fun ss =>
            Ok ((ks ++ ": " ++ vs) :: ss))))
        end in
      rbind (encode_entries entries) (fun ss => Ok ("{" ++ join ", " ss ++ "}"))
  | VObj qualname =>
      match default with
      | Some f => Ok (encode_str (f qualname))
      | None => Raise TypeError
      end
  end.

(** The callback of line 133: [lambda o: f"<<non-serializable: {type(o).__qualname__}>>"]. *)
Definition placeholder (qualname : string) : string :=
  "<<non-serializable: " ++ qualname ++ ">>".

(** [OmadaAPI.safe_json_serialize(obj, indent=4)] (a static method). *)
Definition safe_json_serialize (obj : pyval) (indent : pyval) : result string :=
  json_dumps (Some placeholder) obj.

(** ** Parsed JSON, as [response.json()] returns it *)

#[warnings="-register-all"]
Inductive json : Type :=
| JNull
| JBool (b : bool)
| JNum (n : Z)
| JStr (s : string)
| JArr (items : list json)
| JObj (members : list (string * json)).

Fixpoint of_json (j : json) : pyval :=
  match j with
  | JNull => VNone
  | JBool b => VBool b
  | JNum n => VInt n
  | JStr s => VStr s
  | JArr items => VList (map of_json items)
  | JObj members =>
      VDict ((fix go (l : list (string * json)) : pydict :=
                match l with
                | [] => []
                | (k, v) :: rest => (KStr k, of_json v) :: go rest
                end) members)
  end.

(** ** The world outside the class *)

Definition loc := nat.

(** One call of a method of the [requests] session: the verb and the
    keyword arguments, with the contents that a dict passed as [params]
    has at that moment. *)
Record Request : Type := mkRequest {
  verb : string;
  req_url : pyval;
  req_params : pyval;
  req_data : pyval;
  req_json : pyval
}.

Inductive Reply : Type :=
| ReplyJson (body : json)   (* a response whose body parses as JSON *)
| ReplyNotJson              (* a response whose [.json()] raises *)
| NoReply.                  (* the session method itself raises *)

Inductive FsEntry : Type :=
| NoFile                    (* [is_file()] is false *)
| YamlFile (cfg : pyval)    (* a file that [yaml.load] turns into [cfg] *)
| BadFile.                  (* a file that [yaml.load] rejects *)

(** What the class cannot choose: the clock (the n-th reading of
    [datetime.utcnow()], in milliseconds), the server (its reply to a
    request, given the earlier ones) and the file system. *)
Record World : Type := mkWorld {
  clock : nat -> Z;
  server : list Request -> Request -> Reply;
  fs : string -> FsEntry
}.

(** A value that may be a reference to a dict of the store. *)
Inductive pyobj : Type :=
| Ref (l : loc)
| Val (v : pyval).

(** The dict that [makeApiCall] returns. *)
Abbreviation response := (list (string * pyobj)).

Inductive Event : Type :=
| Sent (r : Request)
| Prompted (prompt : string)
| Printed (v : pyval)
| PrintedResponse (r : response).

Record State : Type := mkState {
  heap : gmap loc pydict;     (* the dicts that are shared by reference *)
  stdin : list string;        (* the lines the user is going to type *)
  ticks : nat;                (* how often the clock has been read *)
  trace : list Event          (* what has been sent and printed, oldest first *)
}.

Fixpoint requests_of (t : list Event) : list Request :=
  match t with
  | [] => []
  | Sent r :: rest => r :: requests_of rest
  | _ :: rest => requests_of rest
  end.

(** ** The monad: state that survives an exception *)

Definition M (A : Type) : Type := State -> result A * State.

Definition ret {A} (a : A) : M A := fun st => (Ok a, st).
Definition raise {A} (e : exn) : M A := fun st => (Raise e, st).
Definition bind {A B} (c : M A) (k : A -> M B) : M B :=
  fun st =>
    match c st with
    | (Ok a, st') => k a st'
    | (Raise e, st') => (Raise e, st')
    end.
Definition lift {A} (r : result A) : M A := fun st => (r, st).

Notation "x <- c ;; k" := (bind c (fun x => k))
  (at level 100, c at next level, right associativity).
Notation "c ;;; k" := (bind c (fun _ => k))
  (at level 100, right associativity).

Definition emit (e : Event) : M unit :=
  fun st => (Ok tt, mkState (heap st) (stdin st) (ticks st) (trace st ++ [e])).

(** [print(v)]. *)
Definition print (v : pyval) : M unit := emit (Printed v).

(** [input(prompt)]: the next line typed, [EOFError] when there is none. *)
Definition input (prompt : string) : M string :=
  fun st =>
    match stdin st with
    | [] => (Raise EOFError,
             mkState (heap st) [] (ticks st) (trace st ++ [Prompted prompt]))
    | line :: rest =>
        (Ok line,
         mkState (heap st) rest (ticks st) (trace st ++ [Prompted prompt]))
    end.

(** A dict literal: a new object in the store. *)
Definition alloc (d : pydict) : M loc :=
  fun st =>
    let l := fresh (dom (heap st)) in
    (Ok l, mkState (<[l := d]> (heap st)) (stdin st) (ticks st) (trace st)).

(** The dict behind a reference.  A reference always denotes an object in
    Python; the model answers [SystemError] for one that does not. *)
Definition deref (l : loc) : M pydict :=
  fun st =>
    match heap st !! l with
    | Some d => (Ok d, st)
    | None => (Raise SystemError, st)
    end.

Definition store (l : loc) (d : pydict) : M unit :=
  fun st => (Ok tt, mkState (<[l := d]> (heap st)) (stdin st) (ticks st) (trace st)).

(** The value of an argument declared [dict = None], as it is now. *)
Definition snapshot (p : option loc) : M pyval :=
  match p with
  | None => ret VNone
  | Some l => d <- deref l ;; ret (VDict d)
  end.

Definition obj_of (p : option loc) : pyobj :=
  match p with
  | None => Val VNone
  | Some l => Ref l
  end.

(** [self.attr] for an attribute that [__init__] assigns on the way. *)
Definition getattr {A} (field : option A) : M A :=
  match field with
  | Some a => ret a
  | None => raise AttributeError
  end.

(** ** The class *)

(** [requests.Session()], of which the class sets [verify]. *)
Record Session : Type := mkSession {
  session_verify : pyval
}.

(** An instance.  The first three attributes are assigned at once;
    the others are [None] here until [__init__] has assigned them. *)
Record OmadaAPI : Type := mkOmadaAPI {
  config_fpath : string;
  token : pyval;
  base_api_path : string;
  config_dict : option pyval;
  baseurl : option pyval;
  site : option pyval;
  verify : option pyval;
  login_username : option pyval;
  login_password : option pyval;
  session : option Session;
  login_token : option pyval
}.

Definition set_token (self : OmadaAPI) (v : pyval) : OmadaAPI :=
  mkOmadaAPI (config_fpath self) v (base_api_path self) (config_dict self)
    (baseurl self) (site self) (verify self) (login_username self)
    (login_password self) (session self) (login_token self).

Definition set_settings (self : OmadaAPI) (b s v : pyval) : OmadaAPI :=
  mkOmadaAPI (config_fpath self) (token self) (base_api_path self)
    (config_dict self) (Some b) (Some s) (Some v) (login_username self)
    (login_password self) (session self) (login_token self).

Definition set_config_dict (self : OmadaAPI) (cfg : pyval) : OmadaAPI :=
  mkOmadaAPI (config_fpath self) (token self) (base_api_path self) (Some cfg)
    (baseurl self) (site self) (verify self) (login_username self)
    (login_password self) (session self) (login_token self).

Definition set_credentials (self : OmadaAPI) (u p : pyval) : OmadaAPI :=
  mkOmadaAPI (config_fpath self) (token self) (base_api_path self)
    (config_dict self) (baseurl self) (site self) (verify self) (Some u)
    (Some p) (session self) (login_token self).

Definition set_session (self : OmadaAPI) (s : Session) : OmadaAPI :=
  mkOmadaAPI (config_fpath self) (token self) (base_api_path self)
    (config_dict self) (baseurl self) (site self) (verify self)
    (login_username self) (login_password self) (Some s) (login_token self).

Definition set_login_token (self : OmadaAPI) (t : pyval) : OmadaAPI :=
  mkOmadaAPI (config_fpath self) (token self) (base_api_path self)
    (config_dict self) (baseurl self) (site self) (verify self)
    (login_username self) (login_password self) (session self) (Some t).

Definition nl : string := String (ascii_of_nat 10) EmptyString.

Section Client.

Variable w : World.

(** [read_yml(yml_fpath)] (a static method). *)
Definition read_yml (yml_fpath : string) : M pyval :=
  match fs w yml_fpath with
  | YamlFile cfg => ret cfg
  | BadFile => raise YAMLError
  | NoFile => raise FileNotFoundError
  end.

(** [get_timestamp()] (a static method): the clock is read once. *)
Definition get_timestamp : M Z :=
  fun st =>
    (Ok (clock w (ticks st)),
     mkState (heap st) (stdin st) (S (ticks st)) (trace st)).

(** [path_to_url(self, path)]. *)
Definition path_to_url (self : OmadaAPI) (path : pyval) : M pyval :=
  b <- getattr (baseurl self) ;;
  x <- lift (py_add b (VStr (base_api_path self))) ;;
  lift (py_add x path).

(** [self.session.get/post/patch(url=..., params=..., ...)]: the call is
    recorded, and the server's answer decides whether it returns. *)
Definition session_request (self : OmadaAPI) (method : string)
    (url : pyval) (endpoint_params : option loc) (data json : pyval)
  : M Reply :=
  _s <- getattr (session self) ;;
  params <- snapshot endpoint_params ;;
  let r := mkRequest method url params data json in
  fun st =>
    let st' := mkState (heap st) (stdin st) (ticks st) (trace st ++ [Sent r]) in
    match server w (requests_of (trace st)) r with
    | NoReply => (Raise RequestException, st')
    | reply => (Ok reply, st')
    end.

(** [data.json()]. *)
Definition reply_json (data : Reply) : M pyval :=
  match data with
  | ReplyJson body => ret (of_json body)
  | _ => raise JSONDecodeError
  end.

(** [makeApiCall(self, url, mode, endpoint_params, data, json, debug,
    include_token, bare_url)].  Only [endpoint_params] is a reference into
    the store; [data] and [json] stand for what these arguments hold when
    lines 88 to 100 hand them to the session, that is after the update of
    line 83: for a caller who passes one dict both as [endpoint_params] and
    as [json], they are the dict with the token and the timestamp in it. *)
Definition makeApiCall (self : OmadaAPI) (url : pyval) (mode : string)
    (endpoint_params : option loc) (data json debug include_token
    bare_url : pyval) : M response :=
  url <- (if truthy bare_url then ret url else path_to_url self url) ;;
  (if truthy include_token then
     match endpoint_params with
     | None => raise AttributeError
     | Some l =>
         d <- deref l ;;
         ts <- get_timestamp ;;
         store l (dict_update d [("token", token self); ("_", VInt ts)])
     end
   else ret tt) ;;;
  data <- (if String.eqb mode "GET" then
             session_request self "GET" url endpoint_params VNone VNone
           else if String.eqb mode "POST" then
             session_request self "POST" url endpoint_params data json
           else if String.eqb mode "PATCH" then
             session_request self "PATCH" url endpoint_params data json
           else raise (ValueError ("Unsupported mode " ++ mode))) ;;
  body <- reply_json data ;;
  params <- snapshot endpoint_params ;;
  params_pretty <- lift (safe_json_serialize params (VInt 4)) ;;
  body_pretty <- lift (safe_json_serialize body (VInt 4)) ;;
  let response :=
    [("url", Val url);
     ("endpoint_params", obj_of endpoint_params);
     ("endpoint_params_pretty", Val (VStr params_pretty));
     ("json_data", Val body);
     ("json_data_pretty", Val (VStr body_pretty))] in
  (if truthy debug then
     print (VStr (nl ++ "URL:")) ;;;
     print url ;;;
     print (VStr (nl ++ "Endpoint Params:")) ;;;
     print (VStr params_pretty) ;;;
     print (VStr (nl ++ "Response:")) ;;;
     print (VStr body_pretty)
   else ret tt) ;;;
  ret response.

(** [result[k]] on the dict that [makeApiCall] returns. *)
Fixpoint response_get (r : response) (k : string) : option pyobj :=
  match r with
  | [] => None
  | (k', v) :: rest => if String.eqb k' k then Some v else response_get rest k
  end.

Definition response_getitem (r : response) (k : string) : M pyobj :=
  match response_get r k with
  | Some o => ret o
  | None => raise (KeyError k)
  end.

(** [o[k]] where [o] may be a reference. *)
Definition obj_getitem (o : pyobj) (k : string) : M pyval :=
  match o with
  | Val v => lift (py_getitem v k)
  | Ref l => d <- deref l ;; lift (py_getitem (VDict d) k)
  end.

(** [login_prompt(self)]. *)
Definition login_prompt (self : OmadaAPI) : M (pyval * pyval) :=
  _login_username <- input ("Omada login: " ++ nl) ;;
  _login_password <- input ("password: " ++ nl) ;;
  endpoint_params <- alloc [(KStr "username", VStr "login_username");
                            (KStr "password", VStr "login_password")] ;;
  result <- makeApiCall self (VStr "/login") "GET" (Some endpoint_params)
              VNone VNone (VBool false) (VBool true) (VBool false) ;;
  emit (PrintedResponse result) ;;;
  ret (VNone, VNone).

(** [login(self)]: returns the token and the instance with it stored. *)
Definition login (self : OmadaAPI) : M (pyval * OmadaAPI) :=
  u <- getattr (login_username self) ;;
  p <- getattr (login_password self) ;;
  let json_dict := VDict [(KStr "username", u); (KStr "password", p)] in
  result <- makeApiCall self (VStr "/login") "POST" None VNone json_dict
              (VBool true) (VBool false) (VBool false) ;;
  json_data <- response_getitem result "json_data" ;;
  res <- obj_getitem json_data "result" ;;
  tok <- lift (py_getitem res "token") ;;
  ret (tok, set_token self tok).

(** [__init__(self, config_fpath, baseurl, site, verify)]. *)
Definition __init__ (fpath : string) (baseurl_arg site_arg verify_arg : pyval)
  : M OmadaAPI :=
  let self := mkOmadaAPI fpath VNone "/api/v2"
                None None None None None None None None in
  self <- match fs w fpath with
          | NoFile =>
              let self := set_settings self baseurl_arg site_arg verify_arg in
              up <- login_prompt self ;;
              ret (set_credentials self up.1 up.2)
          | _ =>
              cfg <- read_yml fpath ;;
              let self := set_config_dict self cfg in
              b <- lift (py_getitem cfg "baseurl") ;;
              s <- lift (py_getitem cfg "site") ;;
              v <- lift (py_getitem cfg "verify") ;;
              let self := set_settings self b s v in
              u <- lift (py_getitem cfg "username") ;;
              p <- lift (py_getitem cfg "password") ;;
              ret (set_credentials self u p)
          end ;;
  v <- getattr (verify self) ;;
  let self := set_session self (mkSession v) in
  ts <- login self ;;
  ret (set_login_token ts.2 ts.1).

End Client.

(** * Vocabulary of the statements

    Nothing below is part of the program: these are the induction
    principle for values, the pieces into which the proofs cut the encoder
    and [makeApiCall], the predicates that the theorems use, and the data
    of the examples. *)

(** ** Induction on values *)

Section PyvalInd.

Variable P : pyval -> Prop.
Hypothesis HNone : P VNone.
Hypothesis HBool : forall b, P (VBool b).
Hypothesis HInt : forall n, P (VInt n).
Hypothesis HStr : forall s, P (VStr s).
Hypothesis HList : forall items, Forall P items -> P (VList items).
Hypothesis HDict :
  forall entries, Forall (fun kv => P kv.2) entries -> P (VDict entries).
Hypothesis HObj : forall q, P (VObj q).

Fixpoint pyval_nested_ind (v : pyval) : P v :=
  match v with
  | VNone => HNone
  | VBool b => HBool b
  | VInt n => HInt n
  | VStr s => HStr s
  | VList items =>
      HList items
        ((fix go (l : list pyval) : Forall P l :=
            match l with
            | [] => Forall_nil_2 P
            | x :: rest => Forall_cons_2 P x rest (pyval_nested_ind x) (go rest)
            end) items)
  | VDict entries =>
      HDict entries
        ((fix go (l : pydict) : Forall (fun kv => P kv.2) l :=
            match l with
            | [] => Forall_nil_2 _
            | kv :: rest =>
                Forall_cons_2 (fun kv => P kv.2) kv rest
                  (pyval_nested_ind kv.2) (go rest)
            end) entries)
  | VObj q => HObj q
  end.

End PyvalInd.

(** ** The encoder, unfolded *)

Definition encode_items (default : option (string -> string))
  : list pyval -> result (list string) :=
  fix encode_items (l : list pyval) : result (list string) :=
    match l with
    | [] => Ok []
    | x :: rest =>
        rbind (json_dumps default x) (fun s =>
        rbind (encode_items rest) (fun ss => Ok (s :: ss)))
    end.

Definition encode_entries (default : option (string -> string))
  : pydict -> result (list string) :=
  fix encode_entries (l : pydict) : result (list string) :=
    match l with
    | [] => Ok []
    | (k, v) :: rest =>
        rbind (encode_key k) (fun ks =>
        rbind (json_dumps default v) (fun vs =>
        rbind (encode_entries rest) (fun ss =>
        Ok ((ks ++ ": " ++ vs) :: ss))))
    end.

(** What the callback does to a value, seen as a rewriting of the value:
    every object the encoder does not know becomes its placeholder str. *)
Fixpoint replace_objects (o : pyval) : pyval :=
  match o with
  | VList items => VList (map replace_objects items)
  | VDict entries =>
      VDict (map (fun kv => (kv.1, replace_objects kv.2)) entries)
  | VObj q => VStr (placeholder q)
  | _ => o
  end.

(** All keys are of the types the encoder accepts. *)
Fixpoint keys_ok (o : pyval) : bool :=
  match o with
  | VList items => forallb keys_ok items
  | VDict entries =>
      forallb (fun kv => match kv.1 with KOther _ => false | _ => true end
                         && keys_ok kv.2) entries
  | _ => true
  end.

(** No unknown object is left in the value. *)
Fixpoint objects_free (o : pyval) : bool :=
  match o with
  | VList items => forallb objects_free items
  | VDict entries => forallb (fun kv => objects_free kv.2) entries
  | VObj _ => false
  | _ => true
  end.

Fixpoint mentions (c : ascii) (s : string) : bool :=
  match s with
  | EmptyString => false
  | String c' rest => Ascii.eqb c' c || mentions c rest
  end.

Definition newline : ascii := ascii_of_nat 10.

(** ** [makeApiCall], stage by stage

    The stages of the body, named so that each can be reasoned about
    alone.  [makeApiCall_stages] shows that they are the body. *)

(** The first stage: the URL that the call uses. *)
Definition build_url (self : OmadaAPI) (url bare_url : pyval) : M pyval :=
  if truthy bare_url then ret url else path_to_url self url.

Section StageDefinitions.

Variable w : World.

(** The second stage, lines 82 to 86: the token and the timestamp. *)
Definition attach_token (self : OmadaAPI) (endpoint_params : option loc)
    (include_token : pyval) : M unit :=
  if truthy include_token then
    match endpoint_params with
    | None => raise AttributeError
    | Some l =>
        d <- deref l ;;
        ts <- get_timestamp w ;;
        store l (dict_update d [("token", token self); ("_", VInt ts)])
    end
  else ret tt.

(** The third stage, lines 88 to 102: the request, by mode. *)
Definition dispatch (self : OmadaAPI) (mode : string) (url : pyval)
    (endpoint_params : option loc) (data json : pyval) : M Reply :=
  if String.eqb mode "GET" then
    session_request w self "GET" url endpoint_params VNone VNone
  else if String.eqb mode "POST" then
    session_request w self "POST" url endpoint_params data json
  else if String.eqb mode "PATCH" then
    session_request w self "PATCH" url endpoint_params data json
  else raise (ValueError ("Unsupported mode " ++ mode)).

(** The state after the token and the timestamp have been put into the
    dict at [l], whose contents were [d]. *)
Definition with_token (self : OmadaAPI) (l : loc) (d : pydict) (st : State)
  : State :=
  mkState
    (<[l := dict_update d [("token", token self);
                           ("_", VInt (clock w (ticks st)))]]> (heap st))
    (stdin st) (S (ticks st)) (trace st).

End StageDefinitions.

(** What [debug] prints, lines 115 to 121. *)
Definition debug_events (url : pyval) (params_pretty body_pretty : string)
  : list Event :=
  [Printed (VStr (nl ++ "URL:")); Printed url;
   Printed (VStr (nl ++ "Endpoint Params:")); Printed (VStr params_pretty);
   Printed (VStr (nl ++ "Response:")); Printed (VStr body_pretty)].

(** The dict of lines 107 to 113. *)
Definition make_response (url : pyval) (endpoint_params : option loc)
    (params_pretty : string) (body : pyval) (body_pretty : string)
  : response :=
  [("url", Val url);
   ("endpoint_params", obj_of endpoint_params);
   ("endpoint_params_pretty", Val (VStr params_pretty));
   ("json_data", Val body);
   ("json_data_pretty", Val (VStr body_pretty))].

(** The last stage, lines 104 to 122: the body of the reply, the dict
    of the result, and the debug output. *)
Definition finish (url : pyval) (endpoint_params : option loc)
    (debug : pyval) (data : Reply) : M response :=
  body <- reply_json data ;;
  params <- snapshot endpoint_params ;;
  params_pretty <- lift (safe_json_serialize params (VInt 4)) ;;
  body_pretty <- lift (safe_json_serialize body (VInt 4)) ;;
  (if truthy debug then
     print (VStr (nl ++ "URL:")) ;;;
     print url ;;;
     print (VStr (nl ++ "Endpoint Params:")) ;;;
     print (VStr params_pretty) ;;;
     print (VStr (nl ++ "Response:")) ;;;
     print (VStr body_pretty)
   else ret tt) ;;;
  ret (make_response url endpoint_params params_pretty body body_pretty).

(** The modes that line 88 to 100 dispatch. *)
Definition supported_modes : list string := ["GET"; "POST"; "PATCH"].

(** The request that a supported mode sends. *)
Definition request_for (mode : string) (url params data json : pyval)
  : Request :=
  if String.eqb mode "GET" then mkRequest "GET" url params VNone VNone
  else mkRequest mode url params data json.

(** ** Predicates and examples *)

(** The keys of a dict, in order. *)
Definition dict_keys (d : pydict) : list pykey := map fst d.

(** The contents of a config file. *)
Definition example_cfg : pyval :=
  VDict [(KStr "baseurl", VStr "https://omada:8043");
         (KStr "site", VStr "Home");
         (KStr "verify", VBool false);
         (KStr "username", VStr "admin");
         (KStr "password", VStr "secret")].

(** A controller that answers every request with a token, a clock that
    starts at 1700000000000 ms, and a file system with [config.yml]. *)
Definition example_world : World :=
  mkWorld
    (fun n => 1700000000000 + Z.of_nat n)
    (fun _ _ => ReplyJson (JObj [("errorCode", JNum 0);
                                 ("result", JObj [("token", JStr "T0K")])]))
    (fun p => if String.eqb p "config.yml" then YamlFile example_cfg
              else NoFile).

(** An instance that has logged in. *)
Definition example_self : OmadaAPI :=
  mkOmadaAPI "config.yml" (VStr "T0K") "/api/v2" (Some example_cfg)
    (Some (VStr "https://omada:8043")) (Some (VStr "Home"))
    (Some (VBool false)) (Some (VStr "admin")) (Some (VStr "secret"))
    (Some (mkSession (VBool false))) (Some (VStr "T0K")).

(** A caller's dict that already has a [token] entry of its own. *)
Definition example_params : pydict :=
  [(KStr "token", VStr "mine"); (KStr "page", VInt 1)].

(** A state in which that dict is in the store, the user is about to
    type two lines, and nothing has happened yet. *)
Definition example_state : State :=
  mkState {[ 0%nat := example_params ]} ["admin"; "secret"] 0 [].

(** C1 as it is written: the parameters of the request hold the token,
    the timestamp and every entry of the caller's dict [d]. *)
Definition sends_token_and_all_entries (w : World) (self : OmadaAPI)
    (st : State) (d : pydict) (r : Request) : Prop :=
  exists params,
    req_params r = VDict params
    /\ dict_get params "token" = Some (token self)
    /\ dict_get params "_" = Some (VInt (clock w (ticks st)))
    /\ (forall k v, dict_lookup d k = Some v -> dict_lookup params k = Some v).

(** [isinstance(e, ValueError)] on the exceptions of the model.  The error
    that [response.json()] raises on a body that is not JSON derives from
    [ValueError]; [RequestException] does not (see [exn]). *)
Definition is_ValueError (e : exn) : bool :=
  match e with
  | ValueError _ | JSONDecodeError => true
  | _ => false
  end.

(** C4 as it is written: the call raises a [ValueError] exactly when the
    mode is none of the three. *)
Definition raises_ValueError_iff_unsupported (w : World) (self : OmadaAPI)
    (url : pyval) (mode : string) (endpoint_params : option loc)
    (data json debug include_token bare_url : pyval) (st : State) : Prop :=
  (exists e,
     (makeApiCall w self url mode endpoint_params data json debug
        include_token bare_url st).1 = Raise e
     /\ is_ValueError e = true)
  <-> (mode ∉ supported_modes).

(** The request of [login]. *)
Definition login_request (b : string) (self : OmadaAPI) (u p : pyval)
  : Request :=
  mkRequest "POST" (VStr (b ++ base_api_path self ++ "/login")) VNone VNone
    (VDict [(KStr "username", u); (KStr "password", p)]).

(** [d["result"]["token"]]. *)
Definition result_token (d : pyval) : result pyval :=
  rbind (py_getitem d "result") (fun r => py_getitem r "token").

(** An attribute has been assigned [cfg[k]]. *)
Definition taken_from (cfg : pyval) (k : string) (field : option pyval)
  : Prop :=
  exists x, py_getitem cfg k = Ok x /\ field = Some x.

(** ** The script and further predicates *)

(** Lines 172 and 173, the script run as a program:
    [OmadaAPI(config_fpath=Path("config.yml"))], with the defaults of the
    other arguments. *)
Definition main (w : World) : M OmadaAPI :=
  __init__ w "config.yml" VNone (VStr "Default") (VBool true).

(** Every code point of the text is a printable ASCII character. *)
Fixpoint printable (s : string) : bool :=
  match s with
  | EmptyString => true
  | String c rest =>
      ((32 <=? N_of_ascii c) && (N_of_ascii c <=? 126))%N && printable rest
  end.

(** The events of a trace that are output of [print]. *)
Fixpoint printed_of (t : list Event) : list Event :=
  match t with
  | [] => []
  | Sent _ :: rest => printed_of rest
  | Prompted _ :: rest => printed_of rest
  | e :: rest => e :: printed_of rest
  end.

(** The state with other lines waiting on standard input. *)
Definition with_stdin (st : State) (lines : list string) : State :=
  mkState (heap st) lines (ticks st) (trace st).

(** Two outcomes that differ at most in what has been printed. *)
Definition agree_up_to_prints {A} (o1 o2 : result A * State) : Prop :=
  o1.1 = o2.1
  /\ heap o1.2 = heap o2.2
  /\ stdin o1.2 = stdin o2.2
  /\ ticks o1.2 = ticks o2.2
  /\ requests_of (trace o1.2) = requests_of (trace o2.2).

(** ** JSON texts, read back

    What it means for a str to be a JSON text, independently of the
    encoder: a reader of the grammar of RFC 8259, restricted to what the
    values of this development need (numbers are integers, and a [\u]
    escape names a code point below 256).  It accepts white space where
    the grammar does, and nothing after the value but white space. *)

Definition is_ws (c : ascii) : bool :=
  let n := N_of_ascii c in
  ((n =? 32) || (n =? 9) || (n =? 10) || (n =? 13))%N.

Fixpoint skip_ws (s : string) : string :=
  match s with
  | String c rest => if is_ws c then skip_ws rest else s
  | EmptyString => s
  end.

Definition digit_of (c : ascii) : option N :=
  let n := N_of_ascii c in
  if ((48 <=? n) && (n <=? 57))%N then Some (n - 48)%N else None.

Fixpoint read_digits (s : string) (acc : N) : N * string :=
  match s with
  | String c rest =>
      match digit_of c with
      | Some d => read_digits rest (10 * acc + d)%N
      | None => (acc, s)
      end
  | EmptyString => (acc, s)
  end.

(** Digits without a sign: a single [0], or a digit that is not [0]
    followed by any digits. *)
Definition read_nat (s : string) : option (N * string) :=
  match s with
  | String c rest =>
      match digit_of c with
      | None => None
      | Some 0%N =>
          match rest with
          | String c' _ =>
              match digit_of c' with
              | Some _ => None
              | None => Some (0%N, rest)
              end
          | EmptyString => Some (0%N, rest)
          end
      | Some d => Some (read_digits rest d)
      end
  | EmptyString => None
  end.

Definition starts_fraction (s : string) : bool :=
  match s with
  | String c _ =>
      let n := N_of_ascii c in ((n =? 46) || (n =? 101) || (n =? 69))%N
  | EmptyString => false
  end.

(** An integer: an optional minus sign and digits; a fraction or an
    exponent after them is refused. *)
Definition read_number (s : string) : option (Z * string) :=
  let signed :=
    match s with
    | String c rest => if (N_of_ascii c =? 45)%N then (true, rest) else (false, s)
    | EmptyString => (false, s)
    end in
  match read_nat signed.2 with
  | Some (n, rest) =>
      if starts_fraction rest then None
      else Some (if signed.1 then - Z.of_N n else Z.of_N n, rest)
  | None => None
  end.

Definition hex_of (c : ascii) : option N :=
  let n := N_of_ascii c in
  if ((48 <=? n) && (n <=? 57))%N then Some (n - 48)%N
  else if ((97 <=? n) && (n <=? 102))%N then Some (n - 87)%N
  else if ((65 <=? n) && (n <=? 70))%N then Some (n - 55)%N
  else None.

Definition hex4 (a b c d : ascii) : option N :=
  match hex_of a, hex_of b, hex_of c, hex_of d with
  | Some x, Some y, Some z, Some t => Some (((x * 16 + y) * 16 + z) * 16 + t)%N
  | _, _, _, _ => None
  end.

Definition push (c : ascii) (r : option (string * string))
  : option (string * string) :=
  match r with
  | Some (s, rest) => Some (String c s, rest)
  | None => None
  end.

(** The contents of a string, from after its opening quote up to the
    closing one: the escapes of the grammar and no raw control character. *)
Fixpoint read_string (s : string) : option (string * string) :=
  match s with
  | EmptyString => None
  | String c rest =>
      let n := N_of_ascii c in
      if (n =? 34)%N then Some (EmptyString, rest)
      else if (n =? 92)%N then
        match rest with
        | String e rest1 =>
            let m := N_of_ascii e in
            if (m =? 34)%N then push e (read_string rest1)
            else if (m =? 92)%N then push e (read_string rest1)
            else if (m =? 47)%N then push e (read_string rest1)
            else if (m =? 98)%N then push (ascii_of_nat 8) (read_string rest1)
            else if (m =? 102)%N then push (ascii_of_nat 12) (read_string rest1)
            else if (m =? 110)%N then push (ascii_of_nat 10) (read_string rest1)
            else if (m =? 114)%N then push (ascii_of_nat 13) (read_string rest1)
            else if (m =? 116)%N then push (ascii_of_nat 9) (read_string rest1)
            else if (m =? 117)%N then
              match rest1 with
              | String h1 (String h2 (String h3 (String h4 rest2))) =>
                  match hex4 h1 h2 h3 h4 with
                  | Some v =>
                      if (v <? 256)%N then push (ascii_of_N v) (read_string rest2)
                      else None
                  | None => None
                  end
              | _ => None
              end
            else None
        | EmptyString => None
        end
      else if (n <? 32)%N then None
      else push c (read_string rest)
  end.

Fixpoint strip_prefix (p s : string) : option string :=
  match p, s with
  | EmptyString, _ => Some s
  | String a p', String b s' => if Ascii.eqb a b then strip_prefix p' s' else None
  | String _ _, EmptyString => None
  end.

Definition literal (word : string) (v : json) (s : string)
  : option (json * string) :=
  match strip_prefix word s with
  | Some rest => Some (v, rest)
  | None => None
  end.

(** A value, the items of an array after its bracket, and the members of
    an object after its brace.  The fuel bounds the nesting. *)
Fixpoint read_value (fuel : nat) (s : string) : option (json * string) :=
  match fuel with
  | O => None
  | S f =>
      match skip_ws s with
      | EmptyString => None
      | String c rest =>
          let n := N_of_ascii c in
          if (n =? 110)%N then literal "ull" JNull rest
          else if (n =? 116)%N then literal "rue" (JBool true) rest
          else if (n =? 102)%N then literal "alse" (JBool false) rest
          else if (n =? 34)%N then
            match read_string rest with
            | Some (x, rest') => Some (JStr x, rest')
            | None => None
            end
          else if (n =? 91)%N then
            match skip_ws rest with
            | String c' rest' =>
                if (N_of_ascii c' =? 93)%N then Some (JArr [], rest')
                else match read_items f rest with
                     | Some (vs, rest'') => Some (JArr vs, rest'')
                     | None => None
                     end
            | EmptyString => None
            end
          else if (n =? 123)%N then
            match skip_ws rest with
            | String c' rest' =>
                if (N_of_ascii c' =? 125)%N then Some (JObj [], rest')
                else match read_members f rest with
                     | Some (ms, rest'') => Some (JObj ms, rest'')
                     | None => None
                     end
            | EmptyString => None
            end
          else
            match read_number (String c rest) with
            | Some (z, rest') => Some (JNum z, rest')
            | None => None
            end
      end
  end
with read_items (fuel : nat) (s : string) : option (list json * string) :=
  match fuel with
  | O => None
  | S f =>
      match read_value f s with
      | Some (v, rest) =>
          match skip_ws rest with
          | String c rest' =>
              if (N_of_ascii c =? 44)%N then
                match read_items f rest' with
                | Some (vs, rest'') => Some (v :: vs, rest'')
                | None => None
                end
              else if (N_of_ascii c =? 93)%N then Some ([v], rest')
              else None
          | EmptyString => None
          end
      | None => None
      end
  end
with read_members (fuel : nat) (s : string)
  : option (list (string * json) * string) :=
  match fuel with
  | O => None
  | S f =>
      match skip_ws s with
      | String q rest =>
          if (N_of_ascii q =? 34)%N then
            match read_string rest with
            | Some (k, rest1) =>
                match skip_ws rest1 with
                | String c rest2 =>
                    if (N_of_ascii c =? 58)%N then
                      match read_value f rest2 with
                      | Some (v, rest3) =>
                          match skip_ws rest3 with
                          | String c' rest4 =>
                              if (N_of_ascii c' =? 44)%N then
                                match read_members f rest4 with
                                | Some (ms, rest5) => Some ((k, v) :: ms, rest5)
                                | None => None
                                end
                              else if (N_of_ascii c' =? 125)%N then
                                Some ([(k, v)], rest4)
                              else None
                          | EmptyString => None
                          end
                      | None => None
                      end
                    else None
                | EmptyString => None
                end
            | None => None
            end
          else None
      | EmptyString => None
      end
  end.

(** The value that a JSON text denotes; [None] when the str is not a JSON
    text of the grammar above.  A text nests less deep than it is long, so
    its length is fuel enough. *)
Definition json_read (s : string) : option json :=
  match read_value (S (String.length s)) s with
  | Some (v, rest) =>
      match skip_ws rest with
      | EmptyString => Some v
      | String _ _ => None
      end
  | None => None
  end.

(** The member name that JSON has for a key: an int in decimal, a bool and
    None by their JSON names.  (Only keys that are not [KOther] have one;
    for those the type name stands in, and no statement relies on it.) *)
Definition key_text (k : pykey) : string :=
  match k with
  | KStr s => s
  | KInt n => pretty n
  | KBool b => if b then "true" else "false"
  | KNone => "null"
  | KOther q => q
  end.

(** The JSON value that a Python value is to be written as: lists and
    dicts member by member, and an object that JSON has no form for as the
    str [<<non-serializable: TypeName>>]. *)
Fixpoint json_of (o : pyval) : json :=
  match o with
  | VNone => JNull
  | VBool b => JBool b
  | VInt n => JNum n
  | VStr s => JStr s
  | VList items => JArr (map json_of items)
  | VDict entries => JObj (map (fun kv => (key_text kv.1, json_of kv.2)) entries)
  | VObj q => JStr ("<<non-serializable: " ++ q ++ ">>")
  end.

(** The text ends here, or goes on with a comma or a closing bracket. *)
Definition delimited (s : string) : bool :=
  match s with
  | EmptyString => true
  | String c _ =>
      let n := N_of_ascii c in ((n =? 44) || (n =? 93) || (n =? 125))%N
  end.

(** A character with which the text of a number begins. *)
Definition number_start (c : ascii) : bool :=
  let n := N_of_ascii c in ((n =? 45) || ((48 <=? n) && (n <=? 57)))%N.

(** A character with which the text of a value can begin. *)
Definition value_start (c : ascii) : bool :=
  let n := N_of_ascii c in
  ((n =? 110) || (n =? 116) || (n =? 102) || (n =? 34) || (n =? 91)
   || (n =? 123) || (n =? 45) || ((48 <=? n) && (n <=? 57)))%N.

(** A character that a JSON string holds as it is. *)
Definition plain (c : ascii) : bool :=
  let n := N_of_ascii c in
  ((32 <=? n) && negb (n =? 34) && negb (n =? 92))%N.

Fixpoint all_chars (p : ascii -> bool) (s : string) : bool :=
  match s with
  | EmptyString => true
  | String c rest => p c && all_chars p rest
  end.

(** Reading the text of a value gives [json_of] of the value, whatever
    follows the text. *)
Definition reads_back (o : pyval) : Prop :=
  forall s, json_dumps (Some placeholder) o = Ok s ->
  forall fuel rest,
    (String.length s < fuel)%nat -> delimited rest = true ->
    read_value fuel (s ++ rest) = Some (json_of o, rest).

(** ** The limits of the interpreter

    [json.dumps] runs into two limits of CPython that [json_dumps] does
    not have: the conversion of an int to text raises [ValueError] beyond
    [sys.get_int_max_str_digits()] digits (4300 unless changed), and the
    encoder, which recurses once per level of nesting and once more into
    the [default] callback, raises [RecursionError] when the recursion
    limit (1000 frames unless changed) is reached.  [within_limits] keeps
    a value well inside both; where a statement says that
    [safe_json_serialize] returns for every object of some kind, it says
    so of the objects within these limits. *)

Definition max_str_digits : nat := 4300.

Definition max_nesting : nat := 100.

(** The digits of [str(n)] are no more than the conversion allows. *)
Definition int_ok (n : Z) : bool :=
  (String.length (pretty (Z.abs n)) <=? max_str_digits)%nat.

(** How deep the encoder recurses on a value. *)
Fixpoint nesting (o : pyval) : nat :=
  match o with
  | VList items => S (foldr Nat.max 0%nat (map nesting items))
  | VDict entries =>
      S (foldr Nat.max 0%nat (map (fun kv => nesting kv.2) entries))
  | VObj _ => 1%nat
  | _ => 0%nat
  end.

(** Every int of the value, also as a key, can be converted. *)
Fixpoint ints_ok (o : pyval) : bool :=
  match o with
  | VInt n => int_ok n
  | VList items => forallb ints_ok items
  | VDict entries =>
      forallb (fun kv => match kv.1 with KInt n => int_ok n | _ => true end
                         && ints_ok kv.2) entries
  | _ => true
  end.

Definition within_limits (o : pyval) : bool :=
  ints_ok o && (nesting o <=? max_nesting)%nat.

(** C10 as it is written, in its first part: whatever the object and the
    indent, a str is returned. *)
Definition always_returns : Prop :=
  forall obj indent : pyval, exists s, safe_json_serialize obj indent = Ok s.

(** * Properties *)

(** ** The encoder *)

Lemma encode_items_cons default x rest :
  encode_items default (x :: rest) =
  rbind (json_dumps default x) (fun s =>
  rbind (encode_items default rest) (fun ss => Ok (s :: ss))).
Proof. reflexivity. Qed.

Lemma encode_entries_cons default k v rest :
  encode_entries default ((k, v) :: rest) =
  rbind (encode_key k) (fun ks =>
  rbind (json_dumps default v) (fun vs =>
  rbind (encode_entries default rest) (fun ss =>
  Ok ((ks ++ ": " ++ vs) :: ss)))).
Proof. reflexivity. Qed.

Lemma json_dumps_list default items :
  json_dumps default (VList items) =
  rbind (encode_items default items) (fun ss => Ok ("[" ++ join ", " ss ++ "]")).
Proof. reflexivity. Qed.

Lemma json_dumps_dict default entries :
  json_dumps default (VDict entries) =
  rbind (encode_entries default entries)
        (fun ss => Ok ("{" ++ join ", " ss ++ "}")).
Proof. reflexivity. Qed.

(** ** Strings *)

Lemma string_app_assoc (s t u : string) : (s ++ t) ++ u = s ++ (t ++ u).
Proof.
  induction s as [|c s IH]; [reflexivity|].
  change (String c ((s ++ t) ++ u) = String c (s ++ (t ++ u))).
  by rewrite IH.
Qed.

Lemma string_app_cons c (s t : string) : String c s ++ t = String c (s ++ t).
Proof. reflexivity. Qed.

Lemma string_app_nil_r (s : string) : s ++ EmptyString = s.
Proof.
  induction s as [|c s IH]; [done|]. by rewrite string_app_cons, IH.
Qed.

Lemma string_length_app (s t : string) :
  String.length (s ++ t) = (String.length s + String.length t)%nat.
Proof.
  induction s as [|c s IH]; [done|]. rewrite string_app_cons. simpl. by rewrite IH.
Qed.

(** ** [safe_json_serialize] *)

Lemma mentions_app c s t :
  mentions c (s ++ t) = mentions c s || mentions c t.
Proof.
  induction s as [|a s IH]; simpl; [done|].
  by rewrite IH, orb_assoc.
Qed.

Lemma escape_char_no_newline c : mentions newline (escape_char c) = false.
Proof. destruct c as [[] [] [] [] [] [] [] []]; vm_compute; reflexivity. Qed.

Lemma escape_string_no_newline s : mentions newline (escape_string s) = false.
Proof.
  induction s as [|c s IH]; simpl; [done|].
  by rewrite mentions_app, escape_char_no_newline, IH.
Qed.

Lemma encode_str_no_newline s : mentions newline (encode_str s) = false.
Proof.
  unfold encode_str.
  by rewrite !mentions_app, escape_string_no_newline.
Qed.

Lemma pretty_N_char_no_newline x :
  Ascii.eqb (pretty_N_char x) newline = false.
Proof.
  destruct x as [|p]; [reflexivity|].
  do 4 (try destruct p as [p|p|]); reflexivity.
Qed.

Lemma pretty_N_go_no_newline x s :
  mentions newline s = false -> mentions newline (pretty_N_go x s) = false.
Proof.
  revert s. induction (N.lt_wf_0 x) as [x _ IH]; intros s Hs.
  destruct (decide (x = 0%N)) as [->|Hx].
  - by rewrite pretty_N_go_0.
  - rewrite pretty_N_go_step by lia.
    apply IH; [apply N.div_lt; lia|].
    simpl. by rewrite pretty_N_char_no_newline, Hs.
Qed.

Lemma pretty_Z_no_newline (n : Z) : mentions newline (pretty n) = false.
Proof.
  assert (HN : forall x : N, mentions newline (pretty x) = false).
  { intros x. unfold pretty, pretty_N. case_decide; [done|].
    by apply pretty_N_go_no_newline. }
  destruct n as [|p|p]; unfold pretty, pretty_Z; [done|apply HN|].
  change ("-" +:+ pretty p) with ("-" ++ pretty (Npos p)).
  by rewrite mentions_app, HN.
Qed.

Lemma join_no_newline parts :
  Forall (fun p => mentions newline p = false) parts ->
  mentions newline (join ", " parts) = false.
Proof.
  induction 1 as [|p rest Hp Hrest IH]; [done|].
  destruct rest as [|q rest]; [done|].
  change (join ", " (p :: q :: rest)) with (p ++ ", " ++ join ", " (q :: rest)).
  by rewrite !mentions_app, Hp, IH.
Qed.

Lemma encode_key_no_newline k s :
  encode_key k = Ok s -> mentions newline s = false.
Proof.
  destruct k as [t|n|[]| |q]; simpl; intros H; simplify_eq; try done.
  - apply encode_str_no_newline.
  - by rewrite !mentions_app, pretty_Z_no_newline.
Qed.

(** The encoder never writes a line break, whatever the callback answers. *)
Lemma json_dumps_no_newline default o :
  forall s, json_dumps default o = Ok s -> mentions newline s = false.
Proof.
  induction o as [ |b|n|t|items IH|entries IH|q] using pyval_nested_ind;
    intros s Hs.
  - by simplify_eq/=.
  - destruct b; by simplify_eq/=.
  - simpl in Hs. simplify_eq. apply pretty_Z_no_newline.
  - simpl in Hs. simplify_eq. apply encode_str_no_newline.
  - rewrite json_dumps_list in Hs.
    assert (Hparts : forall ss, encode_items default items = Ok ss ->
              Forall (fun p => mentions newline p = false) ss).
    { clear Hs. induction IH as [|x rest Hx _ IHrest]; intros ss Hss.
      - simpl in Hss. by simplify_eq.
      - rewrite encode_items_cons in Hss.
        destruct (json_dumps default x) as [sx|] eqn:Ex; [|done].
        destruct (encode_items default rest) as [sr|] eqn:Er; [|done].
        simpl in Hss. simplify_eq. constructor; eauto. }
    destruct (encode_items default items) as [ss|] eqn:E; [|done].
    simpl in Hs. simplify_eq.
    by rewrite !mentions_app, join_no_newline by eauto.
  - rewrite json_dumps_dict in Hs.
    assert (Hparts : forall ss, encode_entries default entries = Ok ss ->
              Forall (fun p => mentions newline p = false) ss).
    { clear Hs. induction IH as [|[k v] rest Hx _ IHrest]; intros ss Hss.
      - simpl in Hss. by simplify_eq.
      - rewrite encode_entries_cons in Hss.
        destruct (encode_key k) as [sk|] eqn:Ek; [|done].
        destruct (json_dumps default v) as [sv|] eqn:Ev; [|done].
        destruct (encode_entries default rest) as [sr|] eqn:Er; [|done].
        simpl in Hss. simplify_eq. constructor; [|eauto].
        rewrite !mentions_app, (encode_key_no_newline _ _ Ek).
        simpl in Hx. by rewrite (Hx _ Ev). }
    destruct (encode_entries default entries) as [ss|] eqn:E; [|done].
    simpl in Hs. simplify_eq.
    by rewrite !mentions_app, join_no_newline by eauto.
  - destruct default; simpl in Hs; simplify_eq.
    apply encode_str_no_newline.
Qed.

(** Encoding with the callback is encoding, without one, the value in
    which the placeholders have been put. *)
Lemma json_dumps_replace_objects o :
  json_dumps (Some placeholder) o = json_dumps None (replace_objects o).
Proof.
  induction o as [ |b|n|t|items IH|entries IH|q] using pyval_nested_ind;
    try reflexivity.
  - simpl replace_objects. rewrite !json_dumps_list.
    f_equal. induction IH as [|x rest Hx _ IHrest]; [done|].
    simpl map. rewrite !encode_items_cons. by rewrite Hx, IHrest.
  - simpl replace_objects. rewrite !json_dumps_dict.
    f_equal. induction IH as [|[k v] rest Hx _ IHrest]; [done|].
    simpl map. rewrite !encode_entries_cons.
    simpl in Hx. by rewrite Hx, IHrest.
Qed.

Lemma replace_objects_free o : objects_free (replace_objects o) = true.
Proof.
  induction o as [ |b|n|t|items IH|entries IH|q] using pyval_nested_ind;
    try reflexivity.
  - simpl. induction IH as [|x rest Hx _ IHrest]; [done|].
    simpl. by rewrite Hx, IHrest.
  - simpl. induction IH as [|[k v] rest Hx _ IHrest]; [done|].
    simpl in *. by rewrite Hx, IHrest.
Qed.

(** With acceptable keys the encoder with a callback always answers. *)
Lemma json_dumps_total f o :
  keys_ok o = true -> exists s, json_dumps (Some f) o = Ok s.
Proof.
  induction o as [ |b|n|t|items IH|entries IH|q] using pyval_nested_ind;
    intros Hk; try (eexists; reflexivity).
  - rewrite json_dumps_list.
    assert (exists ss, encode_items (Some f) items = Ok ss) as [ss ->];
      [|by eexists].
    simpl in Hk. induction IH as [|x rest Hx _ IHrest]; [by eexists|].
    simpl in Hk. apply andb_prop in Hk as [Hk1 Hk2].
    destruct (Hx Hk1) as [sx Ex], (IHrest Hk2) as [sr Er].
    rewrite encode_items_cons, Ex, Er. by eexists.
  - rewrite json_dumps_dict.
    assert (exists ss, encode_entries (Some f) entries = Ok ss) as [ss ->];
      [|by eexists].
    simpl in Hk. induction IH as [|[k v] rest Hx _ IHrest]; [by eexists|].
    simpl in Hk, Hx.
    apply andb_prop in Hk as [Hk1 Hk3]. apply andb_prop in Hk1 as [Hk1 Hk2].
    destruct (Hx Hk2) as [sx Ex], (IHrest Hk3) as [sr Er].
    rewrite encode_entries_cons, Ex, Er.
    destruct k; simpl in *; try discriminate; by eexists.
Qed.

(** Values that come from parsed JSON have str keys only. *)
Lemma of_json_keys_ok j : keys_ok (of_json j) = true.
Proof.
  revert j. fix IH 1. intros [ |b|n|s|items|members]; try reflexivity.
  - simpl. induction items as [|x rest IHrest]; [done|].
    simpl. by rewrite IH, IHrest.
  - simpl. induction members as [|[k v] rest IHrest]; [done|].
    simpl. by rewrite IH, IHrest.
Qed.

(** *** The text, read back *)

Lemma read_string_escape_char c tail :
  read_string (escape_char c ++ tail) = push c (read_string tail).
Proof. destruct c as [[] [] [] [] [] [] [] []]; reflexivity. Qed.

Lemma read_string_escape s rest :
  read_string (escape_string s ++ dquote ++ rest) = Some (s, rest).
Proof.
  induction s as [|c s IH]; [reflexivity|].
  cbn [escape_string]. rewrite string_app_assoc, read_string_escape_char.
  by rewrite IH.
Qed.

Lemma read_string_plain body rest :
  all_chars plain body = true ->
  read_string (body ++ dquote ++ rest) = Some (body, rest).
Proof.
  induction body as [|c body IH]; [reflexivity|].
  cbn [all_chars]. intros [Hc Hb]%andb_prop.
  rewrite string_app_cons.
  assert (forall x, read_string (String c x) = push c (read_string x)) as ->.
  { intros x. revert Hc. destruct c as [[] [] [] [] [] [] [] []];
      try discriminate; reflexivity. }
  by rewrite IH.
Qed.

Lemma digit_of_pretty_N_char x :
  (x < 10)%N -> digit_of (pretty_N_char x) = Some x.
Proof.
  intros Hx.
  assert (x = 0 \/ x = 1 \/ x = 2 \/ x = 3 \/ x = 4 \/ x = 5 \/ x = 6
          \/ x = 7 \/ x = 8 \/ x = 9)%N as H by lia.
  repeat destruct H as [->|H]; try subst x; reflexivity.
Qed.

Lemma plain_digit c d : digit_of c = Some d -> plain c = true.
Proof. destruct c as [[] [] [] [] [] [] [] []]; try discriminate; reflexivity. Qed.

Lemma number_start_digit c d : digit_of c = Some d -> number_start c = true.
Proof. destruct c as [[] [] [] [] [] [] [] []]; try discriminate; reflexivity. Qed.

Lemma all_chars_app p s t :
  all_chars p (s ++ t) = all_chars p s && all_chars p t.
Proof.
  induction s as [|c s IH]; [done|].
  rewrite string_app_cons. cbn [all_chars]. by rewrite IH, andb_assoc.
Qed.

(** The decimal text of a positive number begins with a digit that is not
    0, and reading the digits gives the number back. *)
Lemma pretty_N_go_read x :
  (0 < x)%N ->
  exists c ds d,
    (forall s, pretty_N_go x s = String c (ds ++ s))
    /\ digit_of c = Some d /\ d <> 0%N
    /\ all_chars plain ds = true
    /\ forall r, read_digits (ds ++ r) d = read_digits r x.
Proof.
  induction (N.lt_wf_0 x) as [x _ IH]. intros Hx.
  assert (x < 10 \/ 10 <= x)%N as [Hs|Hl] by lia.
  - exists (pretty_N_char x), EmptyString, x. repeat split.
    + intros s. rewrite pretty_N_go_step by done.
      rewrite N.div_small, N.mod_small by done. by rewrite pretty_N_go_0.
    + by apply digit_of_pretty_N_char.
    + lia.
  - destruct (IH (x `div` 10)%N) as (c & ds & d & Hgo & Hc & Hd & Hp & Hr).
    { apply N.div_lt; lia. }
    { apply N.div_str_pos; lia. }
    exists c, (ds ++ String (pretty_N_char (x `mod` 10)) EmptyString), d.
    assert (Hm : (x `mod` 10 < 10)%N) by (apply N.mod_lt; lia).
    repeat split; try done.
    + intros s. rewrite pretty_N_go_step by done.
      rewrite Hgo. by rewrite string_app_assoc.
    + rewrite all_chars_app, Hp. cbn [all_chars].
      by rewrite (plain_digit _ _ (digit_of_pretty_N_char _ Hm)).
    + intros r. rewrite string_app_assoc, Hr. rewrite string_app_cons.
      cbn [read_digits String.append].
      rewrite (digit_of_pretty_N_char _ Hm).
      f_equal. rewrite (N.div_mod x 10) at 3 by lia. lia.
Qed.

Lemma delimited_not_digit c rest :
  delimited (String c rest) = true -> digit_of c = None.
Proof. destruct c as [[] [] [] [] [] [] [] []]; try discriminate; reflexivity. Qed.

Lemma delimited_not_fraction rest :
  delimited rest = true -> starts_fraction rest = false.
Proof.
  destruct rest as [|c rest]; [done|].
  destruct c as [[] [] [] [] [] [] [] []]; try discriminate; reflexivity.
Qed.

Lemma read_digits_delimited rest acc :
  delimited rest = true -> read_digits rest acc = (acc, rest).
Proof.
  destruct rest as [|c rest]; [done|]. intros H.
  cbn [read_digits]. by rewrite (delimited_not_digit _ _ H).
Qed.

Lemma digit_not_minus c d :
  digit_of c = Some d -> (N_of_ascii c =? 45)%N = false.
Proof. destruct c as [[] [] [] [] [] [] [] []]; try discriminate; reflexivity. Qed.

Lemma read_nat_pretty (p : positive) rest :
  delimited rest = true ->
  exists c tail,
    pretty (Npos p) ++ rest = String c tail
    /\ number_start c = true
    /\ (N_of_ascii c =? 45)%N = false
    /\ all_chars plain (pretty (Npos p)) = true
    /\ read_nat (String c tail) = Some (Npos p, rest).
Proof.
  intros Hrest.
  destruct (pretty_N_go_read (Npos p)) as (c & ds & d & Hgo & Hc & Hd & Hp & Hr);
    [done|].
  exists c, (ds ++ rest).
  assert (pretty (Npos p) = String c ds) as ->.
  { unfold pretty, pretty_N. rewrite decide_False by done.
    by rewrite Hgo, string_app_nil_r. }
  repeat split.
  - by eapply number_start_digit.
  - by eapply digit_not_minus.
  - cbn [all_chars]. by rewrite (plain_digit _ _ Hc), Hp.
  - cbn [read_nat]. rewrite Hc.
    destruct d as [|q]; [done|].
    by rewrite Hr, read_digits_delimited.
Qed.

Lemma read_number_minus x :
  read_number (String "-" x)
  = match read_nat x with
    | Some (n, rest) =>
        if starts_fraction rest then None else Some (- Z.of_N n, rest)
    | None => None
    end.
Proof. reflexivity. Qed.

Lemma read_number_pretty (z : Z) rest :
  delimited rest = true ->
  exists c tail,
    pretty z ++ rest = String c tail
    /\ number_start c = true
    /\ read_number (String c tail) = Some (z, rest).
Proof.
  intros Hrest. destruct z as [|p|p].
  - exists "0"%char, rest. repeat split.
    unfold read_number. cbn [read_nat snd fst N_of_ascii N.eqb].
    change (digit_of "0") with (Some 0%N). cbv iota beta.
    assert (match rest with
            | EmptyString => Some (0%N, rest)
            | String c' _ => match digit_of c' with
                             | Some _ => None
                             | None => Some (0%N, rest)
                             end
            end = Some (0%N, rest)) as Hn.
    { destruct rest as [|c' r]; [done|].
      by rewrite (delimited_not_digit _ _ Hrest). }
    simpl. simpl in Hn. rewrite Hn.
    by rewrite (delimited_not_fraction _ Hrest).
  - destruct (read_nat_pretty p rest Hrest) as (c & tail & E & Hv & Hm & _ & Hn).
    exists c, tail. repeat split; [exact E|exact Hv|].
    unfold read_number. rewrite Hm. cbn [fst snd]. rewrite Hn.
    by rewrite (delimited_not_fraction _ Hrest).
  - destruct (read_nat_pretty p rest Hrest) as (c & tail & E & Hv & Hm & _ & Hn).
    exists "-"%char, (String c tail). repeat split.
    + change (pretty (Z.neg p)) with ("-" ++ pretty (Npos p)).
      by rewrite string_app_cons, <- E.
    + rewrite read_number_minus, Hn.
      by rewrite (delimited_not_fraction _ Hrest).
Qed.

Lemma pretty_Z_plain (z : Z) : all_chars plain (pretty z) = true.
Proof.
  destruct z as [|p|p]; [done| |].
  - by destruct (read_nat_pretty p EmptyString eq_refl) as (_ & _ & _ & _ & _ & H & _).
  - change (pretty (Z.neg p)) with ("-" ++ pretty (Npos p)).
    rewrite string_app_cons. cbn [all_chars].
    by destruct (read_nat_pretty p EmptyString eq_refl) as (_ & _ & _ & _ & _ & H & _).
Qed.

Lemma read_value_space f x : read_value f (String " " x) = read_value f x.
Proof. destruct f; reflexivity. Qed.

Lemma read_items_space f x : read_items f (String " " x) = read_items f x.
Proof. destruct f as [|f]; [done|]. cbn [read_items]. by rewrite read_value_space. Qed.

Lemma read_members_space f x :
  read_members f (String " " x) = read_members f x.
Proof. destruct f; reflexivity. Qed.

Lemma read_value_quote f x :
  read_value (S f) (dquote ++ x)
  = match read_string x with
    | Some (v, rest) => Some (JStr v, rest)
    | None => None
    end.
Proof. reflexivity. Qed.

Lemma read_value_number f c tail :
  number_start c = true ->
  read_value (S f) (String c tail)
  = match read_number (String c tail) with
    | Some (z, rest) => Some (JNum z, rest)
    | None => None
    end.
Proof. destruct c as [[] [] [] [] [] [] [] []]; try discriminate; reflexivity. Qed.

Lemma read_value_list f c tail :
  value_start c = true ->
  read_value (S f) (String "[" (String c tail))
  = match read_items f (String c tail) with
    | Some (vs, rest) => Some (JArr vs, rest)
    | None => None
    end.
Proof. destruct c as [[] [] [] [] [] [] [] []]; try discriminate; reflexivity. Qed.

Lemma read_value_dict f x :
  read_value (S f) (String "{" (dquote ++ x))
  = match read_members f (dquote ++ x) with
    | Some (ms, rest) => Some (JObj ms, rest)
    | None => None
    end.
Proof. reflexivity. Qed.

Lemma read_items_S f s :
  read_items (S f) s
  = match read_value f s with
    | Some (v, rest) =>
        match skip_ws rest with
        | String c rest' =>
            if (N_of_ascii c =? 44)%N then
              match read_items f rest' with
              | Some (vs, rest'') => Some (v :: vs, rest'')
              | None => None
              end
            else if (N_of_ascii c =? 93)%N then Some ([v], rest')
            else None
        | EmptyString => None
        end
    | None => None
    end.
Proof. reflexivity. Qed.

Lemma read_members_quote f x :
  read_members (S f) (dquote ++ x)
  = match read_string x with
    | Some (k, rest1) =>
        match skip_ws rest1 with
        | String c rest2 =>
            if (N_of_ascii c =? 58)%N then
              match read_value f rest2 with
              | Some (v, rest3) =>
                  match skip_ws rest3 with
                  | String c' rest4 =>
                      if (N_of_ascii c' =? 44)%N then
                        match read_members f rest4 with
                        | Some (ms, rest5) => Some ((k, v) :: ms, rest5)
                        | None => None
                        end
                      else if (N_of_ascii c' =? 125)%N then
                        Some ([(k, v)], rest4)
                      else None
                  | EmptyString => None
                  end
              | None => None
              end
            else None
        | EmptyString => None
        end
    | None => None
    end.
Proof. reflexivity. Qed.

Lemma value_start_number c : number_start c = true -> value_start c = true.
Proof. destruct c as [[] [] [] [] [] [] [] []]; try discriminate; reflexivity. Qed.

Lemma pretty_Z_start (z : Z) :
  exists c tail, pretty z = String c tail /\ number_start c = true.
Proof.
  destruct (read_number_pretty z EmptyString eq_refl) as (c & tail & E & Hc & _).
  rewrite string_app_nil_r in E. eauto.
Qed.

(** The text of a value begins with a character that tells its kind. *)
Lemma json_dumps_start d o s :
  json_dumps d o = Ok s ->
  exists c tail, s = String c tail /\ value_start c = true.
Proof.
  destruct o as [ |b|n|t|items|entries|q]; intros H.
  - simplify_eq/=. by eexists _, _.
  - simplify_eq/=. destruct b; by eexists _, _.
  - simplify_eq/=. destruct (pretty_Z_start n) as (c & tail & -> & Hc).
    eauto using value_start_number.
  - simplify_eq/=. by eexists _, _.
  - rewrite json_dumps_list in H.
    destruct (encode_items d items); simplify_eq/=. by eexists _, _.
  - rewrite json_dumps_dict in H.
    destruct (encode_entries d entries); simplify_eq/=. by eexists _, _.
  - simpl in H. destruct d; simplify_eq/=. by eexists _, _.
Qed.

(** The text of a key, between its quotes, reads back as [key_text]. *)
Lemma encode_key_read k ks :
  encode_key k = Ok ks ->
  exists body,
    ks = dquote ++ body ++ dquote
    /\ forall rest, read_string (body ++ dquote ++ rest)
                    = Some (key_text k, rest).
Proof.
  destruct k as [t|n|b| |q]; intros H; simplify_eq/=.
  - exists (escape_string t). split; [done|]. apply read_string_escape.
  - exists (pretty n). split; [done|].
    intros rest. apply read_string_plain, pretty_Z_plain.
  - destruct b; by eexists.
  - by eexists.
Qed.

Lemma read_items_back items :
  Forall reads_back items ->
  forall texts, encode_items (Some placeholder) items = Ok texts ->
  items <> [] ->
  forall fuel rest,
    (String.length (join ", " texts) + 1 < fuel)%nat ->
    read_items fuel (join ", " texts ++ "]" ++ rest)
    = Some (map json_of items, rest).
Proof.
  induction 1 as [|x r Hx _ IH]; [done|].
  intros texts He _ fuel rest Hf.
  rewrite encode_items_cons in He.
  destruct (json_dumps (Some placeholder) x) as [sx|] eqn:Ex; [|done].
  destruct (encode_items (Some placeholder) r) as [sr|] eqn:Er; [|done].
  simpl in He. injection He as <-.
  destruct fuel as [|f]; [lia|]. rewrite read_items_S.
  destruct r as [|y r'].
  - simpl in Er. injection Er as <-. cbn [join] in *.
    rewrite (Hx sx Ex f ("]" ++ rest)); [|lia|reflexivity].
    reflexivity.
  - assert (exists sy sr', sr = sy :: sr') as (sy & sr' & ->).
    { rewrite encode_items_cons in Er.
      destruct (json_dumps (Some placeholder) y); [|done].
      destruct (encode_items (Some placeholder) r'); [|done].
      simpl in Er. injection Er as <-. eauto. }
    change (join ", " (sx :: sy :: sr'))
      with (sx ++ ", " ++ join ", " (sy :: sr')) in *.
    set (J := join ", " (sy :: sr')) in *.
    rewrite !string_length_app in Hf. simpl in Hf.
    rewrite !string_app_assoc.
    rewrite (Hx sx Ex f); [|lia|reflexivity].
    change (skip_ws (", " ++ J ++ "]" ++ rest))
      with (String "," (String " " (J ++ "]" ++ rest))).
    cbv iota. change (N_of_ascii "," =? 44)%N with true. cbv iota.
    rewrite read_items_space.
    rewrite (IH (sy :: sr') eq_refl); [|done|subst J; lia].
    reflexivity.
Qed.

Lemma read_members_back entries :
  Forall (fun kv => reads_back kv.2) entries ->
  forall texts, encode_entries (Some placeholder) entries = Ok texts ->
  entries <> [] ->
  forall fuel rest,
    (String.length (join ", " texts) + 1 < fuel)%nat ->
    read_members fuel (join ", " texts ++ "}" ++ rest)
    = Some (map (fun kv => (key_text kv.1, json_of kv.2)) entries, rest).
Proof.
  induction 1 as [|[k x] r Hx _ IH]; [done|].
  intros texts He _ fuel rest Hf.
  rewrite encode_entries_cons in He.
  destruct (encode_key k) as [ks|] eqn:Ek; [|done].
  destruct (json_dumps (Some placeholder) x) as [sx|] eqn:Ex; [|done].
  destruct (encode_entries (Some placeholder) r) as [sr|] eqn:Er; [|done].
  simpl in He, Hx. injection He as <-.
  destruct (encode_key_read k ks Ek) as (body & -> & Hkey).
  destruct fuel as [|f]; [lia|].
  destruct r as [|[k' y] r'].
  - simpl in Er. injection Er as <-. cbn [join] in *.
    rewrite !string_length_app in Hf. simpl in Hf.
    rewrite !string_app_assoc, read_members_quote.
    rewrite ?string_app_assoc, Hkey.
    change (skip_ws (": " ++ sx ++ "}" ++ rest))
      with (String ":" (String " " (sx ++ "}" ++ rest))).
    cbv iota. change (N_of_ascii ":" =? 58)%N with true. cbv iota.
    rewrite read_value_space.
    rewrite (Hx sx Ex f); [|lia|reflexivity].
    reflexivity.
  - assert (exists sy sr', sr = sy :: sr') as (sy & sr' & ->).
    { rewrite encode_entries_cons in Er.
      destruct (encode_key k'); [|done].
      destruct (json_dumps (Some placeholder) y); [|done].
      destruct (encode_entries (Some placeholder) r'); [|done].
      simpl in Er. injection Er as <-. eauto. }
    match goal with
    | |- context [join ", " (?m :: sy :: sr')] =>
        change (join ", " (m :: sy :: sr'))
          with (m ++ ", " ++ join ", " (sy :: sr')) in *
    end.
    set (J := join ", " (sy :: sr')) in *.
    rewrite !string_length_app in Hf. simpl in Hf.
    rewrite !string_app_assoc, read_members_quote.
    rewrite ?string_app_assoc, Hkey.
    change (skip_ws (": " ++ sx ++ ", " ++ J ++ "}" ++ rest))
      with (String ":" (String " " (sx ++ ", " ++ J ++ "}" ++ rest))).
    cbv iota. change (N_of_ascii ":" =? 58)%N with true. cbv iota.
    rewrite read_value_space.
    rewrite (Hx sx Ex f); [|lia|reflexivity].
    change (skip_ws (", " ++ J ++ "}" ++ rest))
      with (String "," (String " " (J ++ "}" ++ rest))).
    cbv iota. change (N_of_ascii "," =? 44)%N with true. cbv iota.
    rewrite read_members_space.
    rewrite (IH (sy :: sr') eq_refl); [|done|subst J; lia].
    reflexivity.
Qed.

(** The first text of a non-empty list of entries begins with a quote. *)
Lemma encode_entries_start d k v r texts :
  encode_entries d ((k, v) :: r) = Ok texts ->
  exists x, join ", " texts = dquote ++ x.
Proof.
  rewrite encode_entries_cons. intros He.
  destruct (encode_key k) as [ks|] eqn:Ek; [|done].
  destruct (json_dumps d v) as [sx|]; [|done].
  destruct (encode_entries d r) as [sr|]; [|done].
  simpl in He. injection He as <-.
  destruct (encode_key_read k ks Ek) as (body & -> & _).
  destruct sr as [|sy sr'].
  - cbn [join]. rewrite !string_app_assoc. by eexists.
  - match goal with
    | |- context [join ", " (?m :: sy :: sr')] =>
        change (join ", " (m :: sy :: sr'))
          with (m ++ ", " ++ join ", " (sy :: sr'))
    end.
    rewrite !string_app_assoc. by eexists.
Qed.

Lemma encode_items_start d x r texts :
  encode_items d (x :: r) = Ok texts ->
  exists c tail, join ", " texts = String c tail /\ value_start c = true.
Proof.
  rewrite encode_items_cons. intros He.
  destruct (json_dumps d x) as [sx|] eqn:Ex; [|done].
  destruct (encode_items d r) as [sr|]; [|done].
  simpl in He. injection He as <-.
  destruct (json_dumps_start _ _ _ Ex) as (c & tail & -> & Hc).
  destruct sr as [|sy sr'].
  - by exists c, tail.
  - exists c, (tail ++ ", " ++ join ", " (sy :: sr')). by split.
Qed.

(** Reading the text that the encoder wrote gives the value back. *)
Lemma json_dumps_reads_back o : reads_back o.
Proof.
  induction o as [ |b|n|t|items IH|entries IH|q] using pyval_nested_ind;
    intros s Hs fuel rest Hf Hrest; (destruct fuel as [|f]; [lia|]).
  - simpl in Hs; injection Hs as <-. reflexivity.
  - simpl in Hs; injection Hs as <-. by destruct b.
  - simpl in Hs; injection Hs as <-.
    destruct (read_number_pretty n rest Hrest) as (c & tail & -> & Hc & Hn).
    by rewrite (read_value_number _ _ _ Hc), Hn.
  - simpl in Hs; injection Hs as <-. unfold encode_str.
    by rewrite !string_app_assoc, read_value_quote, read_string_escape.
  - rewrite json_dumps_list in Hs.
    destruct (encode_items (Some placeholder) items) as [texts|] eqn:He;
      [|done].
    simpl in Hs. injection Hs as <-.
    destruct items as [|x r].
    + simpl in He. injection He as <-. reflexivity.
    + rewrite !string_length_app in Hf. simpl in Hf.
      pose proof (read_items_back _ IH texts He ltac:(done) f rest
                    ltac:(lia)) as Hr.
      destruct (encode_items_start _ _ _ _ He) as (c & tail & Ej & Hc).
      rewrite !string_app_assoc, string_app_cons. rewrite Ej in Hr |- *.
      rewrite string_app_cons in Hr |- *.
      change (EmptyString ++ String c (tail ++ "]" ++ rest))
        with (String c (tail ++ "]" ++ rest)).
      by rewrite (read_value_list _ _ _ Hc), Hr.
  - rewrite json_dumps_dict in Hs.
    destruct (encode_entries (Some placeholder) entries) as [texts|] eqn:He;
      [|done].
    simpl in Hs. injection Hs as <-.
    destruct entries as [|[k x] r].
    + simpl in He. injection He as <-. reflexivity.
    + rewrite !string_length_app in Hf. simpl in Hf.
      pose proof (read_members_back _ IH texts He ltac:(done) f rest
                    ltac:(lia)) as Hr.
      destruct (encode_entries_start _ _ _ _ _ He) as (y & Ej).
      rewrite !string_app_assoc, string_app_cons. rewrite Ej in Hr |- *.
      rewrite !string_app_assoc in Hr |- *.
      change (EmptyString ++ dquote ++ y ++ "}" ++ rest)
        with (dquote ++ y ++ "}" ++ rest).
      by rewrite read_value_dict, Hr.
  - simpl in Hs; injection Hs as <-. unfold encode_str.
    by rewrite !string_app_assoc, read_value_quote, read_string_escape.
Qed.

(** The reader at work: texts that are JSON, and texts that are not (a
    trailing comma, a bracket left open, a number with a leading zero, a
    fraction, the names Python has for [null] and [true], a str in single
    quotes, a raw line break inside a str). *)
Lemma json_read_examples :
  json_read " { } " = Some (JObj [])
  /\ json_read "[-0, 12, [[]]]" = Some (JArr [JNum 0; JNum 12; JArr [JArr []]])
  /\ json_read (dquote ++ "a" ++ backslash ++ "u00e9" ++ backslash ++ "n"
                ++ dquote)
     = Some (JStr (String "a" (String (ascii_of_nat 233)
                                 (String (ascii_of_nat 10) EmptyString))))
  /\ json_read "[1,]" = None
  /\ json_read "[1, 2" = None
  /\ json_read "[1 2]" = None
  /\ json_read "01" = None
  /\ json_read "1.5" = None
  /\ json_read "None" = None
  /\ json_read "True" = None
  /\ json_read "{1: 2}" = None
  /\ json_read "['a']" = None
  /\ json_read (dquote ++ nl ++ dquote) = None
  /\ json_read "[] []" = None.
Proof. repeat split; reflexivity. Qed.


(** The plain encoder raises on a leaf that JSON has no form for. *)
Lemma json_dumps_without_default_raises q :
  json_dumps None (VList [VInt 1; VObj q]) = Raise TypeError.
Proof. reflexivity. Qed.



(** ** The monad and the state *)

Lemma bind_Ok {A B} (c : M A) (k : A -> M B) st b st' :
  bind c k st = (Ok b, st') ->
  exists a st1, c st = (Ok a, st1) /\ k a st1 = (Ok b, st').
Proof.
  unfold bind. destruct (c st) as [[a|e] st1]; [eauto|done].
Qed.

Lemma bind_Raise {A B} (c : M A) (k : A -> M B) st e st' :
  bind c k st = (Raise e, st') ->
  c st = (Raise e, st') \/
  exists a st1, c st = (Ok a, st1) /\ k a st1 = (Raise e, st').
Proof.
  unfold bind. destruct (c st) as [[a|e1] st1]; [eauto|].
  intros [= -> ->]. by left.
Qed.

Lemma bind_eq {A B} (c : M A) (k : A -> M B) st :
  bind c k st
  = match c st with
    | (Ok a, st') => k a st'
    | (Raise e, st') => (Raise e, st')
    end.
Proof. reflexivity. Qed.

(** One step of a computation: expose the outcome of its first part. *)
Ltac bind_step := rewrite bind_eq; cbv beta.

Lemma requests_of_app t1 t2 :
  requests_of (t1 ++ t2) = (requests_of t1 ++ requests_of t2)%list.
Proof.
  induction t1 as [|[r|p|v|r] t1 IH]; simpl; [done| |done..].
  by rewrite IH.
Qed.

(** [path_to_url] reads the instance only. *)
Lemma path_to_url_state self path st :
  (path_to_url self path st).2 = st.
Proof.
  unfold path_to_url, bind, getattr, lift, ret, raise.
  destruct (baseurl self); [|done].
  destruct (py_add _ _); [|done]. done.
Qed.

Lemma path_to_url_str self b path st :
  baseurl self = Some (VStr b) ->
  path_to_url self (VStr path) st
  = (Ok (VStr (b ++ base_api_path self ++ path)), st).
Proof.
  intros Hb. unfold path_to_url, bind, getattr, lift, ret. rewrite Hb. simpl.
  by rewrite string_app_assoc.
Qed.

(** ** The stages of [makeApiCall] *)

Section Stages.

Variable w : World.

Lemma makeApiCall_stages self url mode endpoint_params data json debug
    include_token bare_url :
  makeApiCall w self url mode endpoint_params data json debug include_token
    bare_url
  = (u <- (if truthy bare_url then ret url else path_to_url self url) ;;
     attach_token w self endpoint_params include_token ;;;
     reply <- dispatch w self mode u endpoint_params data json ;;
     finish u endpoint_params debug reply).
Proof. reflexivity. Qed.

Lemma attach_token_inv self ep it st :
  (truthy it = false /\ attach_token w self ep it st = (Ok tt, st))
  \/ (truthy it = true /\ ep = None
      /\ attach_token w self ep it st = (Raise AttributeError, st))
  \/ (exists l, truthy it = true /\ ep = Some l /\ heap st !! l = None
      /\ attach_token w self ep it st = (Raise SystemError, st))
  \/ (exists l d, truthy it = true /\ ep = Some l /\ heap st !! l = Some d
      /\ attach_token w self ep it st = (Ok tt, with_token w self l d st)).
Proof.
  unfold attach_token.
  destruct (truthy it); [|by left].
  destruct ep as [l|]; [|right; by left].
  unfold bind, deref.
  destruct (heap st !! l) as [d|] eqn:Hl.
  - right; right; right. exists l, d. by rewrite ?Hl.
  - right; right; left. exists l. by rewrite ?Hl.
Qed.

Lemma supported_modes_eqb mode :
  mode ∈ supported_modes <->
  String.eqb mode "GET" || String.eqb mode "POST" || String.eqb mode "PATCH" = true.
Proof.
  unfold supported_modes. rewrite !elem_of_cons, elem_of_nil.
  rewrite !orb_true_iff, !String.eqb_eq. tauto.
Qed.

Lemma dispatch_unsupported self mode url ep data json st :
  mode ∉ supported_modes ->
  dispatch w self mode url ep data json st
  = (Raise (ValueError ("Unsupported mode " ++ mode)), st).
Proof.
  rewrite supported_modes_eqb. unfold dispatch.
  destruct (String.eqb mode "GET"); [by intros []|].
  destruct (String.eqb mode "POST"); [by intros []|].
  destruct (String.eqb mode "PATCH"); [by intros []|]. done.
Qed.

(** What a call of a session method can do. *)
Lemma session_request_inv self method url ep data json st :
  (session self = None
   /\ session_request w self method url ep data json st
      = (Raise AttributeError, st))
  \/ (exists l, ep = Some l /\ heap st !! l = None
      /\ session_request w self method url ep data json st
         = (Raise SystemError, st))
  \/ (exists s params,
        session self = Some s
        /\ snapshot ep st = (Ok params, st)
        /\ let r := mkRequest method url params data json in
           let st' := mkState (heap st) (stdin st) (ticks st)
                        (trace st ++ [Sent r]) in
           session_request w self method url ep data json st
           = (match server w (requests_of (trace st)) r with
              | NoReply => Raise RequestException
              | reply => Ok reply
              end, st')).
Proof.
  unfold session_request, bind, getattr.
  destruct (session self) as [s|]; [|by left].
  right. unfold ret at 1.
  destruct ep as [l|]; simpl.
  - unfold bind, deref. destruct (heap st !! l) as [d|] eqn:Hl.
    + right. exists s, (VDict d). split; [done|]. split; [by rewrite ?Hl|].
      simpl. unfold ret. by destruct (server w _ _).
    + left. by exists l.
  - right. exists s, VNone. split; [done|]. split; [done|].
    simpl. unfold ret. by destruct (server w _ _).
Qed.

Lemma dispatch_supported self mode url ep data json st :
  mode ∈ supported_modes ->
  dispatch w self mode url ep data json st
  = session_request w self (verb (request_for mode url VNone data json)) url ep
      (req_data (request_for mode url VNone data json))
      (req_json (request_for mode url VNone data json)) st.
Proof.
  rewrite supported_modes_eqb. unfold dispatch, request_for.
  destruct (String.eqb mode "GET") eqn:E1; [done|].
  destruct (String.eqb mode "POST") eqn:E2.
  { apply String.eqb_eq in E2 as ->. done. }
  destruct (String.eqb mode "PATCH") eqn:E3; [|done].
  apply String.eqb_eq in E3 as ->. done.
Qed.

End Stages.

#[global] Arguments finish : simpl never.
#[global] Arguments safe_json_serialize : simpl never.
#[global] Arguments session_request : simpl never.

Section Calls.

Variable w : World.

Lemma snapshot_state ep st : (snapshot ep st).2 = st.
Proof.
  destruct ep as [l|]; [|done]. simpl. unfold bind, deref.
  by destruct (heap st !! l).
Qed.

Lemma snapshot_Ok ep st params st' :
  snapshot ep st = (Ok params, st') ->
  st' = st
  /\ match ep with
     | None => params = VNone
     | Some l => exists d, heap st !! l = Some d /\ params = VDict d
     end.
Proof.
  destruct ep as [l|]; simpl.
  - unfold bind, deref. destruct (heap st !! l) as [d|]; [|done].
    intros [= <- <-]. eauto.
  - by intros [= <- <-].
Qed.

(** The last stage sends nothing and leaves the store alone. *)
Lemma finish_frame url ep debug reply st :
  let st' := (finish url ep debug reply st).2 in
  heap st' = heap st /\ stdin st' = stdin st /\ ticks st' = ticks st
  /\ requests_of (trace st') = requests_of (trace st).
Proof.
  unfold finish, bind, reply_json, lift, print, emit, ret, raise.
  destruct reply as [body| |]; simpl; [|done..].
  pose proof (snapshot_state ep st) as Hs.
  destruct (snapshot ep st) as [[params|e] st1]; simpl in Hs; subst st1;
    [|done].
  destruct (safe_json_serialize params _); [|done].
  destruct (safe_json_serialize (of_json body) _); [|done].
  destruct (truthy debug); simpl; [|done].
  repeat split. by rewrite !requests_of_app, !app_nil_r.
Qed.

Lemma finish_Ok url ep debug reply st resp st' :
  finish url ep debug reply st = (Ok resp, st') <->
  exists j params pp bp,
    reply = ReplyJson j
    /\ snapshot ep st = (Ok params, st)
    /\ safe_json_serialize params (VInt 4) = Ok pp
    /\ safe_json_serialize (of_json j) (VInt 4) = Ok bp
    /\ resp = make_response url ep pp (of_json j) bp
    /\ st' = mkState (heap st) (stdin st) (ticks st)
               (trace st ++ (if truthy debug then debug_events url pp bp
                             else [])).
Proof.
  unfold finish, bind, reply_json, lift, print, emit, ret, raise.
  pose proof (snapshot_state ep st) as Hs.
  split.
  - destruct reply as [j| |]; simpl; [|done..].
    destruct (snapshot ep st) as [[params|e] st1]; simpl in Hs; subst st1;
      [|done].
    destruct (safe_json_serialize params _) as [pp|] eqn:Epp; [|done].
    destruct (safe_json_serialize (of_json j) _) as [bp|] eqn:Ebp; [|done].
    destruct (truthy debug); simpl; intros [= <- <-];
      exists j, params, pp, bp; repeat split; try done.
    + by rewrite <- !app_assoc.
    + destruct st. by rewrite app_nil_r.
  - intros (j & params & pp & bp & -> & Hp & Hpp & Hbp & -> & ->).
    simpl. rewrite Hp, Hpp, Hbp.
    destruct (truthy debug); simpl.
    + by rewrite <- !app_assoc.
    + destruct st. by rewrite app_nil_r.
Qed.

End Calls.

Section Characterisation.

Variable w : World.

Lemma build_url_state self url bare_url st :
  (build_url self url bare_url st).2 = st.
Proof.
  unfold build_url. destruct (truthy bare_url); [done|].
  apply path_to_url_state.
Qed.

Lemma build_url_Ok self url bare_url st u st' :
  build_url self url bare_url st = (Ok u, st') -> st' = st.
Proof.
  intros H. pose proof (build_url_state self url bare_url st) as Hs.
  by rewrite H in Hs.
Qed.

Lemma request_for_eta mode url params data json :
  request_for mode url params data json
  = mkRequest (verb (request_for mode url VNone data json)) url params
      (req_data (request_for mode url VNone data json))
      (req_json (request_for mode url VNone data json)).
Proof. unfold request_for. by destruct (String.eqb mode "GET"). Qed.

Lemma snapshot_heap ep st st' params :
  snapshot ep st = (Ok params, st) -> heap st' = heap st ->
  snapshot ep st' = (Ok params, st').
Proof.
  destruct ep as [l|]; simpl; [|by intros [= <-]].
  unfold bind, deref. intros H Hh. rewrite Hh.
  destruct (heap st !! l); [|done]. by injection H as <-.
Qed.

Lemma attach_token_trace self ep it st :
  trace (attach_token w self ep it st).2 = trace st.
Proof.
  destruct (attach_token_inv w self ep it st)
    as [[_ ->]|[(_ & _ & ->)|[(l & _ & _ & _ & ->)|(l & d & _ & _ & _ & ->)]]];
    done.
Qed.

(** When, and with what, the call returns. *)
Lemma makeApiCall_Ok self url mode ep data json debug it bu st resp st' :
  makeApiCall w self url mode ep data json debug it bu st = (Ok resp, st') <->
  exists u st1 params j pp bp,
    build_url self url bu st = (Ok u, st)
    /\ attach_token w self ep it st = (Ok tt, st1)
    /\ mode ∈ supported_modes
    /\ is_Some (session self)
    /\ snapshot ep st1 = (Ok params, st1)
    /\ server w (requests_of (trace st)) (request_for mode u params data json)
       = ReplyJson j
    /\ safe_json_serialize params (VInt 4) = Ok pp
    /\ safe_json_serialize (of_json j) (VInt 4) = Ok bp
    /\ resp = make_response u ep pp (of_json j) bp
    /\ st' = mkState (heap st1) (stdin st1) (ticks st1)
               (trace st ++
                Sent (request_for mode u params data json)
                :: (if truthy debug then debug_events u pp bp else [])).
Proof.
  rewrite makeApiCall_stages. fold (build_url self url bu). split.
  - intros H.
    apply bind_Ok in H as (u & st0 & Hu & H).
    pose proof (build_url_Ok _ _ _ _ _ _ Hu) as ->.
    apply bind_Ok in H as ([] & st1 & Ha & H).
    apply bind_Ok in H as (reply & st2 & Hd & Hf).
    pose proof (attach_token_trace self ep it st) as Ht.
    rewrite Ha in Ht. simpl in Ht.
    destruct (decide (mode ∈ supported_modes)) as [Hm|Hm];
      [|by rewrite dispatch_unsupported in Hd].
    rewrite dispatch_supported in Hd by done.
    destruct (session_request_inv w self
                (verb (request_for mode u VNone data json)) u ep
                (req_data (request_for mode u VNone data json))
                (req_json (request_for mode u VNone data json)) st1)
      as [[_ E]|[(l & _ & _ & E)|(s & params & Hs & Hp & E)]];
      [by rewrite E in Hd..|].
    simpl in E. rewrite <- request_for_eta in E. rewrite Ht in E.
    rewrite E in Hd.
    apply finish_Ok in Hf as (j & params' & pp & bp & -> & Hp' & Hpp & Hbp & -> & ->).
    injection Hd as Hreply <-. simpl in *.
    assert (params' = params) as ->.
    { rewrite (snapshot_heap ep st1 _ params Hp) in Hp' by reflexivity.
      by injection Hp' as <-. }
    exists u, st1, params, j, pp, bp.
    repeat split; try done.
    + destruct (server w _ _); by simplify_eq.
    + by rewrite <- app_assoc.
  - intros (u & st1 & params & j & pp & bp & Hu & Ha & Hm & [s Hs] & Hp & Hr
            & Hpp & Hbp & -> & ->).
    pose proof (attach_token_trace self ep it st) as Ht.
    rewrite Ha in Ht. simpl in Ht.
    unfold bind at 1. rewrite Hu.
    unfold bind at 1. rewrite Ha.
    unfold bind at 1. rewrite dispatch_supported by done.
    destruct (session_request_inv w self
                (verb (request_for mode u VNone data json)) u ep
                (req_data (request_for mode u VNone data json))
                (req_json (request_for mode u VNone data json)) st1)
      as [[E _]|[(l & -> & Hl & _)|(s' & params' & _ & Hp' & E)]].
    + by rewrite Hs in E.
    + apply snapshot_Ok in Hp as [_ (d & Hd & _)]. by rewrite Hl in Hd.
    + rewrite Hp in Hp'. injection Hp' as <-.
      simpl in E. rewrite <- request_for_eta in E. rewrite Ht in E.
      rewrite E, Hr.
      apply finish_Ok. exists j, params, pp, bp.
      repeat split; try done.
      * by apply (snapshot_heap ep st1).
      * simpl. by rewrite <- app_assoc.
Qed.

(** The requests of a call, whatever its outcome: none, or the one that
    the mode asks for, with the URL of the first stage and the contents
    that the parameters have after the second. *)
Lemma makeApiCall_requests self url mode ep data json debug it bu st :
  let st' := (makeApiCall w self url mode ep data json debug it bu st).2 in
  requests_of (trace st') = requests_of (trace st)
  \/ exists u st1 params,
       build_url self url bu st = (Ok u, st)
       /\ attach_token w self ep it st = (Ok tt, st1)
       /\ mode ∈ supported_modes
       /\ snapshot ep st1 = (Ok params, st1)
       /\ requests_of (trace st')
          = (requests_of (trace st)
             ++ [request_for mode u params data json])%list.
Proof.
  rewrite makeApiCall_stages. fold (build_url self url bu).
  bind_step.
  pose proof (build_url_state self url bu st) as Hu.
  destruct (build_url self url bu st) as [[u|e] st0]; simpl in Hu; subst st0;
    [|by left].
  bind_step.
  pose proof (attach_token_trace self ep it st) as Ht.
  destruct (attach_token w self ep it st) as [[[]|e] st1] eqn:Ha;
    simpl in Ht; [|left; simpl; by rewrite Ht].
  destruct (decide (mode ∈ supported_modes)) as [Hm|Hm].
  2:{ left. bind_step. rewrite dispatch_unsupported by done.
      simpl. by rewrite Ht. }
  bind_step. rewrite dispatch_supported by done.
  destruct (session_request_inv w self
              (verb (request_for mode u VNone data json)) u ep
              (req_data (request_for mode u VNone data json))
              (req_json (request_for mode u VNone data json)) st1)
    as [[_ E]|[(l & _ & _ & E)|(s & params & Hs & Hp & E)]];
    [rewrite E; left; simpl; by rewrite Ht..|].
  simpl in E. rewrite <- request_for_eta in E. rewrite Ht in E. rewrite E.
  right. exists u, st1, params. repeat split; try done.
  destruct (server w _ _) as [j| |]; simpl.
  - match goal with
    | |- context [finish ?a ?b ?c ?d ?e] =>
        destruct (finish_frame a b c d e) as (_ & _ & _ & Hf)
    end.
    simpl in Hf. rewrite Hf. by rewrite requests_of_app.
  - by rewrite requests_of_app.
  - by rewrite requests_of_app.
Qed.

(** *** Which exceptions a stage can raise *)

Lemma py_add_Raise a b e : py_add a b = Raise e -> e = TypeError.
Proof. destruct a, b; simpl; congruence. Qed.

Lemma build_url_Raise self url bu st e st' :
  build_url self url bu st = (Raise e, st') ->
  e = AttributeError \/ e = TypeError.
Proof.
  unfold build_url. destruct (truthy bu); [done|].
  unfold path_to_url, bind, getattr, lift, ret, raise.
  destruct (baseurl self) as [b|]; [|intros [= <- _]; by left].
  destruct (py_add b _) as [x|e1] eqn:E1.
  - destruct (py_add x url) as [y|e2] eqn:E2; [done|].
    intros [= <- _]. right. by apply py_add_Raise in E2.
  - intros [= <- _]. right. by apply py_add_Raise in E1.
Qed.

Lemma json_dumps_Raise default o e :
  json_dumps default o = Raise e -> e = TypeError.
Proof.
  induction o as [ |b|n|t|items IH|entries IH|q] using pyval_nested_ind;
    try done.
  - rewrite json_dumps_list.
    assert (encode_items default items = Raise e -> e = TypeError) as Hi.
    { induction IH as [|x rest Hx _ IHrest]; [done|].
      rewrite encode_items_cons.
      destruct (json_dumps default x); [|simpl; intros [= <-]; by apply Hx].
      destruct (encode_items default rest); [done|].
      simpl. intros [= <-]. by apply IHrest. }
    destruct (encode_items default items); [done|].
    simpl. intros [= <-]. by apply Hi.
  - rewrite json_dumps_dict.
    assert (encode_entries default entries = Raise e -> e = TypeError) as Hi.
    { induction IH as [|[k v] rest Hx _ IHrest]; [done|].
      rewrite encode_entries_cons. simpl in Hx.
      destruct (encode_key k) eqn:Ek;
        [|simpl; intros [= <-]; destruct k; simpl in Ek; by simplify_eq].
      destruct (json_dumps default v);
        [|simpl; intros [= <-]; by apply Hx].
      destruct (encode_entries default rest); [done|].
      simpl. intros [= <-]. by apply IHrest. }
    destruct (encode_entries default entries); [done|].
    simpl. intros [= <-]. by apply Hi.
  - destruct default; simpl; by intros [= <-].
Qed.

Lemma finish_Raise url ep debug reply st e st' :
  finish url ep debug reply st = (Raise e, st') ->
  e = JSONDecodeError \/ e = SystemError \/ e = TypeError.
Proof.
  unfold finish, bind, reply_json, lift, print, emit, ret, raise.
  destruct reply as [j| |]; simpl; [|intros [= <- _]; by left..].
  destruct ep as [l|]; simpl.
  - unfold bind, deref, ret.
    destruct (heap st !! l) as [d|]; [|intros [= <- _]; right; by left].
    destruct (safe_json_serialize (VDict d) _) eqn:E1;
      [|intros [= <- _]; right; right; by apply json_dumps_Raise in E1].
    destruct (safe_json_serialize (of_json j) _) eqn:E2;
      [|intros [= <- _]; right; right; by apply json_dumps_Raise in E2].
    by destruct (truthy debug).
  - unfold ret.
    destruct (safe_json_serialize (of_json j) _) eqn:E2;
      [|intros [= <- _]; right; right; by apply json_dumps_Raise in E2].
    by destruct (truthy debug).
Qed.

(** The [ValueError] of line 102 is the only one that the body raises
    itself: it is raised exactly when the first two stages pass and the
    mode is none of the three. *)
Lemma makeApiCall_ValueError self url mode ep data json debug it bu st msg :
  fst (makeApiCall w self url mode ep data json debug it bu st)
  = Raise (ValueError msg) <->
  ((mode ∉ supported_modes)
   /\ msg = "Unsupported mode " ++ mode
   /\ (exists u, build_url self url bu st = (Ok u, st))
   /\ (exists st1, attach_token w self ep it st = (Ok tt, st1))).
Proof.
  rewrite makeApiCall_stages. fold (build_url self url bu).
  bind_step.
  pose proof (build_url_state self url bu st) as Hu.
  destruct (build_url self url bu st) as [[u|e] st0] eqn:Eu; simpl in Hu;
    subst st0.
  2:{ simpl. split.
      - intros [= ->]. by apply build_url_Raise in Eu as [?|?].
      - by intros (_ & _ & [u' ?] & _). }
  bind_step.
  destruct (attach_token_inv w self ep it st)
    as [[_ Ea]|[(_ & _ & Ea)|[(l & _ & _ & _ & Ea)|(l & d & _ & _ & _ & Ea)]]];
    rewrite Ea; simpl.
  2,3: (split; [done|]; by intros (_ & _ & _ & [st1 ?])).
  all: bind_step;
    destruct (decide (mode ∈ supported_modes)) as [Hm|Hm];
    [rewrite dispatch_supported by done
    |rewrite dispatch_unsupported by done; simpl;
     split; [intros [= <-]|intros (_ & -> & _)]; eauto 10].
  all: match goal with
    | |- context [session_request ?w0 ?o ?m ?u ?ep ?d ?j ?s] =>
        destruct (session_request_inv w0 o m u ep d j s)
          as [[_ E]|[(l' & _ & _ & E)|(s' & params & _ & _ & E)]];
          rewrite E; simpl; clear E
    end;
    try (split; [done|]; by intros [? _]).
  all: destruct (server w _ _) as [j| |]; simpl;
    try (split; [done|]; by intros [? _]).
  all: match goal with
    | |- context [finish ?a ?b ?c ?d ?e] =>
        destruct (finish a b c d e) as [[r|e'] st2] eqn:Ef; simpl
    end;
    try (split; [done|]; by intros [? _]).
  all: split; [intros [= ->]|by intros [? _]];
    apply finish_Raise in Ef as [?|[?|?]]; done.
Qed.

(** With a mode that is none of the three the call raises, and nothing
    is sent or printed. *)
Lemma unsupported_mode_raises self url mode ep data json debug it bu st :
  mode ∉ supported_modes ->
  (exists e, (makeApiCall w self url mode ep data json debug it bu st).1
             = Raise e)
  /\ trace (makeApiCall w self url mode ep data json debug it bu st).2
     = trace st.
Proof.
  intros Hm. rewrite makeApiCall_stages. fold (build_url self url bu).
  bind_step.
  pose proof (build_url_state self url bu st) as Hu.
  destruct (build_url self url bu st) as [[u|e] st0]; simpl in Hu; subst st0;
    [|eauto].
  bind_step.
  pose proof (attach_token_trace self ep it st) as Ht.
  destruct (attach_token w self ep it st) as [[[]|e] st1]; simpl in Ht;
    [|eauto].
  bind_step. rewrite dispatch_unsupported by done. simpl. eauto.
Qed.

End Characterisation.

(** ** Dicts *)

Lemma dict_lookup_set_eq d k v :
  dict_lookup (dict_set d k v) (KStr k) = Some v.
Proof.
  induction d as [|[k' v'] d IH]; cbn [dict_set dict_lookup].
  - case_decide; congruence.
  - destruct (decide (k' = KStr k)) as [->|Hne]; cbn [dict_lookup];
      case_decide; congruence.
Qed.

Lemma dict_lookup_set_ne d k v k' :
  k' <> KStr k -> dict_lookup (dict_set d k v) k' = dict_lookup d k'.
Proof.
  intros Hne. induction d as [|[k0 v0] d IH]; cbn [dict_set dict_lookup].
  - case_decide; congruence.
  - destruct (decide (k0 = KStr k)) as [->|Hne0]; cbn [dict_lookup].
    + repeat case_decide; congruence.
    + by rewrite IH.
Qed.

Lemma dict_keys_set d k v :
  dict_keys (dict_set d k v)
  = if decide (KStr k ∈ dict_keys d) then dict_keys d
    else (dict_keys d ++ [KStr k])%list.
Proof.
  unfold dict_keys. induction d as [|[k0 v0] d IH]; cbn [dict_set map fst].
  - destruct (decide (KStr k ∈ [])) as [Hin|Hin]; [|done].
    by apply elem_of_nil in Hin.
  - destruct (decide (k0 = KStr k)) as [->|Hne0]; cbn [map fst].
    + destruct (decide (KStr k ∈ KStr k :: map fst d)) as [Hin|Hin]; [done|].
      exfalso. apply Hin, elem_of_cons. by left.
    + rewrite IH.
      destruct (decide (KStr k ∈ map fst d)) as [Hin|Hin],
               (decide (KStr k ∈ k0 :: map fst d)) as [Hin'|Hin']; try done.
      * exfalso. apply Hin', elem_of_cons. by right.
      * apply elem_of_cons in Hin' as [?|?]; [congruence|done].
Qed.

(** What [update] with the token and the timestamp does to a dict. *)
Lemma dict_update_token d tok ts :
  let d' := dict_update d [("token", tok); ("_", ts)] in
  dict_get d' "token" = Some tok
  /\ dict_get d' "_" = Some ts
  /\ (forall k, k <> KStr "token" -> k <> KStr "_" ->
                dict_lookup d' k = dict_lookup d k).
Proof.
  unfold dict_update, dict_get. cbn [fold_left fst snd]. repeat split.
  - rewrite dict_lookup_set_ne by done. apply dict_lookup_set_eq.
  - apply dict_lookup_set_eq.
  - intros k H1 H2. by rewrite !dict_lookup_set_ne.
Qed.

(** ** Token and timestamp (C1, C8, C9) *)

(** C1, counterexample.  The caller's dict has an entry [token: mine]; the
    one request of the call carries the token of the client instead, so
    not every entry of the caller is among its parameters. *)
Lemma makeApiCall_overwrites_caller_token :
  exists r,
    requests_of
      (trace (makeApiCall example_world example_self (VStr "/sites") "GET"
                (Some 0%nat) VNone VNone (VBool false) (VBool true)
                (VBool false) example_state).2) = [r]
    /\ heap example_state !! 0%nat = Some example_params
    /\ ~ sends_token_and_all_entries example_world example_self example_state
           example_params r.
Proof.
  eexists. split; [vm_compute; reflexivity|]. split; [reflexivity|].
  intros (params & Hp & _ & _ & Hall).
  injection Hp as <-.
  specialize (Hall (KStr "token") (VStr "mine") eq_refl).
  vm_compute in Hall. discriminate.
Qed.

(** C1, amended.  With a truthy [include_token], the request that a call
    sends has as parameters the caller's dict with [token] set to the
    stored token and [_] set to the timestamp read by the call; every
    entry of the caller under another key is among them, unchanged. *)
Theorem makeApiCall_sends_token_and_timestamp (w : World) (self : OmadaAPI)
    (url : pyval) (mode : string) (endpoint_params : option loc)
    (data json debug include_token bare_url : pyval) (st : State)
    (r : Request) :
  truthy include_token = true ->
  requests_of
    (trace (makeApiCall w self url mode endpoint_params data json debug
              include_token bare_url st).2)
  = (requests_of (trace st) ++ [r])%list ->
  exists l d params,
    endpoint_params = Some l
    /\ heap st !! l = Some d
    /\ req_params r = VDict params
    /\ dict_get params "token" = Some (token self)
    /\ dict_get params "_" = Some (VInt (clock w (ticks st)))
    /\ (forall k, k <> KStr "token" -> k <> KStr "_" ->
                  dict_lookup params k = dict_lookup d k).
Proof.
  intros Hit Hr.
  destruct (makeApiCall_requests w self url mode endpoint_params data json
              debug include_token bare_url st)
    as [Hnone|(u & st1 & params & _ & Ha & _ & Hp & Hone)].
  { rewrite Hnone in Hr.
    apply (f_equal length) in Hr. rewrite length_app in Hr. simpl in Hr. lia. }
  rewrite Hone in Hr. apply app_inv_head in Hr. injection Hr as <-.
  destruct (attach_token_inv w self endpoint_params include_token st)
    as [[Hf _]|[(_ & _ & E)|[(l & _ & _ & _ & E)|(l & d & _ & -> & Hl & E)]]];
    [congruence|rewrite E in Ha; discriminate..|].
  rewrite E in Ha. injection Ha as <-.
  apply snapshot_Ok in Hp as [_ (d' & Hd' & ->)].
  simpl in Hd'. rewrite lookup_insert_eq in Hd'. injection Hd' as <-.
  exists l, d, (dict_update d [("token", token self);
                               ("_", VInt (clock w (ticks st)))]).
  destruct (dict_update_token d (token self) (VInt (clock w (ticks st))))
    as (H1 & H2 & H3).
  repeat split; try done.
  unfold request_for. by destruct (String.eqb mode "GET").
Qed.

Lemma makeApiCall_sends_token_and_timestamp_witness :
  exists l d params,
    Some 0%nat = Some l
    /\ heap example_state !! l = Some d
    /\ req_params
         (mkRequest "GET" (VStr "https://omada:8043/api/v2/sites")
            (VDict [(KStr "token", VStr "T0K"); (KStr "page", VInt 1);
                    (KStr "_", VInt 1700000000000)]) VNone VNone)
       = VDict params
    /\ dict_get params "token" = Some (token example_self)
    /\ dict_get params "_" = Some (VInt (clock example_world (ticks example_state)))
    /\ (forall k, k <> KStr "token" -> k <> KStr "_" ->
                  dict_lookup params k = dict_lookup d k).
Proof.
  apply (makeApiCall_sends_token_and_timestamp example_world example_self
           (VStr "/sites") "GET" (Some 0%nat) VNone VNone (VBool false)
           (VBool true) (VBool false) example_state).
  - reflexivity.
  - vm_compute. reflexivity.
Defined.

(** C8.  With a truthy [include_token] and [endpoint_params] left at
    [None], the call raises ([AttributeError] from [None.update], or the
    exception of [path_to_url] when the URL cannot be built) in the state
    in which it started: nothing has been sent, printed or changed. *)
Theorem makeApiCall_token_needs_params (w : World) (self : OmadaAPI)
    (url : pyval) (mode : string) (data json debug include_token
    bare_url : pyval) (st : State) :
  truthy include_token = true ->
  exists e,
    makeApiCall w self url mode None data json debug include_token bare_url st
    = (Raise e, st)
    /\ (e = AttributeError \/ e = TypeError)
    /\ requests_of
         (trace (makeApiCall w self url mode None data json debug
                   include_token bare_url st).2)
       = requests_of (trace st).
Proof.
  intros Hit. rewrite makeApiCall_stages. fold (build_url self url bare_url).
  bind_step.
  pose proof (build_url_state self url bare_url st) as Hs.
  destruct (build_url self url bare_url st) as [[u|e] st0] eqn:Eu;
    simpl in Hs; subst st0.
  - bind_step. unfold attach_token. rewrite Hit. simpl.
    exists AttributeError. split; [done|]. split; [by left|done].
  - exists e. split; [done|]. split; [|done].
    by apply build_url_Raise in Eu.
Qed.

Lemma makeApiCall_token_needs_params_witness :
  exists e,
    makeApiCall example_world example_self (VStr "/sites") "GET" None VNone
      VNone (VBool false) (VBool true) (VBool false) example_state
    = (Raise e, example_state)
    /\ (e = AttributeError \/ e = TypeError)
    /\ requests_of
         (trace (makeApiCall example_world example_self (VStr "/sites") "GET"
                   None VNone VNone (VBool false) (VBool true) (VBool false)
                   example_state).2)
       = requests_of (trace example_state).
Proof.
  apply (makeApiCall_token_needs_params example_world example_self
           (VStr "/sites") "GET" VNone VNone (VBool false) (VBool true)
           (VBool false) example_state).
  reflexivity.
Defined.

(** Once the second stage has passed, the store stays as that stage left
    it, whatever happens afterwards. *)
Lemma makeApiCall_store (w : World) self url mode ep data json debug it bu
    st u st1 :
  build_url self url bu st = (Ok u, st) ->
  attach_token w self ep it st = (Ok tt, st1) ->
  heap (makeApiCall w self url mode ep data json debug it bu st).2 = heap st1.
Proof.
  intros Hu Ha. rewrite makeApiCall_stages. fold (build_url self url bu).
  bind_step. rewrite Hu. bind_step. rewrite Ha. bind_step.
  destruct (decide (mode ∈ supported_modes)) as [Hm|Hm];
    [|by rewrite dispatch_unsupported].
  rewrite dispatch_supported by done.
  match goal with
  | |- context [session_request ?w0 ?o ?m ?u0 ?ep0 ?d ?j ?s] =>
      destruct (session_request_inv w0 o m u0 ep0 d j s)
        as [[_ E]|[(l' & _ & _ & E)|(s' & params & _ & _ & E)]];
        rewrite E; [done..|]; clear E
  end.
  destruct (server w _ _) as [j| |]; [|done..].
  match goal with
  | |- context [finish ?a ?b ?c ?d ?e] =>
      by destruct (finish_frame a b c d e) as (-> & _)
  end.
Qed.

(** A call does send its request once the first two stages have passed,
    the mode is supported and the session is there. *)
Lemma makeApiCall_sends (w : World) self url mode ep data json debug it bu
    st u st1 params :
  build_url self url bu st = (Ok u, st) ->
  attach_token w self ep it st = (Ok tt, st1) ->
  mode ∈ supported_modes ->
  is_Some (session self) ->
  snapshot ep st1 = (Ok params, st1) ->
  requests_of
    (trace (makeApiCall w self url mode ep data json debug it bu st).2)
  = (requests_of (trace st) ++ [request_for mode u params data json])%list.
Proof.
  intros Hu Ha Hm [s Hs] Hp.
  destruct (makeApiCall_requests w self url mode ep data json debug it bu st)
    as [Hnone|(u' & st1' & params' & Hu' & Ha' & _ & Hp' & Hone)].
  - exfalso. revert Hnone.
    rewrite makeApiCall_stages. fold (build_url self url bu).
    bind_step. rewrite Hu. bind_step. rewrite Ha. bind_step.
    rewrite dispatch_supported by done.
    match goal with
    | |- context [session_request ?w0 ?o ?m ?u0 ?ep0 ?d ?j ?s0] =>
        destruct (session_request_inv w0 o m u0 ep0 d j s0)
          as [[E _]|[(l' & -> & Hl & _)|(s' & params0 & _ & _ & E)]]
    end.
    + by rewrite Hs in E.
    + apply snapshot_Ok in Hp as [_ (d & Hd & _)]. by rewrite Hl in Hd.
    + rewrite E. clear E.
      pose proof (attach_token_trace w self ep it st) as Ht.
      rewrite Ha in Ht. simpl in Ht.
      intros Hnone.
      assert (forall (X : result response * State) (r0 : Request),
                requests_of (trace X.2)
                = (requests_of (trace st1) ++ [r0])%list ->
                requests_of (trace X.2) <> requests_of (trace st)) as Hlen.
      { intros X r0 HX HX'. rewrite HX', Ht in HX.
        apply (f_equal length) in HX. rewrite length_app in HX.
        simpl in HX. lia. }
      eapply Hlen; [|exact Hnone].
      destruct (server w _ _) as [j| |]; simpl.
      * match goal with
        | |- context [finish ?a ?b ?c ?d ?e] =>
            destruct (finish_frame a b c d e) as (_ & _ & _ & ->)
        end.
        simpl. by rewrite requests_of_app.
      * by rewrite requests_of_app.
      * by rewrite requests_of_app.
  - rewrite Hu in Hu'. injection Hu' as <-.
    rewrite Ha in Ha'. injection Ha' as <-.
    rewrite Hp in Hp'. injection Hp' as <-.
    exact Hone.
Qed.

(** C9.  With a truthy [include_token] the dict that the caller passed is
    updated where it is: after a call that returns, the store holds under
    the same reference the caller's dict with [token] and [_] set, every
    other key of it has the value it had, the [endpoint_params] entry of
    the result is that reference, and no other dict has changed. *)
Theorem makeApiCall_updates_params_in_place (w : World) (self : OmadaAPI)
    (url : pyval) (mode : string) (l : loc) (d : pydict)
    (data json debug include_token bare_url : pyval) (st st' : State)
    (resp : response) :
  truthy include_token = true ->
  heap st !! l = Some d ->
  makeApiCall w self url mode (Some l) data json debug include_token bare_url
    st = (Ok resp, st') ->
  let d' := dict_update d [("token", token self);
                           ("_", VInt (clock w (ticks st)))] in
  heap st' !! l = Some d'
  /\ response_get resp "endpoint_params" = Some (Ref l)
  /\ dict_get d' "token" = Some (token self)
  /\ dict_get d' "_" = Some (VInt (clock w (ticks st)))
  /\ (forall k, k <> KStr "token" -> k <> KStr "_" ->
                dict_lookup d' k = dict_lookup d k)
  /\ (forall l', l' <> l -> heap st' !! l' = heap st !! l').
Proof.
  intros Hit Hl Hcall d'.
  apply makeApiCall_Ok in Hcall
    as (u & st1 & params & j & pp & bp & _ & Ha & _ & _ & _ & _ & _ & _ & -> & ->).
  destruct (attach_token_inv w self (Some l) include_token st)
    as [[Hf _]|[(_ & ? & _)|[(l0 & _ & [= <-] & Hn & _)
                            |(l0 & d0 & _ & [= <-] & Hl0 & E)]]];
    [congruence..|].
  rewrite E in Ha. injection Ha as <-.
  rewrite Hl in Hl0. injection Hl0 as <-.
  destruct (dict_update_token d (token self) (VInt (clock w (ticks st))))
    as (H1 & H2 & H3).
  simpl. repeat split; try done.
  - apply lookup_insert_eq.
  - intros l' Hne. by apply lookup_insert_ne.
Qed.

(** The update is there as well when the call raises after the second
    stage, as with a mode that is not supported. *)
Lemma makeApiCall_update_survives_failure (w : World) self url mode l d data
    json debug it bu st u :
  truthy it = true ->
  heap st !! l = Some d ->
  build_url self url bu st = (Ok u, st) ->
  heap (makeApiCall w self url mode (Some l) data json debug it bu st).2 !! l
  = Some (dict_update d [("token", token self);
                         ("_", VInt (clock w (ticks st)))]).
Proof.
  intros Hit Hl Hu.
  destruct (attach_token_inv w self (Some l) it st)
    as [[Hf _]|[(_ & ? & _)|[(l0 & _ & [= <-] & Hn & _)
                            |(l0 & d0 & _ & [= <-] & Hl0 & E)]]];
    [congruence..|].
  rewrite (makeApiCall_store _ _ _ _ _ _ _ _ _ _ _ _ _ Hu E).
  rewrite Hl in Hl0. injection Hl0 as <-.
  simpl. apply lookup_insert_eq.
Qed.

Lemma makeApiCall_updates_params_in_place_witness :
  exists resp st',
    makeApiCall example_world example_self (VStr "/sites") "GET" (Some 0%nat)
      VNone VNone (VBool false) (VBool true) (VBool false) example_state
    = (Ok resp, st')
    /\ heap st' !! 0%nat
       = Some [(KStr "token", VStr "T0K"); (KStr "page", VInt 1);
               (KStr "_", VInt 1700000000000)]
    /\ response_get resp "endpoint_params" = Some (Ref 0%nat).
Proof.
  eexists _, _. split; [vm_compute; reflexivity|].
  match goal with
  | |- heap ?s !! _ = _ /\ response_get ?r _ = _ =>
      pose proof (makeApiCall_updates_params_in_place example_world
                    example_self (VStr "/sites") "GET" 0%nat example_params
                    VNone VNone (VBool false) (VBool true) (VBool false)
                    example_state s r eq_refl eq_refl) as H
  end.
  destruct H as (H1 & H2 & _); [vm_compute; reflexivity|].
  split; [exact H1|exact H2].
Defined.

(** ** The result of a call (C3, C5) *)

(** C3.  The dict of a call that returns has under [json_data] the parsed
    body of the reply to the request of the call, and under
    [json_data_pretty] the text that [safe_json_serialize] gives for that
    same value (whatever its [indent]). *)
Theorem makeApiCall_returns_raw_and_pretty (w : World) (self : OmadaAPI)
    (url : pyval) (mode : string) (endpoint_params : option loc)
    (data json debug include_token bare_url : pyval) (st st' : State)
    (resp : response) :
  makeApiCall w self url mode endpoint_params data json debug include_token
    bare_url st = (Ok resp, st') ->
  exists body pretty,
    response_get resp "json_data" = Some (Val body)
    /\ response_get resp "json_data_pretty" = Some (Val (VStr pretty))
    /\ (forall indent, safe_json_serialize body indent = Ok pretty)
    /\ exists r j,
         requests_of (trace st') = (requests_of (trace st) ++ [r])%list
         /\ server w (requests_of (trace st)) r = ReplyJson j
         /\ body = of_json j.
Proof.
  intros Hcall.
  apply makeApiCall_Ok in Hcall
    as (u & st1 & params & j & pp & bp & _ & _ & _ & _ & _ & Hr & _ & Hbp
        & -> & ->).
  exists (of_json j), bp. repeat split; try done.
  exists (request_for mode u params data json), j.
  repeat split; try done.
  simpl. rewrite requests_of_app. simpl.
  by destruct (truthy debug).
Qed.

Lemma makeApiCall_returns_raw_and_pretty_witness :
  exists resp st' body pretty,
    makeApiCall example_world example_self (VStr "/sites") "GET" (Some 0%nat)
      VNone VNone (VBool true) (VBool true) (VBool false) example_state
    = (Ok resp, st')
    /\ response_get resp "json_data" = Some (Val body)
    /\ response_get resp "json_data_pretty" = Some (Val (VStr pretty))
    /\ safe_json_serialize body (VInt 4) = Ok pretty
    /\ body = VDict [(KStr "errorCode", VInt 0);
                     (KStr "result", VDict [(KStr "token", VStr "T0K")])].
Proof.
  eexists _, _.
  match goal with
  | |- exists body pretty, ?call = (Ok ?r, ?s) /\ _ =>
      assert (call = (Ok r, s)) as Hcall by (vm_compute; reflexivity);
      destruct (makeApiCall_returns_raw_and_pretty _ _ _ _ _ _ _ _ _ _ _ _ _
                  Hcall)
        as (body & pretty & H1 & H2 & H3 & _)
  end.
  exists body, pretty.
  split; [exact Hcall|]. split; [exact H1|]. split; [exact H2|].
  split; [exact (H3 (VInt 4))|].
  vm_compute in H1. by injection H1 as <-.
Defined.

Lemma path_to_url_add self b path st :
  baseurl self = Some b ->
  path_to_url self path st
  = (rbind (py_add b (VStr (base_api_path self))) (fun x => py_add x path), st).
Proof.
  intros Hb. unfold path_to_url, bind, getattr, lift, ret. rewrite Hb.
  by destruct (py_add b _).
Qed.



(** ** The mode (C4) *)


(** A supported mode does not exclude a [ValueError] either: a reply that
    is not JSON makes [data.json()] raise one. *)
Lemma makeApiCall_decode_error :
  let w := mkWorld (clock example_world) (fun _ _ => ReplyNotJson)
             (fs example_world) in
  (makeApiCall w example_self (VStr "/sites") "GET" None VNone VNone
     (VBool false) (VBool false) (VBool false) example_state).1
  = Raise JSONDecodeError
  /\ is_ValueError JSONDecodeError = true
  /\ "GET" ∈ supported_modes.
Proof.
  split; [reflexivity|]. split; [reflexivity|].
  apply elem_of_cons. by left.
Qed.

Lemma build_url_ok self url bu st :
  (exists u, build_url self url bu st = (Ok u, st))
  <-> truthy bu = true \/ exists u, path_to_url self url st = (Ok u, st).
Proof.
  unfold build_url. destruct (truthy bu).
  - split; [by left|]. intros _. by exists url.
  - split; [by right|]. by intros [?|?].
Qed.

Lemma attach_token_ok w self ep it st :
  (exists st1, attach_token w self ep it st = (Ok tt, st1))
  <-> truthy it = false
      \/ exists l d, ep = Some l /\ heap st !! l = Some d.
Proof.
  destruct (attach_token_inv w self ep it st)
    as [[Hf E]|[(Ht & -> & E)|[(l & Ht & -> & Hn & E)
                              |(l & d & Ht & -> & Hl & E)]]];
    rewrite E.
  - split; [by left|]. intros _. by eexists.
  - split; [by intros [? ?]|].
    intros [?|(l & d & ? & _)]; congruence.
  - split; [by intros [? ?]|].
    intros [?|(l' & d & [= <-] & ?)]; congruence.
  - split; [|intros _; by eexists].
    intros _. right. by exists l, d.
Qed.



(** ** Logging in (C6) *)

Lemma token_set_token self tok : token (set_token self tok) = tok.
Proof. reflexivity. Qed.

(** C6.  On an instance that can send the login request (it has its
    session, a str [baseurl] and its credentials), when the reply to that
    request has the parsed body [d], [login] sends this one request and
    its outcome is that of [d["result"]["token"]]: if that is a value,
    [login] returns it and the [token] of the instance is that value;
    if the lookup raises, [login] raises the same. *)
Theorem login_takes_token_from_response (w : World) (self : OmadaAPI)
    (st : State) (s : Session) (b : string) (u p : pyval) (d : json) :
  session self = Some s ->
  baseurl self = Some (VStr b) ->
  login_username self = Some u ->
  login_password self = Some p ->
  server w (requests_of (trace st)) (login_request b self u p) = ReplyJson d ->
  exists st',
    login w self st
    = (rbind (result_token (of_json d))
             (fun tok => Ok (tok, set_token self tok)), st')
    /\ (forall tok, token (set_token self tok) = tok)
    /\ requests_of (trace st')
       = (requests_of (trace st) ++ [login_request b self u p])%list
    /\ heap st' = heap st.
Proof.
  intros Hs Hb Hu Hp Hr.
  destruct (json_dumps_total placeholder (of_json d) (of_json_keys_ok d))
    as [bp Hbp].
  pose (url := VStr (b ++ base_api_path self ++ "/login")).
  pose (st1 := mkState (heap st) (stdin st) (ticks st)
                 (trace st ++ Sent (login_request b self u p)
                           :: debug_events url "null" bp)).
  assert (makeApiCall w self (VStr "/login") "POST" None VNone
            (VDict [(KStr "username", u); (KStr "password", p)])
            (VBool true) (VBool false) (VBool false) st
          = (Ok (make_response url None "null" (of_json d) bp), st1))
    as Hcall.
  { apply makeApiCall_Ok.
    exists url, st, VNone, d, "null", bp.
    split; [by apply path_to_url_str|].
    split; [reflexivity|].
    split; [apply elem_of_cons; right; apply elem_of_cons; by left|].
    split; [by eexists|].
    repeat split; try done. }
  exists st1. split; [|split; [done|split; [|done]]].
  - unfold login. bind_step. rewrite Hu. simpl.
    bind_step. rewrite Hp. simpl.
    bind_step. rewrite Hcall.
    bind_step. simpl. bind_step. unfold lift, result_token.
    destruct (py_getitem (of_json d) "result") as [r|e]; [|done].
    simpl. bind_step.
    by destruct (py_getitem r "token").
  - unfold st1. simpl. rewrite requests_of_app. by simpl.
Qed.

(** When [login] returns, its value is the token of the reply to the one
    request it has sent, with the credentials of the instance, and the
    instance has that token. *)
Lemma login_Ok (w : World) self st tok self' st' :
  login w self st = (Ok (tok, self'), st') ->
  self' = set_token self tok
  /\ exists u p url d,
       login_username self = Some u
       /\ login_password self = Some p
       /\ requests_of (trace st')
          = (requests_of (trace st)
             ++ [mkRequest "POST" url VNone VNone
                   (VDict [(KStr "username", u); (KStr "password", p)])])%list
       /\ server w (requests_of (trace st))
            (mkRequest "POST" url VNone VNone
               (VDict [(KStr "username", u); (KStr "password", p)]))
          = ReplyJson d
       /\ result_token (of_json d) = Ok tok.
Proof.
  unfold login. intros H.
  apply bind_Ok in H as (u & st0 & Hu & H).
  destruct (login_username self) as [u'|]; [|done]. injection Hu as <- <-.
  apply bind_Ok in H as (p & st0 & Hp & H).
  destruct (login_password self) as [p'|]; [|done]. injection Hp as <- <-.
  apply bind_Ok in H as (resp & st1 & Hcall & H).
  apply makeApiCall_Ok in Hcall
    as (url & st0 & params & d & pp & bp & _ & Ha & _ & _ & Hsnap & Hr & _ & _
        & -> & ->).
  injection Ha as <-. injection Hsnap as <-.
  apply bind_Ok in H as (jd & st2 & Hjd & H).
  injection Hjd as <- <-.
  apply bind_Ok in H as (r & st3 & Hres & H).
  apply bind_Ok in H as (t & st4 & Htok & H).
  unfold lift in Hres, Htok. simpl in Hres.
  injection Hres as Hres <-. injection Htok as Htok <-.
  injection H as <- <- <-.
  split; [done|].
  exists u', p', url, d. repeat split; try done.
  - simpl. rewrite requests_of_app. by simpl.
  - unfold result_token. by rewrite Hres.
Qed.

Lemma login_takes_token_from_response_witness :
  exists st',
    login example_world example_self example_state
    = (Ok (VStr "T0K", set_token example_self (VStr "T0K")), st')
    /\ token (set_token example_self (VStr "T0K")) = VStr "T0K".
Proof.
  destruct (login_takes_token_from_response example_world example_self
              example_state (mkSession (VBool false)) "https://omada:8043"
              (VStr "admin") (VStr "secret")
              (JObj [("errorCode", JNum 0);
                     ("result", JObj [("token", JStr "T0K")])])
              eq_refl eq_refl eq_refl eq_refl eq_refl)
    as (st' & Hlogin & Htok & _).
  exists st'. split; [exact Hlogin|exact (Htok (VStr "T0K"))].
Defined.

(** ** The constructor (C7, C2) *)

(** C7.  When [config_fpath] is a file that loads as [cfg], the outcome
    of [__init__] is the same for all values of the arguments [baseurl],
    [site] and [verify], and when it returns, the instance has [cfg] as
    [config_dict] and [cfg["baseurl"]], [cfg["site"]], [cfg["verify"]],
    [cfg["username"]] and [cfg["password"]] as [baseurl], [site],
    [verify], [login_username] and [login_password]; the session has that
    [verify], and [login] has been run with these credentials. *)
Theorem init_reads_config_file (w : World) (fpath : string) (cfg : pyval) :
  fs w fpath = YamlFile cfg ->
  (forall b s v b' s' v' st,
     __init__ w fpath b s v st = __init__ w fpath b' s' v' st)
  /\ (forall b s v st self st',
        __init__ w fpath b s v st = (Ok self, st') ->
        config_dict self = Some cfg
        /\ taken_from cfg "baseurl" (baseurl self)
        /\ taken_from cfg "site" (site self)
        /\ taken_from cfg "verify" (verify self)
        /\ taken_from cfg "username" (login_username self)
        /\ taken_from cfg "password" (login_password self)
        /\ session self = mkSession <$> verify self
        /\ login_token self = Some (token self)
        /\ exists r u p,
             requests_of (trace st') = (requests_of (trace st) ++ [r])%list
             /\ req_json r = VDict [(KStr "username", u); (KStr "password", p)]
             /\ py_getitem cfg "username" = Ok u
             /\ py_getitem cfg "password" = Ok p).
Proof.
  intros Hfs. split.
  - intros b s v b' s' v' st. unfold __init__. by rewrite Hfs.
  - intros b s v st self st' H.
    unfold __init__ in H. rewrite Hfs in H.
    apply bind_Ok in H as (self1 & st1 & H1 & H).
    apply bind_Ok in H1 as (cfg' & st0 & Hcfg & H1).
    unfold read_yml in Hcfg. rewrite Hfs in Hcfg. injection Hcfg as <- <-.
    apply bind_Ok in H1 as (cb & st0 & Hb & H1). injection Hb as Hb <-.
    apply bind_Ok in H1 as (cs & st0 & Hs & H1). injection Hs as Hs <-.
    apply bind_Ok in H1 as (cv & st0 & Hv & H1). injection Hv as Hv <-.
    apply bind_Ok in H1 as (cu & st0 & Hu & H1). injection Hu as Hu <-.
    apply bind_Ok in H1 as (cp & st0 & Hp & H1). injection Hp as Hp <-.
    injection H1 as <- <-.
    apply bind_Ok in H as (v0 & st0 & Hv0 & H). injection Hv0 as <- <-.
    apply bind_Ok in H as ([tok self2] & st2 & Hlogin & H).
    injection H as <- <-.
    apply login_Ok in Hlogin
      as (-> & u & p & url & d & [= <-] & [= <-] & Hr & _ & _).
    unfold taken_from. simpl.
    repeat split; eauto.
    eexists _, cu, cp. split; [exact Hr|]. by repeat split.
Qed.

Lemma init_reads_config_file_witness :
  __init__ example_world "config.yml" VNone (VStr "Default") (VBool true)
    example_state
  = __init__ example_world "config.yml" (VStr "http://elsewhere") (VStr "Other")
      (VBool false) example_state
  /\ exists self st',
       __init__ example_world "config.yml" VNone (VStr "Default") (VBool true)
         example_state = (Ok self, st')
       /\ baseurl self = Some (VStr "https://omada:8043")
       /\ login_username self = Some (VStr "admin").
Proof.
  destruct (init_reads_config_file example_world "config.yml" example_cfg
              eq_refl) as [Hsame Hfields].
  split; [apply Hsame|].
  eexists _, _. split; [vm_compute; reflexivity|].
  match goal with
  | |- baseurl ?o = _ /\ _ =>
      destruct (Hfields VNone (VStr "Default") (VBool true) example_state o _
                  ltac:(vm_compute; reflexivity))
        as (_ & (cb & Hb & Hb') & _ & _ & (cu & Hu & Hu') & _)
  end.
  vm_compute in Hb, Hu. injection Hb as <-. injection Hu as <-.
  split; [exact Hb'|exact Hu'].
Defined.

(** [login_prompt] drops what the user has typed: whenever it returns, it
    returns [(None, None)], and the dict it has sent holds the two
    literal strs of lines 145 and 146. *)
Lemma login_prompt_returns_None (w : World) self st up st' :
  login_prompt w self st = (Ok up, st') -> up = (VNone, VNone).
Proof.
  unfold login_prompt. intros H.
  apply bind_Ok in H as (? & ? & _ & H).
  apply bind_Ok in H as (? & ? & _ & H).
  apply bind_Ok in H as (? & ? & _ & H).
  apply bind_Ok in H as (? & ? & _ & H).
  apply bind_Ok in H as (? & ? & _ & H).
  by injection H as <-.
Qed.

(** C2.  When [config_fpath] is not a file, [__init__] does not complete,
    whatever the arguments, the user's input and the server: it calls
    [login_prompt], whose [makeApiCall] needs [self.session] before line
    37 has assigned it. *)
Theorem init_prompt_never_completes (w : World) (fpath : string)
    (baseurl_arg site_arg verify_arg : pyval) (st : State) :
  fs w fpath = NoFile ->
  exists e,
    (__init__ w fpath baseurl_arg site_arg verify_arg st).1 = Raise e.
Proof.
  intros Hfs.
  destruct (__init__ w fpath baseurl_arg site_arg verify_arg st)
    as [[self|e] st'] eqn:H; [|by exists e].
  exfalso. unfold __init__ in H. rewrite Hfs in H.
  apply bind_Ok in H as (self1 & st1 & H1 & _).
  apply bind_Ok in H1 as (up & st2 & Hp & _).
  unfold login_prompt in Hp.
  apply bind_Ok in Hp as (? & ? & _ & Hp).
  apply bind_Ok in Hp as (? & ? & _ & Hp).
  apply bind_Ok in Hp as (? & ? & _ & Hp).
  apply bind_Ok in Hp as (resp & ? & Hcall & _).
  apply makeApiCall_Ok in Hcall
    as (? & ? & ? & ? & ? & ? & _ & _ & _ & Hsession & _).
  by destruct Hsession.
Qed.

Lemma init_prompt_never_completes_witness :
  exists e,
    (__init__ example_world "missing.yml" (VStr "https://omada:8043")
       (VStr "Default") (VBool true) example_state).1 = Raise e.
Proof.
  apply (init_prompt_never_completes example_world "missing.yml"
           (VStr "https://omada:8043") (VStr "Default") (VBool true)
           example_state).
  reflexivity.
Defined.

(** The run of the constructor when there is no config file, the user
    types [admin] and [secret], and [baseurl] is given: both lines are
    read, nothing is sent, and [AttributeError] is raised. *)
Lemma init_prompt_example :
  let out := __init__ example_world "missing.yml" (VStr "https://omada:8043")
               (VStr "Default") (VBool true) example_state in
  out.1 = Raise AttributeError
  /\ stdin out.2 = []
  /\ requests_of (trace out.2) = [].
Proof. vm_compute. by repeat split. Qed.

(** With the default [baseurl=None] it is the [TypeError] of
    [None + "/api/v2"] already. *)
Lemma init_prompt_example_default :
  (__init__ example_world "missing.yml" VNone (VStr "Default") (VBool true)
     example_state).1 = Raise TypeError.
Proof. reflexivity. Qed.

(** And on an instance that does have its session, [login_prompt] sends
    the placeholder strs, not what was typed, and returns [(None, None)]. *)
Lemma login_prompt_example :
  let out := login_prompt example_world example_self example_state in
  out.1 = Ok (VNone, VNone)
  /\ exists r d,
       requests_of (trace out.2) = [r]
       /\ req_params r = VDict d
       /\ dict_get d "username" = Some (VStr "login_username")
       /\ dict_get d "password" = Some (VStr "login_password").
Proof.
  vm_compute. split; [done|]. eexists _, _. by repeat split.
Qed.

(** Every instance that [__init__] returns has [/api/v2] as its
    [base_api_path], and [login] does not change that. *)
Lemma init_base_api_path (w : World) fpath b s v st self st' :
  __init__ w fpath b s v st = (Ok self, st') ->
  base_api_path self = "/api/v2" /\ config_fpath self = fpath.
Proof.
  unfold __init__. intros H.
  apply bind_Ok in H as (self1 & st1 & H1 & H).
  assert (base_api_path self1 = "/api/v2" /\ config_fpath self1 = fpath)
    as [Hb Hc].
  { destruct (fs w fpath) eqn:Hfs.
    - apply bind_Ok in H1 as (up & ? & _ & H1). by injection H1 as <- <-.
    - apply bind_Ok in H1 as (? & ? & _ & H1).
      apply bind_Ok in H1 as (? & ? & _ & H1).
      apply bind_Ok in H1 as (? & ? & _ & H1).
      apply bind_Ok in H1 as (? & ? & _ & H1).
      apply bind_Ok in H1 as (? & ? & _ & H1).
      apply bind_Ok in H1 as (? & ? & _ & H1).
      by injection H1 as <- <-.
    - apply bind_Ok in H1 as (? & ? & Hy & _). unfold read_yml in Hy.
      by rewrite Hfs in Hy. }
  apply bind_Ok in H as (v0 & st0 & _ & H).
  apply bind_Ok in H as ([tok self2] & st2 & Hlogin & H).
  injection H as <- <-.
  apply login_Ok in Hlogin as (-> & _).
  by simpl.
Qed.

(** * Further properties of the code *)

(** ** Every way a call can go *)

(** The last stage either raises where it started, or returns as
    [finish_Ok] says. *)
Lemma finish_cases url ep debug reply st :
  (exists e, finish url ep debug reply st = (Raise e, st))
  \/ (exists resp st', finish url ep debug reply st = (Ok resp, st')).
Proof.
  destruct (finish url ep debug reply st) as [[resp|e] st'] eqn:E;
    [right; eauto|left].
  exists e. f_equal. revert E.
  unfold finish, bind, reply_json, lift, print, emit, ret, raise.
  pose proof (snapshot_state ep st) as Hs.
  destruct reply as [j| |]; simpl; [|by intros [= _ <-]..].
  destruct (snapshot ep st) as [[params|e1] st1]; simpl in Hs; subst st1;
    [|by intros [= _ <-]].
  destruct (safe_json_serialize params _); [|by intros [= _ <-]].
  destruct (safe_json_serialize (of_json j) _); [|by intros [= _ <-]].
  by destruct (truthy debug).
Qed.

(** The whole of [makeApiCall], case by case: where it stops, with which
    exception, and in which state. *)
Lemma makeApiCall_cases (w : World) self url mode ep data json debug it bu
    st :
  let out := makeApiCall w self url mode ep data json debug it bu st in
  (exists e, build_url self url bu st = (Raise e, st) /\ out = (Raise e, st))
  \/ exists u,
       build_url self url bu st = (Ok u, st)
       /\ ((exists e, attach_token w self ep it st = (Raise e, st)
                      /\ out = (Raise e, st))
           \/ exists st1,
                attach_token w self ep it st = (Ok tt, st1)
                /\ (((mode ∉ supported_modes)
                     /\ out = (Raise (ValueError ("Unsupported mode " ++ mode)),
                               st1))
                    \/ (mode ∈ supported_modes
                        /\ session self = None
                        /\ out = (Raise AttributeError, st1))
                    \/ (mode ∈ supported_modes
                        /\ exists l, ep = Some l /\ heap st1 !! l = None
                                     /\ out = (Raise SystemError, st1))
                    \/ (mode ∈ supported_modes
                        /\ is_Some (session self)
                        /\ exists params,
                             snapshot ep st1 = (Ok params, st1)
                             /\ let r := request_for mode u params data json in
                                let st2 := mkState (heap st1) (stdin st1)
                                             (ticks st1)
                                             (trace st ++ [Sent r]) in
                                match server w (requests_of (trace st)) r with
                                | NoReply => out = (Raise RequestException, st2)
                                | ReplyNotJson =>
                                    out = (Raise JSONDecodeError, st2)
                                | ReplyJson j =>
                                    out = finish u ep debug (ReplyJson j) st2
                                end))).
Proof.
  intros out. unfold out. clear out.
  rewrite makeApiCall_stages. fold (build_url self url bu).
  bind_step.
  pose proof (build_url_state self url bu st) as Hu.
  destruct (build_url self url bu st) as [[u|e] st0] eqn:Eu; simpl in Hu;
    subst st0; [right|left; eauto].
  exists u. split; [done|].
  bind_step.
  pose proof (attach_token_trace w self ep it st) as Ht.
  destruct (attach_token_inv w self ep it st)
    as [[_ Ea]|[(_ & _ & Ea)|[(l & _ & _ & _ & Ea)|(l & d & _ & _ & _ & Ea)]]];
    rewrite Ea in Ht |- *; simpl in Ht;
    [right| left; eauto | left; eauto | right].
  all: eexists; split; [reflexivity|]; bind_step;
    (destruct (decide (mode ∈ supported_modes)) as [Hm|Hm];
     [|left; by rewrite dispatch_unsupported]);
    right; rewrite dispatch_supported by done;
    match goal with
    | |- context [session_request ?w0 ?o ?m ?u0 ?ep0 ?d0 ?j0 ?s0] =>
        destruct (session_request_inv w0 o m u0 ep0 d0 j0 s0)
          as [[Hs E]|[(l' & -> & Hl & E)|(s' & params & Hs & Hp & E)]];
          rewrite E; clear E
    end;
    [left; done
    |right; left; split; [done|]; by exists l'
    |right; right; split; [done|]; split; [by eexists|];
     exists params; split; [done|];
     simpl; rewrite <- request_for_eta, ?Ht;
     by destruct (server w _ _)].
Qed.

(** The second stage leaves the input and the trace alone; it changes
    nothing at all when [include_token] is falsy, and otherwise makes the
    one update of [with_token]. *)
Lemma attach_token_Ok (w : World) self ep it st st1 :
  attach_token w self ep it st = (Ok tt, st1) ->
  trace st1 = trace st /\ stdin st1 = stdin st
  /\ (truthy it = false -> st1 = st)
  /\ (truthy it = true ->
      exists l d, ep = Some l /\ heap st !! l = Some d
                  /\ st1 = with_token w self l d st).
Proof.
  intros Ha.
  destruct (attach_token_inv w self ep it st)
    as [[Hf E]|[(_ & _ & E)|[(l & _ & _ & _ & E)|(l & d & Ht & -> & Hl & E)]]];
    rewrite E in Ha; try discriminate; injection Ha as <-.
  - repeat split; try done. congruence.
  - repeat split; try done; [congruence|]. intros _. by exists l, d.
Qed.

Ltac call_cases H :=
  cbv zeta in H;
  destruct H
    as [(?e & ?Hu & ?Hout)
       |(?u & ?Hu &
         [(?e & ?Ha & ?Hout)
         |(?st1 & ?Ha &
           [(?Hm & ?Hout)
           |[(?Hm & ?Hs & ?Hout)
            |[(?Hm & ?l & ?Hep & ?Hl & ?Hout)
             |(?Hm & ?Hs & ?params & ?Hp & ?Hr)]]])])].

(** X1.  Whatever its arguments and its outcome, a call of [makeApiCall]
    sends at most one request, after those sent before; it only adds to
    the trace, and it reads nothing from standard input. *)
Theorem makeApiCall_at_most_one_request (w : World) (self : OmadaAPI)
    (url : pyval) (mode : string) (endpoint_params : option loc)
    (data json debug include_token bare_url : pyval) (st : State) :
  let st' := (makeApiCall w self url mode endpoint_params data json debug
                include_token bare_url st).2 in
  stdin st' = stdin st
  /\ (exists evs, trace st' = (trace st ++ evs)%list)
  /\ (exists new,
        requests_of (trace st') = (requests_of (trace st) ++ new)%list
        /\ (length new <= 1)%nat).
Proof.
  pose proof (makeApiCall_cases w self url mode endpoint_params data json
                debug include_token bare_url st) as H.
  call_cases H; try rewrite Hout; simpl;
    try (apply attach_token_Ok in Ha as (Ht & Hi & _)).
  1,2: (split; [done|]; split; [exists []|exists []; split; [|simpl; lia]];
        by rewrite app_nil_r).
  1,2,3: (split; [done|]; rewrite Ht;
          split; [exists []|exists []; split; [|simpl; lia]];
          by rewrite app_nil_r).
  assert (forall X : result response * State,
            X = (X.1, mkState (heap st1) (stdin st1) (ticks st1)
                        (trace st ++ [Sent (request_for mode u params data
                                              json)]))
            \/ (exists pp bp,
                  X.2 = mkState (heap st1) (stdin st1) (ticks st1)
                          ((trace st ++ [Sent (request_for mode u params data
                                                 json)])
                           ++ (if truthy debug then debug_events u pp bp
                               else []))) ->
            stdin X.2 = stdin st
            /\ (exists evs, trace X.2 = (trace st ++ evs)%list)
            /\ (exists new,
                  requests_of (trace X.2)
                  = (requests_of (trace st) ++ new)%list
                  /\ (length new <= 1)%nat)) as Hgen.
  { intros X [HX|(pp & bp & HX)]; rewrite HX; simpl.
    - split; [done|]. split; [by eexists|].
      eexists. rewrite requests_of_app. split; [done|]. simpl. lia.
    - split; [done|]. split; [rewrite <- app_assoc; by eexists|].
      eexists. rewrite !requests_of_app. rewrite <- app_assoc.
      split; [done|]. simpl. destruct (truthy debug); simpl; lia. }
  apply Hgen.
  destruct (server w _ _) as [j| |]; [|left; by rewrite Hr..].
  rewrite Hr.
  match goal with
  | |- context [finish ?a ?b ?c ?d ?e] =>
      destruct (finish_cases a b c d e) as [[e' E]|(resp & st' & E)]
  end.
  - left. by rewrite E.
  - right. rewrite E.
    apply finish_Ok in E as (j' & params' & pp & bp & _ & _ & _ & _ & _ & ->).
    by exists pp, bp.
Qed.

Lemma printed_of_app t1 t2 :
  printed_of (t1 ++ t2) = (printed_of t1 ++ printed_of t2)%list.
Proof.
  induction t1 as [|[r|p|v|r] t1 IH]; simpl; try done; by rewrite IH.
Qed.

Lemma state_eta st :
  mkState (heap st) (stdin st) (ticks st) (trace st ++ []) = st.
Proof. destruct st. simpl. by rewrite app_nil_r. Qed.

(** The state after a call, whatever the outcome: the store, the clock
    and the input are as the second stage left them (or as they were, if
    the call did not get that far), and the trace has grown by events of
    which some are printed only if the call returns with a truthy
    [debug]. *)
Lemma makeApiCall_state (w : World) self url mode ep data json debug it bu
    st :
  let out := makeApiCall w self url mode ep data json debug it bu st in
  exists st1 evs,
    out.2 = mkState (heap st1) (stdin st1) (ticks st1) (trace st ++ evs)
    /\ (st1 = st \/ attach_token w self ep it st = (Ok tt, st1))
    /\ (printed_of evs <> [] ->
        truthy debug = true /\ exists resp, out.1 = Ok resp).
Proof.
  pose proof (makeApiCall_cases w self url mode ep data json debug it bu st)
    as H.
  call_cases H; cbv zeta; try rewrite Hout.
  1,2: (exists st, []; rewrite state_eta; split; [done|]; split; [by left|];
        done).
  1,2,3: (exists st1, []; simpl;
          apply attach_token_Ok in Ha as Ha'; destruct Ha' as (Ht & _);
          rewrite <- Ht, state_eta; split; [done|]; split; [by right|]; done).
  destruct (server w _ _) as [j| |].
  2,3: (rewrite Hr; exists st1; eexists; split; [reflexivity|];
        split; [by right|]; done).
  rewrite Hr.
  match goal with
  | |- context [finish ?a ?b ?c ?d ?e] =>
      destruct (finish_cases a b c d e) as [[e' E]|(resp & st' & E)]
  end.
  - rewrite E. exists st1. eexists. split; [reflexivity|].
    split; [by right|]. done.
  - rewrite E.
    apply finish_Ok in E as (j' & params' & pp & bp & _ & _ & _ & _ & _ & ->).
    exists st1. eexists. simpl. rewrite <- app_assoc.
    split; [reflexivity|]. split; [by right|].
    simpl. destruct (truthy debug); [eauto|done].
Qed.

(** X2.  With a falsy [include_token], [makeApiCall] changes neither the
    store nor the clock, whatever its outcome, and the request it sends,
    if any, carries the caller's dict as it is ([None] if there is none). *)
Theorem makeApiCall_without_token_frame (w : World) (self : OmadaAPI)
    (url : pyval) (mode : string) (endpoint_params : option loc)
    (data json debug include_token bare_url : pyval) (st : State) :
  truthy include_token = false ->
  let st' := (makeApiCall w self url mode endpoint_params data json debug
                include_token bare_url st).2 in
  heap st' = heap st
  /\ ticks st' = ticks st
  /\ (forall r,
        requests_of (trace st') = (requests_of (trace st) ++ [r])%list ->
        req_params r = match endpoint_params with
                       | None => VNone
                       | Some l => VDict (default [] (heap st !! l))
                       end).
Proof.
  intros Hit st'.
  destruct (makeApiCall_state w self url mode endpoint_params data json debug
              include_token bare_url st) as (st1 & evs & Hst & Hst1 & _).
  assert (st1 = st) as ->.
  { destruct Hst1 as [?|Ha]; [done|].
    apply attach_token_Ok in Ha as (_ & _ & Hf & _). by apply Hf. }
  unfold st'. clear st'. cbv zeta in Hst.
  split; [by rewrite Hst|]. split; [by rewrite Hst|].
  intros r Hr.
  destruct (makeApiCall_requests w self url mode endpoint_params data json
              debug include_token bare_url st)
    as [Hnone|(u & st1 & params & _ & Ha & _ & Hp & Hone)].
  { rewrite Hnone in Hr. apply (f_equal length) in Hr.
    rewrite length_app in Hr. simpl in Hr. lia. }
  rewrite Hone in Hr. apply app_inv_head in Hr. injection Hr as <-.
  apply attach_token_Ok in Ha as (_ & _ & Hf & _). rewrite (Hf Hit) in Hp.
  apply snapshot_Ok in Hp as [_ Hp].
  assert (req_params (request_for mode u params data json) = params) as ->.
  { unfold request_for. by destruct (String.eqb mode "GET"). }
  destruct endpoint_params as [l|]; [|done].
  destruct Hp as (d & -> & ->). done.
Qed.

Lemma makeApiCall_without_token_frame_witness :
  let st' := (makeApiCall example_world example_self (VStr "/sites") "GET"
                (Some 0%nat) VNone VNone (VBool false) (VBool false)
                (VBool false) example_state).2 in
  heap st' = heap example_state
  /\ ticks st' = ticks example_state
  /\ (forall r,
        requests_of (trace st')
        = (requests_of (trace example_state) ++ [r])%list ->
        req_params r = VDict (default [] (heap example_state !! 0%nat))).
Proof.
  apply (makeApiCall_without_token_frame example_world example_self
           (VStr "/sites") "GET" (Some 0%nat) VNone VNone (VBool false)
           (VBool false) (VBool false) example_state).
  reflexivity.
Defined.

(** X3.  The request of a call has the mode as its verb, one of the three.
    With [GET] the [data] and [json] arguments are dropped: whatever the
    caller passed, the request carries [None] for both. *)
Theorem makeApiCall_get_drops_body (w : World) (self : OmadaAPI)
    (url : pyval) (mode : string) (endpoint_params : option loc)
    (data json debug include_token bare_url : pyval) (st : State)
    (r : Request) :
  requests_of
    (trace (makeApiCall w self url mode endpoint_params data json debug
              include_token bare_url st).2)
  = (requests_of (trace st) ++ [r])%list ->
  mode ∈ supported_modes
  /\ verb r = mode
  /\ (mode = "GET" -> req_data r = VNone /\ req_json r = VNone).
Proof.
  intros Hr.
  destruct (makeApiCall_requests w self url mode endpoint_params data json
              debug include_token bare_url st)
    as [Hnone|(u & st1 & params & _ & _ & Hm & _ & Hone)].
  { rewrite Hnone in Hr. apply (f_equal length) in Hr.
    rewrite length_app in Hr. simpl in Hr. lia. }
  rewrite Hone in Hr. apply app_inv_head in Hr. injection Hr as <-.
  split; [done|]. unfold request_for.
  destruct (String.eqb mode "GET") eqn:E.
  - apply String.eqb_eq in E as ->. by repeat split.
  - apply String.eqb_neq in E. by repeat split.
Qed.

Lemma makeApiCall_get_drops_body_witness :
  requests_of
    (trace (makeApiCall example_world example_self (VStr "/sites") "GET" None
              (VStr "body") (VDict [(KStr "a", VInt 1)]) (VBool false)
              (VBool false) (VBool false) example_state).2)
  = (requests_of (trace example_state)
     ++ [mkRequest "GET" (VStr "https://omada:8043/api/v2/sites") VNone
           VNone VNone])%list
  /\ req_data (mkRequest "GET" (VStr "https://omada:8043/api/v2/sites") VNone
                 VNone VNone) = VNone
  /\ req_json (mkRequest "GET" (VStr "https://omada:8043/api/v2/sites") VNone
                 VNone VNone) = VNone.
Proof.
  assert (Hsent :
    requests_of
      (trace (makeApiCall example_world example_self (VStr "/sites") "GET"
                None (VStr "body") (VDict [(KStr "a", VInt 1)]) (VBool false)
                (VBool false) (VBool false) example_state).2)
    = (requests_of (trace example_state)
       ++ [mkRequest "GET" (VStr "https://omada:8043/api/v2/sites") VNone
             VNone VNone])%list) by (vm_compute; reflexivity).
  split; [exact Hsent|].
  destruct (makeApiCall_get_drops_body example_world example_self
              (VStr "/sites") "GET" None (VStr "body")
              (VDict [(KStr "a", VInt 1)]) (VBool false) (VBool false)
              (VBool false) example_state _ Hsent) as (_ & _ & Hget).
  exact (Hget eq_refl).
Defined.

Lemma bind_agree {A B} (c : M A) (k1 k2 : A -> M B) st :
  (forall a st', agree_up_to_prints (k1 a st') (k2 a st')) ->
  agree_up_to_prints (bind c k1 st) (bind c k2 st).
Proof.
  intros Hk. rewrite !bind_eq.
  destruct (c st) as [[a|e] st']; [apply Hk|by repeat split].
Qed.

Lemma finish_agree url ep d1 d2 reply st :
  agree_up_to_prints (finish url ep d1 reply st) (finish url ep d2 reply st).
Proof.
  unfold agree_up_to_prints.
  destruct (finish_frame url ep d1 reply st) as (-> & -> & -> & ->).
  destruct (finish_frame url ep d2 reply st) as (-> & -> & -> & ->).
  split; [|done].
  unfold finish, bind, reply_json, lift, print, emit, ret, raise.
  destruct reply as [j| |]; simpl; [|done..].
  destruct (snapshot ep st) as [[params|e] st1]; [|done].
  destruct (safe_json_serialize params _); [|done].
  destruct (safe_json_serialize (of_json j) _); [|done].
  by destruct (truthy d1), (truthy d2).
Qed.

(** X4.  The [debug] argument only decides what is printed: two calls
    that differ in [debug] alone have the same result or exception, and
    leave the same store, clock, input and requests.  A call prints
    nothing when [debug] is falsy, and nothing when it raises. *)
Theorem makeApiCall_debug_only_prints (w : World) (self : OmadaAPI)
    (url : pyval) (mode : string) (endpoint_params : option loc)
    (data json debug debug' include_token bare_url : pyval) (st : State) :
  let out := makeApiCall w self url mode endpoint_params data json debug
               include_token bare_url st in
  agree_up_to_prints out
    (makeApiCall w self url mode endpoint_params data json debug'
       include_token bare_url st)
  /\ (truthy debug = false ->
      printed_of (trace out.2) = printed_of (trace st))
  /\ (forall e, out.1 = Raise e ->
                printed_of (trace out.2) = printed_of (trace st)).
Proof.
  intros out. split; [|].
  - unfold out. rewrite !makeApiCall_stages.
    apply bind_agree. intros u st0.
    apply bind_agree. intros [] st1.
    apply bind_agree. intros reply st2.
    apply finish_agree.
  - destruct (makeApiCall_state w self url mode endpoint_params data json
                debug include_token bare_url st)
      as (st1 & evs & Hst & _ & Hp).
    fold out in Hst, Hp.
    assert (printed_of evs = [] ->
            printed_of (trace out.2) = printed_of (trace st)) as Hnil.
    { intros Hnil. rewrite Hst. simpl.
      by rewrite printed_of_app, Hnil, app_nil_r. }
    split.
    + intros Hd. apply Hnil.
      destruct (printed_of evs) eqn:E; [done|].
      destruct Hp as [Hp _]; [done|]. congruence.
    + intros e He. apply Hnil.
      destruct (printed_of evs) eqn:E; [done|].
      destruct Hp as [_ [resp Hp]]; [done|]. congruence.
Qed.

(** The last stage on a reply that is JSON. *)
Lemma finish_json url ep debug j st params :
  snapshot ep st = (Ok params, st) ->
  finish url ep debug (ReplyJson j) st
  = match safe_json_serialize params (VInt 4),
          safe_json_serialize (of_json j) (VInt 4) with
    | Ok pp, Ok bp =>
        (Ok (make_response url ep pp (of_json j) bp),
         mkState (heap st) (stdin st) (ticks st)
           (trace st ++ (if truthy debug then debug_events url pp bp else [])))
    | Raise e, _ => (Raise e, st)
    | Ok _, Raise e => (Raise e, st)
    end.
Proof.
  intros Hp.
  destruct (safe_json_serialize params (VInt 4)) as [pp|e1] eqn:E1.
  - destruct (safe_json_serialize (of_json j) (VInt 4)) as [bp|e2] eqn:E2.
    + apply finish_Ok. by exists j, params, pp, bp.
    + unfold finish, bind, reply_json, lift, ret. simpl.
      by rewrite Hp, E1, E2.
  - unfold finish, bind, reply_json, lift, ret. simpl.
    by rewrite Hp, E1.
Qed.

(** A key of a type that JSON does not accept makes the encoder raise,
    with or without a callback. *)
Lemma json_dumps_bad_keys default o :
  keys_ok o = false -> json_dumps default o = Raise TypeError.
Proof.
  induction o as [ |b|n|t|items IH|entries IH|q] using pyval_nested_ind;
    try discriminate.
  - intros Hk. rewrite json_dumps_list.
    assert (encode_items default items = Raise TypeError) as ->; [|done].
    simpl in Hk. induction IH as [|x rest Hx _ IHrest]; [done|].
    rewrite encode_items_cons. simpl in Hk.
    destruct (keys_ok x); simpl in Hk.
    + rewrite (IHrest Hk).
      destruct (json_dumps default x) as [s|e] eqn:E; [done|].
      by rewrite (json_dumps_Raise _ _ _ E).
    + by rewrite Hx.
  - intros Hk. rewrite json_dumps_dict.
    assert (encode_entries default entries = Raise TypeError) as ->; [|done].
    simpl in Hk. induction IH as [|[k v] rest Hx _ IHrest]; [done|].
    rewrite encode_entries_cons. simpl in Hk, Hx.
    destruct k; simpl in Hk |- *; try done;
      (destruct (keys_ok v); simpl in Hk;
       [rewrite (IHrest Hk);
        destruct (json_dumps default v) as [sv|ev] eqn:E; [done|];
        by rewrite (json_dumps_Raise _ _ _ E)
       |by rewrite Hx]).
Qed.



(** X6.  The text under [endpoint_params_pretty] of a result is written
    after the token has been attached: it is [null] when there are no
    parameters, and otherwise the serialization of the caller's dict as
    the call leaves it, which with a truthy [include_token] holds the
    session token. *)
Theorem makeApiCall_pretty_params_hold_token (w : World) (self : OmadaAPI)
    (url : pyval) (mode : string) (endpoint_params : option loc)
    (data json debug include_token bare_url : pyval) (st st' : State)
    (resp : response) :
  makeApiCall w self url mode endpoint_params data json debug include_token
    bare_url st = (Ok resp, st') ->
  exists pp,
    response_get resp "endpoint_params_pretty" = Some (Val (VStr pp))
    /\ match endpoint_params with
       | None => pp = "null"
       | Some l =>
           exists d',
             heap st' !! l = Some d'
             /\ safe_json_serialize (VDict d') (VInt 4) = Ok pp
             /\ (truthy include_token = true ->
                 dict_get d' "token" = Some (token self))
       end.
Proof.
  intros Hcall.
  apply makeApiCall_Ok in Hcall
    as (u & st1 & params & j & pp & bp & _ & Ha & _ & _ & Hp & _ & Hpp & _
        & -> & ->).
  exists pp. split; [done|].
  apply snapshot_Ok in Hp as [_ Hp].
  destruct endpoint_params as [l|].
  - destruct Hp as (d' & Hd' & ->). exists d'. simpl.
    split; [done|]. split; [done|].
    intros Hit. apply attach_token_Ok in Ha as (_ & _ & _ & Ht).
    destruct (Ht Hit) as (l0 & d & [= <-] & Hd & ->).
    simpl in Hd'. rewrite lookup_insert_eq in Hd'. injection Hd' as <-.
    apply dict_update_token.
  - subst params. vm_compute in Hpp. by injection Hpp as <-.
Qed.

Lemma makeApiCall_pretty_params_hold_token_witness :
  exists resp st',
    makeApiCall example_world example_self (VStr "/sites") "GET" (Some 0%nat)
      VNone VNone (VBool false) (VBool true) (VBool false) example_state
    = (Ok resp, st')
    /\ exists pp,
         response_get resp "endpoint_params_pretty" = Some (Val (VStr pp))
         /\ exists d',
              heap st' !! 0%nat = Some d'
              /\ safe_json_serialize (VDict d') (VInt 4) = Ok pp
              /\ (truthy (VBool true) = true ->
                  dict_get d' "token" = Some (token example_self)).
Proof.
  eexists _, _. split; [vm_compute; reflexivity|].
  apply (makeApiCall_pretty_params_hold_token example_world example_self
           (VStr "/sites") "GET" (Some 0%nat) VNone VNone (VBool false)
           (VBool true) (VBool false) example_state).
  vm_compute. reflexivity.
Defined.

(** ** Calls that follow one another *)

Lemma dict_set_set d k v v' :
  dict_set (dict_set d k v) k v' = dict_set d k v'.
Proof.
  induction d as [|[k0 v0] d IH]; cbn [dict_set].
  - destruct (decide (KStr k = KStr k)); congruence.
  - destruct (decide (k0 = KStr k)) as [->|Hne]; cbn [dict_set].
    + destruct (decide (KStr k = KStr k)); congruence.
    + destruct (decide (k0 = KStr k)); [congruence|]. by rewrite IH.
Qed.

Lemma dict_set_again d k1 k2 a b a' :
  k1 <> k2 ->
  dict_set (dict_set (dict_set d k1 a) k2 b) k1 a'
  = dict_set (dict_set d k1 a') k2 b.
Proof.
  intros Hne.
  assert (KStr k1 <> KStr k2) as Hk by congruence.
  assert (KStr k2 <> KStr k1) as Hk' by congruence.
  induction d as [|[k0 v0] d IH]; cbn [dict_set].
  - destruct (decide (KStr k1 = KStr k2)); [done|]. cbn [dict_set].
    destruct (decide (KStr k1 = KStr k1)); [|done].
    destruct (decide (KStr k1 = KStr k2)); done.
  - destruct (decide (k0 = KStr k1)) as [->|H1]; cbn [dict_set].
    + destruct (decide (KStr k1 = KStr k2)); [done|]. cbn [dict_set].
      destruct (decide (KStr k1 = KStr k1)); [|done].
      destruct (decide (KStr k1 = KStr k2)); done.
    + destruct (decide (k0 = KStr k2)) as [->|H2]; cbn [dict_set].
      * destruct (decide (KStr k2 = KStr k1)); [done|].
        destruct (decide (KStr k2 = KStr k2)); [|done].
        by rewrite dict_set_set.
      * destruct (decide (k0 = KStr k1)); [done|].
        destruct (decide (k0 = KStr k2)); [done|].
        by rewrite IH.
Qed.

(** Updating twice leaves what the second update alone would leave. *)
Lemma dict_update_twice d a b a' b' :
  dict_update (dict_update d [("token", a); ("_", b)])
    [("token", a'); ("_", b')]
  = dict_update d [("token", a'); ("_", b')].
Proof.
  unfold dict_update. cbn [fold_left fst snd].
  rewrite (dict_set_again d "token" "_" a b a') by done.
  by rewrite dict_set_set.
Qed.

(** The keys of an updated dict do not depend on the values put in. *)
Lemma dict_keys_update d a b a' b' :
  dict_keys (dict_update d [("token", a); ("_", b)])
  = dict_keys (dict_update d [("token", a'); ("_", b')]).
Proof.
  unfold dict_update. cbn [fold_left fst snd].
  by rewrite !dict_keys_set.
Qed.

(** What a returning call with a truthy [include_token] has done to the
    store and to the clock. *)
Lemma makeApiCall_Ok_token (w : World) self url mode l d data json debug it
    bu st resp st' :
  truthy it = true ->
  heap st !! l = Some d ->
  makeApiCall w self url mode (Some l) data json debug it bu st
  = (Ok resp, st') ->
  heap st' = <[l := dict_update d [("token", token self);
                                   ("_", VInt (clock w (ticks st)))]]> (heap st)
  /\ ticks st' = S (ticks st).
Proof.
  intros Hit Hl Hcall.
  apply makeApiCall_Ok in Hcall
    as (u & st1 & params & j & pp & bp & _ & Ha & _ & _ & _ & _ & _ & _ & _
        & ->).
  apply attach_token_Ok in Ha as (_ & _ & _ & Ht).
  destruct (Ht Hit) as (l0 & d0 & [= <-] & Hd & ->).
  rewrite Hl in Hd. injection Hd as <-. done.
Qed.

(** X7.  Two returning calls that are given the same dict, both with a
    truthy [include_token], leave it as the second call alone would have
    made it from the original: [token] is the token of the second call's
    instance, [_] is the second reading of the clock, and the dict has the
    keys it had after the first call, so it does not grow from call to
    call. *)
Theorem makeApiCall_twice_same_dict (w : World) (self self' : OmadaAPI)
    (url url' : pyval) (mode mode' : string) (l : loc) (d : pydict)
    (data json debug it bu data' json' debug' it' bu' : pyval)
    (st st1 st2 : State) (resp resp' : response) :
  truthy it = true ->
  truthy it' = true ->
  heap st !! l = Some d ->
  makeApiCall w self url mode (Some l) data json debug it bu st
  = (Ok resp, st1) ->
  makeApiCall w self' url' mode' (Some l) data' json' debug' it' bu' st1
  = (Ok resp', st2) ->
  exists d1 d2,
    heap st1 !! l = Some d1
    /\ heap st2 !! l = Some d2
    /\ d2 = dict_update d [("token", token self');
                           ("_", VInt (clock w (S (ticks st))))]
    /\ dict_keys d2 = dict_keys d1.
Proof.
  intros Hit Hit' Hl H1 H2.
  destruct (makeApiCall_Ok_token _ _ _ _ _ _ _ _ _ _ _ _ _ _ Hit Hl H1)
    as [Hh1 Ht1].
  assert (heap st1 !! l
          = Some (dict_update d [("token", token self);
                                 ("_", VInt (clock w (ticks st)))])) as Hl1.
  { rewrite Hh1. apply lookup_insert_eq. }
  destruct (makeApiCall_Ok_token _ _ _ _ _ _ _ _ _ _ _ _ _ _ Hit' Hl1 H2)
    as [Hh2 _].
  eexists _, _. split; [exact Hl1|].
  split; [rewrite Hh2; apply lookup_insert_eq|].
  rewrite Ht1, dict_update_twice. split; [done|].
  apply dict_keys_update.
Qed.

Lemma makeApiCall_twice_same_dict_witness :
  exists resp st1 resp' st2 d1 d2,
    makeApiCall example_world example_self (VStr "/sites") "GET" (Some 0%nat)
      VNone VNone (VBool false) (VBool true) (VBool false) example_state
    = (Ok resp, st1)
    /\ makeApiCall example_world example_self (VStr "/devices") "GET"
         (Some 0%nat) VNone VNone (VBool false) (VBool true) (VBool false) st1
       = (Ok resp', st2)
    /\ heap st1 !! 0%nat = Some d1
    /\ heap st2 !! 0%nat = Some d2
    /\ d2 = [(KStr "token", VStr "T0K"); (KStr "page", VInt 1);
             (KStr "_", VInt 1700000000001)]
    /\ dict_keys d2 = dict_keys d1.
Proof.
  eexists _, _, _, _.
  match goal with
  | |- exists d1 d2, ?c1 = (Ok ?r1, ?s1) /\ _ =>
      assert (c1 = (Ok r1, s1)) as H1 by (vm_compute; reflexivity)
  end.
  match goal with
  | |- exists d1 d2, _ /\ ?c2 = (Ok ?r2, ?s2) /\ _ =>
      assert (c2 = (Ok r2, s2)) as H2 by (vm_compute; reflexivity)
  end.
  destruct (makeApiCall_twice_same_dict example_world example_self
              example_self (VStr "/sites") (VStr "/devices") "GET" "GET"
              0%nat example_params VNone VNone (VBool false) (VBool true)
              (VBool false) VNone VNone (VBool false) (VBool true)
              (VBool false) example_state _ _ _ _
              eq_refl eq_refl eq_refl H1 H2)
    as (d1 & d2 & Hd1 & Hd2 & Hd & Hk).
  exists d1, d2. repeat split; try done.
Defined.

(** X8.  The mode is looked at last.  A call with a mode that is none of
    the three, a truthy [include_token] and a dict raises the
    [ValueError] only after it has read the clock and written the token
    and the timestamp into the caller's dict: the caller is left with a
    changed dict although nothing was sent. *)
Theorem makeApiCall_unsupported_mode_still_updates (w : World)
    (self : OmadaAPI) (url : pyval) (mode : string) (l : loc) (d : pydict)
    (data json debug include_token bare_url : pyval) (st : State) :
  (mode ∉ supported_modes) ->
  truthy include_token = true ->
  heap st !! l = Some d ->
  (truthy bare_url = true \/ exists u, path_to_url self url st = (Ok u, st)) ->
  makeApiCall w self url mode (Some l) data json debug include_token bare_url
    st
  = (Raise (ValueError ("Unsupported mode " ++ mode)),
     mkState
       (<[l := dict_update d [("token", token self);
                              ("_", VInt (clock w (ticks st)))]]> (heap st))
       (stdin st) (S (ticks st)) (trace st)).
Proof.
  intros Hm Hit Hl Hu.
  apply build_url_ok in Hu as [u Hu].
  rewrite makeApiCall_stages. fold (build_url self url bare_url).
  bind_step. rewrite Hu. bind_step.
  destruct (attach_token_inv w self (Some l) include_token st)
    as [[Hf _]|[(_ & ? & _)|[(l0 & _ & [= <-] & Hn & _)
                            |(l0 & d0 & _ & [= <-] & Hl0 & E)]]];
    [congruence..|].
  rewrite E. rewrite Hl in Hl0. injection Hl0 as <-.
  bind_step. by rewrite dispatch_unsupported.
Qed.

Lemma makeApiCall_unsupported_mode_still_updates_witness :
  makeApiCall example_world example_self (VStr "/sites") "DELETE" (Some 0%nat)
    VNone VNone (VBool false) (VBool true) (VBool false) example_state
  = (Raise (ValueError ("Unsupported mode " ++ "DELETE")),
     mkState
       (<[0%nat := dict_update example_params
                     [("token", token example_self);
                      ("_", VInt (clock example_world (ticks example_state)))]]>
          (heap example_state))
       (stdin example_state) (S (ticks example_state)) (trace example_state)).
Proof.
  apply (makeApiCall_unsupported_mode_still_updates example_world
           example_self (VStr "/sites") "DELETE" 0%nat example_params VNone
           VNone (VBool false) (VBool true) (VBool false) example_state).
  - unfold supported_modes. rewrite !elem_of_cons, elem_of_nil.
    intros [?|[?|[?|?]]]; done.
  - reflexivity.
  - reflexivity.
  - right. eexists. reflexivity.
Defined.

(** ** More on [safe_json_serialize] *)

(** X9.  For an object within the limits of the interpreter,
    [safe_json_serialize] raises exactly when some dict in it, at any
    depth, has a key of a type that [json.dumps] rejects (in the model:
    a key that is not str, int, bool or None), and the exception is then
    the [TypeError] of [json.dumps]; it returns a str exactly when there
    is no such key. *)
Theorem safe_json_serialize_raises_iff_bad_key (obj indent : pyval) :
  within_limits obj = true ->
  (keys_ok obj = true <-> exists s, safe_json_serialize obj indent = Ok s)
  /\ (keys_ok obj = false <-> safe_json_serialize obj indent = Raise TypeError)
  /\ (forall e, safe_json_serialize obj indent = Raise e -> e = TypeError).
Proof.
  intros _. unfold safe_json_serialize. split; [|split].
  - split; [apply json_dumps_total|].
    intros [s Hs]. destruct (keys_ok obj) eqn:Ek; [done|].
    rewrite (json_dumps_bad_keys _ _ Ek) in Hs. discriminate.
  - split; [apply json_dumps_bad_keys|].
    intros Hr. destruct (keys_ok obj) eqn:Ek; [|done].
    destruct (json_dumps_total placeholder obj Ek) as [s Hs]. congruence.
  - intros e. apply json_dumps_Raise.
Qed.

Lemma safe_json_serialize_raises_iff_bad_key_witness :
  within_limits
    (VDict [(KStr "a", VList [VDict [(KOther "tuple", VObj "PosixPath")]])])
  = true
  /\ safe_json_serialize
       (VDict [(KStr "a", VList [VDict [(KOther "tuple", VObj "PosixPath")]])])
       (VInt 4)
     = Raise TypeError.
Proof.
  split; [vm_compute; reflexivity|].
  destruct (safe_json_serialize_raises_iff_bad_key
              (VDict [(KStr "a",
                       VList [VDict [(KOther "tuple", VObj "PosixPath")]])])
              (VInt 4)) as (_ & [Hraise _] & _); [vm_compute; reflexivity|].
  exact (Hraise eq_refl).
Defined.

(** X10.  Whenever plain [json.dumps(obj)] returns, [safe_json_serialize]
    returns the same text: the callback only matters for values that
    [json.dumps] would reject. *)
Theorem safe_json_serialize_agrees_with_dumps (obj indent : pyval)
    (s : string) :
  json_dumps None obj = Ok s -> safe_json_serialize obj indent = Ok s.
Proof.
  unfold safe_json_serialize. revert s.
  induction obj as [ |b|n|t|items IH|entries IH|q] using pyval_nested_ind;
    try done.
  - intros s. rewrite !json_dumps_list.
    assert (forall ss, encode_items None items = Ok ss ->
                       encode_items (Some placeholder) items = Ok ss) as Hi.
    { induction IH as [|x rest Hx _ IHrest]; [done|].
      intros ss. rewrite !encode_items_cons.
      destruct (json_dumps None x) as [sx|] eqn:Ex; [|done].
      rewrite (Hx _ eq_refl).
      destruct (encode_items None rest) as [sr|] eqn:Er; [|done].
      by rewrite (IHrest _ eq_refl). }
    destruct (encode_items None items) as [ss|] eqn:E; [|done].
    by rewrite (Hi _ eq_refl).
  - intros s. rewrite !json_dumps_dict.
    assert (forall ss, encode_entries None entries = Ok ss ->
                       encode_entries (Some placeholder) entries = Ok ss) as Hi.
    { induction IH as [|[k v] rest Hx _ IHrest]; [done|].
      intros ss. rewrite !encode_entries_cons. simpl in Hx.
      destruct (encode_key k) as [sk|]; [|done]. simpl.
      destruct (json_dumps None v) as [sv|] eqn:Ev; [|done].
      rewrite (Hx _ eq_refl).
      destruct (encode_entries None rest) as [sr|] eqn:Er; [|done].
      by rewrite (IHrest _ eq_refl). }
    destruct (encode_entries None entries) as [ss|] eqn:E; [|done].
    by rewrite (Hi _ eq_refl).
Qed.

Lemma safe_json_serialize_agrees_with_dumps_witness :
  safe_json_serialize (VList [VInt 1; VBool true; VNone]) (VInt 4)
  = Ok "[1, true, null]".
Proof.
  apply (safe_json_serialize_agrees_with_dumps
           (VList [VInt 1; VBool true; VNone]) (VInt 4) "[1, true, null]").
  reflexivity.
Defined.

Lemma printable_app s t : printable (s ++ t) = printable s && printable t.
Proof.
  induction s as [|c s IH]; [done|].
  change (printable (String c (s ++ t))
          = printable (String c s) && printable t).
  cbn [printable]. by rewrite IH, andb_assoc.
Qed.

Lemma escape_char_printable c : printable (escape_char c) = true.
Proof. destruct c as [[] [] [] [] [] [] [] []]; vm_compute; reflexivity. Qed.

Lemma escape_string_printable s : printable (escape_string s) = true.
Proof.
  induction s as [|c s IH]; [done|].
  cbn [escape_string]. by rewrite printable_app, escape_char_printable, IH.
Qed.

Lemma encode_str_printable s : printable (encode_str s) = true.
Proof.
  unfold encode_str. by rewrite !printable_app, escape_string_printable.
Qed.

Lemma pretty_N_char_printable x :
  ((32 <=? N_of_ascii (pretty_N_char x))
   && (N_of_ascii (pretty_N_char x) <=? 126))%N = true.
Proof.
  destruct x as [|p]; [reflexivity|].
  do 4 (try destruct p as [p|p|]); reflexivity.
Qed.

Lemma pretty_N_go_printable x s :
  printable s = true -> printable (pretty_N_go x s) = true.
Proof.
  revert s. induction (N.lt_wf_0 x) as [x _ IH]; intros s Hs.
  destruct (decide (x = 0%N)) as [->|Hx].
  - by rewrite pretty_N_go_0.
  - rewrite pretty_N_go_step by lia.
    apply IH; [apply N.div_lt; lia|].
    cbn [printable]. by rewrite pretty_N_char_printable, Hs.
Qed.

Lemma pretty_Z_printable (n : Z) : printable (pretty n) = true.
Proof.
  assert (HN : forall x : N, printable (pretty x) = true).
  { intros x. unfold pretty, pretty_N. case_decide; [done|].
    by apply pretty_N_go_printable. }
  destruct n as [|p|p]; unfold pretty, pretty_Z; [done|apply HN|].
  change ("-" +:+ pretty p) with ("-" ++ pretty (Npos p)).
  by rewrite printable_app, HN.
Qed.

Lemma join_printable parts :
  Forall (fun p => printable p = true) parts ->
  printable (join ", " parts) = true.
Proof.
  induction 1 as [|p rest Hp Hrest IH]; [done|].
  destruct rest as [|q rest]; [done|].
  change (join ", " (p :: q :: rest)) with (p ++ ", " ++ join ", " (q :: rest)).
  by rewrite !printable_app, Hp, IH.
Qed.

Lemma encode_key_printable k s :
  encode_key k = Ok s -> printable s = true.
Proof.
  destruct k as [t|n|[]| |q]; simpl; intros H; simplify_eq; try done.
  - apply encode_str_printable.
  - by rewrite !printable_app, pretty_Z_printable.
Qed.

(** X11.  The text that [safe_json_serialize] returns consists of
    printable ASCII characters only, whatever characters the strs, the
    keys and the type names of the value contain: everything else is
    escaped. *)
Theorem safe_json_serialize_printable (obj indent : pyval) (s : string) :
  safe_json_serialize obj indent = Ok s -> printable s = true.
Proof.
  unfold safe_json_serialize. revert s.
  induction obj as [ |b|n|t|items IH|entries IH|q] using pyval_nested_ind;
    intros s Hs.
  - by simplify_eq/=.
  - destruct b; by simplify_eq/=.
  - simpl in Hs. simplify_eq. apply pretty_Z_printable.
  - simpl in Hs. simplify_eq. apply encode_str_printable.
  - rewrite json_dumps_list in Hs.
    assert (Hparts : forall ss, encode_items (Some placeholder) items = Ok ss ->
              Forall (fun p => printable p = true) ss).
    { clear Hs. induction IH as [|x rest Hx _ IHrest]; intros ss Hss.
      - simpl in Hss. by simplify_eq.
      - rewrite encode_items_cons in Hss.
        destruct (json_dumps (Some placeholder) x) as [sx|] eqn:Ex; [|done].
        destruct (encode_items (Some placeholder) rest) as [sr|] eqn:Er; [|done].
        simpl in Hss. simplify_eq. constructor; eauto. }
    destruct (encode_items (Some placeholder) items) as [ss|] eqn:E; [|done].
    simpl in Hs. simplify_eq.
    by rewrite !printable_app, join_printable by eauto.
  - rewrite json_dumps_dict in Hs.
    assert (Hparts : forall ss, encode_entries (Some placeholder) entries = Ok ss ->
              Forall (fun p => printable p = true) ss).
    { clear Hs. induction IH as [|[k v] rest Hx _ IHrest]; intros ss Hss.
      - simpl in Hss. by simplify_eq.
      - rewrite encode_entries_cons in Hss.
        destruct (encode_key k) as [sk|] eqn:Ek; [|done].
        destruct (json_dumps (Some placeholder) v) as [sv|] eqn:Ev; [|done].
        destruct (encode_entries (Some placeholder) rest) as [sr|] eqn:Er; [|done].
        simpl in Hss. simplify_eq. constructor; [|eauto].
        rewrite !printable_app, (encode_key_printable _ _ Ek).
        simpl in Hx. by rewrite (Hx _ Ev). }
    destruct (encode_entries (Some placeholder) entries) as [ss|] eqn:E; [|done].
    simpl in Hs. simplify_eq.
    by rewrite !printable_app, join_printable by eauto.
  - simpl in Hs. simplify_eq. apply encode_str_printable.
Qed.

Lemma safe_json_serialize_printable_witness :
  printable
    (dquote ++ "caf" ++ backslash ++ "u00e9" ++ backslash ++ "n" ++ dquote)
  = true.
Proof.
  apply (safe_json_serialize_printable
           (VStr ("caf" ++ String (ascii_of_nat 233) (String (ascii_of_nat 10)
                                                        EmptyString)))
           (VInt 4)).
  reflexivity.
Defined.

(** ** URLs *)

(** X12.  [path_to_url] returns exactly when [baseurl] and the path are
    both strs, and then with their concatenation around [base_api_path];
    otherwise it raises [TypeError], or [AttributeError] when [baseurl]
    has not been assigned.  It never changes the state. *)
Theorem path_to_url_returns_iff_strs (self : OmadaAPI) (path : pyval)
    (st : State) :
  (forall u st',
     path_to_url self path st = (Ok u, st') <->
     exists b p, baseurl self = Some (VStr b) /\ path = VStr p
                 /\ u = VStr (b ++ base_api_path self ++ p) /\ st' = st)
  /\ (forall e st',
        path_to_url self path st = (Raise e, st') ->
        st' = st
        /\ ((e = TypeError /\ is_Some (baseurl self))
            \/ (e = AttributeError /\ baseurl self = None))).
Proof.
  split.
  - intros u st'. split.
    + unfold path_to_url, bind, getattr, lift, ret, raise.
      destruct (baseurl self) as [b|]; [|done].
      destruct b as [ | | |b| | | ]; try done.
      destruct path as [ | | |p| | | ]; try done.
      simpl. intros [= <- <-]. exists b, p.
      by rewrite string_app_assoc.
    + intros (b & p & Hb & -> & -> & ->). by apply path_to_url_str.
  - intros e st'.
    unfold path_to_url, bind, getattr, lift, ret, raise.
    destruct (baseurl self) as [b|]; [|intros [= <- <-]; split; [done|by right]].
    destruct (py_add b _) as [x|e1] eqn:E1.
    + destruct (py_add x path) as [y|e2] eqn:E2; [done|].
      intros [= <- <-]. apply py_add_Raise in E2 as ->.
      split; [done|]. left. by split.
    + intros [= <- <-]. apply py_add_Raise in E1 as ->.
      split; [done|]. left. by split.
Qed.

Lemma py_add_None_r x : py_add x VNone = Raise TypeError.
Proof. by destruct x. Qed.

(** X13.  The [url] argument has the default [None], which is not a
    usable value: with a falsy [bare_url] a call without [url] raises
    ([TypeError] from the concatenation, or [AttributeError] when
    [baseurl] has not been assigned) and has no effect at all. *)
Theorem makeApiCall_without_url_raises (w : World) (self : OmadaAPI)
    (mode : string) (endpoint_params : option loc)
    (data json debug include_token bare_url : pyval) (st : State) :
  truthy bare_url = false ->
  makeApiCall w self VNone mode endpoint_params data json debug include_token
    bare_url st
  = (Raise (match baseurl self with
            | Some _ => TypeError
            | None => AttributeError
            end), st).
Proof.
  intros Hbu. rewrite makeApiCall_stages. bind_step. rewrite Hbu.
  unfold path_to_url, bind, getattr, lift, ret, raise.
  destruct (baseurl self) as [b|]; [|done].
  destruct (py_add b _) as [x|e] eqn:E.
  - by rewrite py_add_None_r.
  - by apply py_add_Raise in E as ->.
Qed.

Lemma makeApiCall_without_url_raises_witness :
  makeApiCall example_world example_self VNone "GET" (Some 0%nat) VNone VNone
    (VBool false) (VBool true) (VBool false) example_state
  = (Raise (match baseurl example_self with
            | Some _ => TypeError
            | None => AttributeError
            end), example_state).
Proof.
  apply (makeApiCall_without_url_raises example_world example_self "GET"
           (Some 0%nat) VNone VNone (VBool false) (VBool true) (VBool false)
           example_state).
  reflexivity.
Defined.

(** ** More on [login] and [login_prompt] *)

(** After its call of [makeApiCall], [login] only reads the result. *)
Lemma login_state (w : World) self st u p :
  login_username self = Some u ->
  login_password self = Some p ->
  (login w self st).2
  = (makeApiCall w self (VStr "/login") "POST" None VNone
       (VDict [(KStr "username", u); (KStr "password", p)])
       (VBool true) (VBool false) (VBool false) st).2.
Proof.
  intros Hu Hp. unfold login. bind_step. rewrite Hu. simpl.
  bind_step. rewrite Hp. simpl. bind_step.
  destruct (makeApiCall w self _ _ _ _ _ _ _ _ st) as [[resp|e] st1]; [|done].
  simpl. bind_step. unfold response_getitem.
  destruct (response_get resp "json_data") as [o|]; [|done].
  simpl. bind_step.
  destruct (obj_getitem o "result" st1) as [[r|e] st2] eqn:Eo.
  - assert (st2 = st1) as ->.
    { destruct o as [l|v]; simpl in Eo.
      - unfold bind, deref, lift in Eo.
        destruct (heap st1 !! l); by injection Eo.
      - unfold lift in Eo. by injection Eo. }
    bind_step. unfold lift. by destruct (py_getitem r "token").
  - simpl. destruct o as [l|v]; simpl in Eo.
    + unfold bind, deref, lift, raise in Eo.
      destruct (heap st1 !! l); by injection Eo.
    + unfold lift in Eo. by injection Eo.
Qed.

(** X14.  Whatever its outcome, [login] leaves the store, the clock and
    the input alone and sends at most one request: a [POST] without
    parameters and without a token, whose JSON body is the dict of the
    two credentials of the instance. *)
Theorem login_sends_credentials_only (w : World) (self : OmadaAPI)
    (st : State) :
  let st' := (login w self st).2 in
  heap st' = heap st /\ ticks st' = ticks st /\ stdin st' = stdin st
  /\ (requests_of (trace st') = requests_of (trace st)
      \/ exists url u p,
           login_username self = Some u
           /\ login_password self = Some p
           /\ requests_of (trace st')
              = (requests_of (trace st)
                 ++ [mkRequest "POST" url VNone VNone
                       (VDict [(KStr "username", u);
                               (KStr "password", p)])])%list).
Proof.
  cbv zeta.
  destruct (login_username self) as [u|] eqn:Hu;
    [|unfold login; bind_step; rewrite Hu; simpl; by repeat split; try left].
  destruct (login_password self) as [p|] eqn:Hp;
    [|unfold login; bind_step; rewrite Hu; simpl; bind_step; rewrite Hp;
      simpl; by repeat split; try left].
  rewrite (login_state w self st u p Hu Hp).
  destruct (makeApiCall_state w self (VStr "/login") "POST" None VNone
              (VDict [(KStr "username", u); (KStr "password", p)])
              (VBool true) (VBool false) (VBool false) st)
    as (st1 & evs & Hst & Hst1 & _).
  assert (st1 = st) as ->.
  { destruct Hst1 as [?|Ha]; [done|]. by injection Ha. }
  cbv zeta in Hst.
  split; [by rewrite Hst|]. split; [by rewrite Hst|]. split; [by rewrite Hst|].
  destruct (makeApiCall_requests w self (VStr "/login") "POST" None VNone
              (VDict [(KStr "username", u); (KStr "password", p)])
              (VBool true) (VBool false) (VBool false) st)
    as [Hnone|(url & st1 & params & _ & Ha & _ & Hp' & Hone)];
    [by left|right].
  injection Ha as <-. injection Hp' as <-.
  exists url, u, p. by repeat split.
Qed.

(** The call that [login] makes, when it can be made and is answered
    with JSON. *)
Lemma login_call (w : World) self st s b u p d :
  session self = Some s ->
  baseurl self = Some (VStr b) ->
  server w (requests_of (trace st)) (login_request b self u p) = ReplyJson d ->
  exists bp,
    safe_json_serialize (of_json d) (VInt 4) = Ok bp
    /\ makeApiCall w self (VStr "/login") "POST" None VNone
         (VDict [(KStr "username", u); (KStr "password", p)])
         (VBool true) (VBool false) (VBool false) st
       = (Ok (make_response (VStr (b ++ base_api_path self ++ "/login")) None
                "null" (of_json d) bp),
          mkState (heap st) (stdin st) (ticks st)
            (trace st ++ Sent (login_request b self u p)
                      :: debug_events
                           (VStr (b ++ base_api_path self ++ "/login"))
                           "null" bp)).
Proof.
  intros Hs Hb Hr.
  destruct (json_dumps_total placeholder (of_json d) (of_json_keys_ok d))
    as [bp Hbp].
  exists bp. split; [done|].
  apply makeApiCall_Ok.
  exists (VStr (b ++ base_api_path self ++ "/login")), st, VNone, d, "null", bp.
  split; [by apply path_to_url_str|].
  split; [reflexivity|].
  split; [apply elem_of_cons; right; apply elem_of_cons; by left|].
  split; [by eexists|].
  repeat split; try done.
Qed.

(** X15.  [login] runs its call with [debug=True]: whenever its request is
    answered with JSON, it prints the URL, [null] for the parameters and
    the whole body of the reply, which is where the session token is, and
    it does so before it looks for the token, so also when the body has no
    [result] and [login] then raises.  The credentials are not printed. *)
Theorem login_prints_reply (w : World) (self : OmadaAPI) (st : State)
    (s : Session) (b : string) (u p : pyval) (d : json) :
  session self = Some s ->
  baseurl self = Some (VStr b) ->
  login_username self = Some u ->
  login_password self = Some p ->
  server w (requests_of (trace st)) (login_request b self u p) = ReplyJson d ->
  exists body,
    safe_json_serialize (of_json d) (VInt 4) = Ok body
    /\ printed_of (trace (login w self st).2)
       = (printed_of (trace st)
          ++ [Printed (VStr (nl ++ "URL:"));
              Printed (VStr (b ++ base_api_path self ++ "/login"));
              Printed (VStr (nl ++ "Endpoint Params:"));
              Printed (VStr "null");
              Printed (VStr (nl ++ "Response:"));
              Printed (VStr body)])%list.
Proof.
  intros Hs Hb Hu Hp Hr.
  destruct (login_call w self st s b u p d Hs Hb Hr) as (bp & Hbp & Hcall).
  exists bp. split; [done|].
  rewrite (login_state w self st u p Hu Hp), Hcall. simpl.
  by rewrite printed_of_app.
Qed.

Lemma login_prints_reply_witness :
  exists body,
    safe_json_serialize
      (of_json (JObj [("errorCode", JNum 0);
                      ("result", JObj [("token", JStr "T0K")])])) (VInt 4)
    = Ok body
    /\ printed_of (trace (login example_world example_self example_state).2)
       = (printed_of (trace example_state)
          ++ [Printed (VStr (nl ++ "URL:"));
              Printed (VStr ("https://omada:8043"
                             ++ base_api_path example_self ++ "/login"));
              Printed (VStr (nl ++ "Endpoint Params:"));
              Printed (VStr "null");
              Printed (VStr (nl ++ "Response:"));
              Printed (VStr body)])%list.
Proof.
  apply (login_prints_reply example_world example_self example_state
           (mkSession (VBool false)) "https://omada:8043" (VStr "admin")
           (VStr "secret")); reflexivity.
Defined.

(** X16.  What the user types at the two prompts of [login_prompt] has no
    influence on anything: with any two lines typed, the result, the
    requests, the output and the state afterwards are the same.  The
    credentials typed are read and dropped. *)
Theorem login_prompt_ignores_input (w : World) (self : OmadaAPI) (st : State)
    (name password name' password' : string) (rest : list string) :
  login_prompt w self (with_stdin st (name :: password :: rest))
  = login_prompt w self (with_stdin st (name' :: password' :: rest)).
Proof.
  unfold login_prompt, with_stdin.
  rewrite !(bind_eq (input _)). unfold input at 1 3. cbn [stdin heap ticks trace].
  rewrite !(bind_eq (input _)). unfold input. cbn [stdin heap ticks trace].
  reflexivity.
Qed.

(** X17.  [login_prompt] needs two lines of input: when standard input
    ends before, it raises [EOFError] after the prompt it could not get an
    answer to, with nothing sent and the store as it was. *)
Theorem login_prompt_needs_two_lines (w : World) (self : OmadaAPI)
    (st : State) :
  (length (stdin st) < 2)%nat ->
  exists st',
    login_prompt w self st = (Raise EOFError, st')
    /\ stdin st' = []
    /\ heap st' = heap st
    /\ requests_of (trace st') = requests_of (trace st).
Proof.
  intros Hlen. unfold login_prompt.
  rewrite bind_eq. unfold input at 1.
  destruct (stdin st) as [|a [|b rest]] eqn:Hin; simpl in Hlen; [| |lia].
  - eexists. split; [reflexivity|]. simpl.
    repeat split. by rewrite requests_of_app, app_nil_r.
  - rewrite bind_eq. unfold input. simpl.
    eexists. split; [reflexivity|]. simpl.
    repeat split. by rewrite !requests_of_app, !app_nil_r.
Qed.

Lemma login_prompt_needs_two_lines_witness :
  exists st',
    login_prompt example_world example_self
      (with_stdin example_state ["admin"])
    = (Raise EOFError, st')
    /\ stdin st' = []
    /\ heap st' = heap (with_stdin example_state ["admin"])
    /\ requests_of (trace st')
       = requests_of (trace (with_stdin example_state ["admin"])).
Proof.
  apply (login_prompt_needs_two_lines example_world example_self
           (with_stdin example_state ["admin"])).
  simpl. lia.
Defined.

(** ** More on [__init__] *)

Lemma py_getitem_Raise v k e :
  py_getitem v k = Raise e -> e = TypeError \/ e = KeyError k.
Proof.
  destruct v as [ | | | | |entries| ]; simpl; try (intros [= <-]; by left).
  destruct (dict_get entries k); [done|]. intros [= <-]. by right.
Qed.

(** The five settings that [__init__] reads from the config file, in the
    order in which it reads them. *)
Lemma init_config_lookups (w : World) fpath cfg b s v st :
  fs w fpath = YamlFile cfg ->
  (exists e k,
     k ∈ ["baseurl"; "site"; "verify"; "username"; "password"]
     /\ py_getitem cfg k = Raise e
     /\ __init__ w fpath b s v st = (Raise e, st))
  \/ (exists cb cs cv cu cp,
        py_getitem cfg "baseurl" = Ok cb /\ py_getitem cfg "site" = Ok cs
        /\ py_getitem cfg "verify" = Ok cv /\ py_getitem cfg "username" = Ok cu
        /\ py_getitem cfg "password" = Ok cp
        /\ __init__ w fpath b s v st
           = bind (login w (mkOmadaAPI fpath VNone "/api/v2" (Some cfg)
                              (Some cb) (Some cs) (Some cv) (Some cu)
                              (Some cp) (Some (mkSession cv)) None))
               (fun ts => ret (set_login_token ts.2 ts.1)) st).
Proof.
  intros Hfs. unfold __init__. rewrite Hfs.
  rewrite !bind_eq. unfold read_yml. rewrite Hfs. simpl.
  rewrite !bind_eq. unfold lift.
  destruct (py_getitem cfg "baseurl") as [cb|e] eqn:Eb.
  2:{ left. exists e, "baseurl". split; [|done]. set_solver. }
  rewrite !bind_eq.
  destruct (py_getitem cfg "site") as [cs|e] eqn:Es.
  2:{ left. exists e, "site". split; [|done]. set_solver. }
  rewrite !bind_eq.
  destruct (py_getitem cfg "verify") as [cv|e] eqn:Ev.
  2:{ left. exists e, "verify". split; [|done]. set_solver. }
  rewrite !bind_eq.
  destruct (py_getitem cfg "username") as [cu|e] eqn:Eu.
  2:{ left. exists e, "username". split; [|done]. set_solver. }
  rewrite !bind_eq.
  destruct (py_getitem cfg "password") as [cp|e] eqn:Ep.
  2:{ left. exists e, "password". split; [|done]. set_solver. }
  right. exists cb, cs, cv, cu, cp. by repeat split.
Qed.

(** X18.  A config file that cannot be used stops [__init__] before it
    does anything: if the file is not valid YAML it raises the loader's
    error; if the loaded value lacks one of the five keys, or is not a
    mapping, it raises [KeyError] for one of them, or [TypeError].  In
    both cases no session has been used and nothing has been sent, printed
    or read. *)
Theorem init_config_errors (w : World) (fpath : string)
    (baseurl_arg site_arg verify_arg : pyval) (st : State) :
  (fs w fpath = BadFile ->
   __init__ w fpath baseurl_arg site_arg verify_arg st = (Raise YAMLError, st))
  /\ (forall cfg k,
        fs w fpath = YamlFile cfg ->
        k ∈ ["baseurl"; "site"; "verify"; "username"; "password"] ->
        (forall x, py_getitem cfg k <> Ok x) ->
        exists e,
          __init__ w fpath baseurl_arg site_arg verify_arg st = (Raise e, st)
          /\ (e = TypeError
              \/ exists k', k' ∈ ["baseurl"; "site"; "verify"; "username";
                                  "password"]
                            /\ e = KeyError k')).
Proof.
  split.
  - intros Hfs. unfold __init__. rewrite Hfs.
    rewrite !bind_eq. unfold read_yml. by rewrite Hfs.
  - intros cfg k Hfs Hk Hmiss.
    destruct (init_config_lookups w fpath cfg baseurl_arg site_arg verify_arg
                st Hfs)
      as [(e & k' & Hk' & He & Hinit)
         |(cb & cs & cv & cu & cp & Hb & Hs & Hv & Hu & Hp & _)].
    + exists e. split; [done|].
      apply py_getitem_Raise in He as [->| ->]; [by left|right; eauto].
    + exfalso.
      rewrite !elem_of_cons, elem_of_nil in Hk.
      destruct Hk as [->|[->|[->|[->|[->|[]]]]]];
        eapply Hmiss; eassumption.
Qed.

Lemma bind_ret_state {A B} (c : M A) (f : A -> B) st :
  (bind c (fun a => ret (f a)) st).2 = (c st).2.
Proof. rewrite bind_eq. by destruct (c st) as [[a|e] st']. Qed.

(** X19.  When the config file exists, [__init__] never asks the user:
    whatever its outcome, it reads nothing from standard input, changes
    neither the store nor the clock, and sends at most one request, the
    [POST] of [login] with the [username] and [password] of the file as
    its JSON body. *)
Theorem init_from_config_frame (w : World) (fpath : string)
    (baseurl_arg site_arg verify_arg : pyval) (st : State) :
  fs w fpath <> NoFile ->
  let st' := (__init__ w fpath baseurl_arg site_arg verify_arg st).2 in
  stdin st' = stdin st /\ heap st' = heap st /\ ticks st' = ticks st
  /\ (requests_of (trace st') = requests_of (trace st)
      \/ exists cfg url u p,
           fs w fpath = YamlFile cfg
           /\ py_getitem cfg "username" = Ok u
           /\ py_getitem cfg "password" = Ok p
           /\ requests_of (trace st')
              = (requests_of (trace st)
                 ++ [mkRequest "POST" url VNone VNone
                       (VDict [(KStr "username", u);
                               (KStr "password", p)])])%list).
Proof.
  intros Hfs. cbv zeta.
  destruct (fs w fpath) as [ |cfg| ] eqn:Efs; [done| |].
  2:{ unfold __init__. rewrite Efs. rewrite !bind_eq. unfold read_yml.
      rewrite Efs. simpl. by repeat split; try left. }
  destruct (init_config_lookups w fpath cfg baseurl_arg site_arg verify_arg
              st Efs)
    as [(e & k' & _ & _ & ->)
       |(cb & cs & cv & cu & cp & _ & _ & _ & Hu & Hp & ->)].
  { simpl. by repeat split; try left. }
  rewrite bind_ret_state.
  match goal with
  | |- context [login w ?o st] =>
      rewrite (login_state w o st cu cp eq_refl eq_refl)
  end.
  match goal with
  | |- context [makeApiCall w ?o ?a1 ?a2 ?a3 ?a4 ?a5 ?a6 ?a7 ?a8 st] =>
      destruct (makeApiCall_state w o a1 a2 a3 a4 a5 a6 a7 a8 st)
        as (st1 & evs & Hst & Hst1 & _);
      destruct (makeApiCall_requests w o a1 a2 a3 a4 a5 a6 a7 a8 st)
        as [Hnone|(url & st1' & params & _ & Ha & _ & Hp' & Hone)]
  end.
  all: assert (st1 = st) as -> by (destruct Hst1 as [?|Ha0]; [done|];
                                   by injection Ha0).
  all: cbv zeta in Hst.
  all: split; [by rewrite Hst|]; split; [by rewrite Hst|];
       split; [by rewrite Hst|].
  - by left.
  - right. injection Ha as <-. injection Hp' as <-.
    exists cfg, url, cu, cp. by repeat split.
Qed.

Lemma init_from_config_frame_witness :
  let st' := (__init__ example_world "config.yml" VNone (VStr "Default")
                (VBool true) example_state).2 in
  stdin st' = stdin example_state /\ heap st' = heap example_state
  /\ ticks st' = ticks example_state
  /\ (requests_of (trace st') = requests_of (trace example_state)
      \/ exists cfg url u p,
           fs example_world "config.yml" = YamlFile cfg
           /\ py_getitem cfg "username" = Ok u
           /\ py_getitem cfg "password" = Ok p
           /\ requests_of (trace st')
              = (requests_of (trace example_state)
                 ++ [mkRequest "POST" url VNone VNone
                       (VDict [(KStr "username", u);
                               (KStr "password", p)])])%list).
Proof.
  apply (init_from_config_frame example_world "config.yml" VNone
           (VStr "Default") (VBool true) example_state).
  discriminate.
Defined.

(** When [__init__] returns, it has gone through the config file, and its
    last step was a [login] that returned. *)
Lemma init_Ok_login (w : World) fpath b s v st self st1 :
  __init__ w fpath b s v st = (Ok self, st1) ->
  exists self0 tok,
    login w self0 st = (Ok (tok, set_token self0 tok), st1)
    /\ self = set_login_token (set_token self0 tok) tok.
Proof.
  intros H.
  destruct (fs w fpath) as [ |cfg| ] eqn:Efs.
  - exfalso. unfold __init__ in H. rewrite Efs in H.
    apply bind_Ok in H as (self1 & st2 & H1 & _).
    apply bind_Ok in H1 as (up & st3 & Hp & _).
    unfold login_prompt in Hp.
    apply bind_Ok in Hp as (? & ? & _ & Hp).
    apply bind_Ok in Hp as (? & ? & _ & Hp).
    apply bind_Ok in Hp as (? & ? & _ & Hp).
    apply bind_Ok in Hp as (resp & ? & Hcall & _).
    apply makeApiCall_Ok in Hcall
      as (? & ? & ? & ? & ? & ? & _ & _ & _ & Hsession & _).
    by destruct Hsession.
  - destruct (init_config_lookups w fpath cfg b s v st Efs)
      as [(e & k' & _ & _ & E)
         |(cb & cs & cv & cu & cp & _ & _ & _ & _ & _ & E)];
      rewrite E in H; [done|].
    apply bind_Ok in H as ([tok self'] & st2 & Hlogin & H).
    injection H as <- <-.
    pose proof Hlogin as Hl.
    apply login_Ok in Hl as (-> & _).
    eexists _, tok. by split.
  - exfalso. unfold __init__ in H. rewrite Efs in H.
    apply bind_Ok in H as (self1 & st2 & H1 & _).
    apply bind_Ok in H1 as (? & ? & Hy & _).
    unfold read_yml in Hy. by rewrite Efs in Hy.
Qed.

(** X20.  From the constructor to a later call: when [__init__] returns,
    it has sent exactly one request, whose reply had a body [d], and the
    token of the instance (also kept as [login_token]) is
    [d["result"]["token"]]; every request that a later [makeApiCall] of
    this instance sends with a truthy [include_token] carries that value
    as its [token] parameter. *)
Theorem init_token_reaches_requests (w : World) (fpath : string)
    (baseurl_arg site_arg verify_arg : pyval) (st st1 : State)
    (self : OmadaAPI) :
  __init__ w fpath baseurl_arg site_arg verify_arg st = (Ok self, st1) ->
  exists r0 d tok,
    requests_of (trace st1) = (requests_of (trace st) ++ [r0])%list
    /\ server w (requests_of (trace st)) r0 = ReplyJson d
    /\ result_token (of_json d) = Ok tok
    /\ token self = tok
    /\ login_token self = Some tok
    /\ forall url mode ep data json debug it bu st2 r,
         truthy it = true ->
         requests_of
           (trace (makeApiCall w self url mode ep data json debug it bu
                     st2).2)
         = (requests_of (trace st2) ++ [r])%list ->
         exists params,
           req_params r = VDict params
           /\ dict_get params "token" = Some tok.
Proof.
  intros H.
  apply init_Ok_login in H as (self0 & tok & Hlogin & ->).
  apply login_Ok in Hlogin as (_ & u & p & url0 & d & _ & _ & Hr & Hs & Ht).
  eexists _, d, tok. split; [exact Hr|]. split; [exact Hs|].
  split; [exact Ht|]. split; [done|]. split; [done|].
  intros url mode ep data json debug it bu st2 r Hit Hreq.
  match type of Hreq with
  | context [makeApiCall w ?o _ _ _ _ _ _ _ _ _] => set (me := o) in *
  end.
  destruct (makeApiCall_requests w me url mode ep data json debug it bu st2)
    as [Hnone|(u' & st3 & params & _ & Ha & _ & Hp & Hone)].
  { rewrite Hnone in Hreq. apply (f_equal length) in Hreq.
    rewrite length_app in Hreq. simpl in Hreq. lia. }
  rewrite Hone in Hreq. apply app_inv_head in Hreq. injection Hreq as <-.
  apply attach_token_Ok in Ha as (_ & _ & _ & Hw).
  destruct (Hw Hit) as (l & d0 & -> & Hl & ->).
  apply snapshot_Ok in Hp as [_ (d' & Hd' & ->)].
  simpl in Hd'. rewrite lookup_insert_eq in Hd'. injection Hd' as <-.
  eexists. split.
  - unfold request_for. by destruct (String.eqb mode "GET").
  - apply dict_update_token.
Qed.

Lemma init_token_reaches_requests_witness :
  exists self st1 r0 d tok,
    __init__ example_world "config.yml" VNone (VStr "Default") (VBool true)
      example_state = (Ok self, st1)
    /\ requests_of (trace st1)
       = (requests_of (trace example_state) ++ [r0])%list
    /\ server example_world (requests_of (trace example_state)) r0
       = ReplyJson d
    /\ result_token (of_json d) = Ok tok
    /\ token self = tok
    /\ tok = VStr "T0K".
Proof.
  eexists _, _.
  match goal with
  | |- exists r0 d tok, ?c = (Ok ?o, ?s) /\ _ =>
      assert (c = (Ok o, s)) as H by (vm_compute; reflexivity);
      destruct (init_token_reaches_requests _ _ _ _ _ _ _ _ H)
        as (r0 & d & tok & H1 & H2 & H3 & H4 & _)
  end.
  exists r0, d, tok. repeat split; try done.
Defined.

(** X21.  The script needs its config file.  Run where [config.yml] does
    not exist, it asks for the two credentials and then fails in every
    case: with [EOFError] if fewer than two lines can be read, and
    otherwise, because [baseurl] has its default [None], with the
    [TypeError] of [None + "/api/v2"], after both lines have been read and
    before anything is sent. *)
Theorem main_without_config (w : World) (st : State) :
  fs w "config.yml" = NoFile ->
  exists st',
    main w st
    = (Raise (if decide (length (stdin st) < 2)%nat then EOFError
              else TypeError), st')
    /\ stdin st' = drop 2 (stdin st)
    /\ requests_of (trace st') = requests_of (trace st)
    /\ printed_of (trace st') = printed_of (trace st).
Proof.
  intros Hfs. unfold main, __init__. rewrite Hfs.
  destruct st as [h input_lines t tr]. cbn [stdin trace].
  destruct input_lines as [|a [|b rest]].
  - eexists. split; [reflexivity|]. cbn [stdin trace drop].
    rewrite requests_of_app, printed_of_app, !app_nil_r. by repeat split.
  - eexists. split; [reflexivity|]. cbn [stdin trace drop].
    rewrite !requests_of_app, !printed_of_app, !app_nil_r. by repeat split.
  - eexists. split; [reflexivity|]. cbn [stdin trace drop].
    rewrite !requests_of_app, !printed_of_app, !app_nil_r. by repeat split.
Qed.

Lemma main_without_config_witness :
  exists st',
    main (mkWorld (clock example_world) (server example_world)
            (fun _ => NoFile)) example_state
    = (Raise (if decide (length (stdin example_state) < 2)%nat then EOFError
              else TypeError), st')
    /\ stdin st' = drop 2 (stdin example_state)
    /\ requests_of (trace st') = requests_of (trace example_state)
    /\ printed_of (trace st') = printed_of (trace example_state).
Proof.
  apply (main_without_config
           (mkWorld (clock example_world) (server example_world)
              (fun _ => NoFile)) example_state).
  reflexivity.
Defined.
